(** * netenv: the in-process batched environment

    A shallow embedding of [netenv/client_server_test.py]: the Python
    object store, the numpy arrays the environments hold, the seeded test
    environment [_SimpleEnv], the image environment [ImageEnv], the
    batching adapter [Vectorize], the calls [test_simple_env] makes on its
    in-process batch and the rollout of [env_speed].  The transport modules ([netenv/client.py],
    [netenv/server.py]) are imported by the test but are not part of the
    sources and are not modelled. *)

From Stdlib Require Import ZArith QArith Qabs Qround Qpower Lia Lqa.
From stdpp Require Import base option list strings.

Local Open Scope Z_scope.

(** ** Python exceptions and the state-and-exception monad *)

Inductive exn : Type :=
  | TypeError
  | ValueError
  | IndexError
  | KeyError
  | AssertionError
  | AttributeError
  | ZeroDivisionError
  | SystemError        (* a dangling reference: unreachable from Python *)
  | NotModelled        (* numpy behaviour outside the model (ragged stacking) *)
  | ProtocolError
  | SchemaError
  | ConnectionClosedError
  | SharedMemoryUnavailableError
  | RemoteEnvironmentError.

Global Instance exn_eq_dec : EqDecision exn.
Proof. solve_decision. Defined.

Inductive result (A : Type) : Type :=
  | Ok (a : A)
  | Raise (e : exn).
Arguments Ok {A} a.
Arguments Raise {A} e.

(** A computation over a mutable state [S]: it returns a value or raises,
    and in both cases leaves a state behind (what was mutated before an
    exception stays mutated). *)
Definition M (S A : Type) : Type := S -> result A * S.

Definition ret {S A} (a : A) : M S A := fun s => (Ok a, s).
Definition raise {S A} (e : exn) : M S A := fun s => (Raise e, s).
Definition bind {S A B} (m : M S A) (f : A -> M S B) : M S B :=
  fun s => match m s with
           | (Ok a, s') => f a s'
           | (Raise e, s') => (Raise e, s')
           end.
Definition get {S} : M S S := fun s => (Ok s, s).
Definition put {S} (s : S) : M S unit := fun _ => (Ok tt, s).

Declare Scope py_scope.
Delimit Scope py_scope with py.
Notation "'let*' x ':=' m 'in' f" := (bind m (fun x => f))
  (at level 10, x pattern, m at level 100, f at level 200) : py_scope.
Notation "m ';;' f" := (bind m (fun _ => f))
  (at level 100, f at level 200, right associativity) : py_scope.
Local Open Scope py_scope.

(** [assert cond] *)
Definition assert {S} (cond : bool) : M S unit :=
  if cond then ret tt else raise AssertionError.

(** Run [m] on the first component of a pair state, or on the second. *)
Definition on_fst {S T A} (m : M S A) : M (S * T) A :=
  fun st => let '(r, s') := m (fst st) in (r, (s', snd st)).
Definition on_snd {S T A} (m : M T A) : M (S * T) A :=
  fun st => let '(r, t') := m (snd st) in (r, (fst st, t')).

(** [for x in xs: body(x)] collecting the results ([[body(x) for x in xs]]). *)
Fixpoint for_each {S A B} (xs : list A) (body : A -> M S B) : M S (list B) :=
  match xs with
  | [] => ret []
  | x :: xs' => let* y := body x in
                let* ys := for_each xs' body in
                ret (y :: ys)
  end.

(** ** numpy: integer dtypes and arrays *)

Inductive dtype : Type :=
  | uint8 | uint16 | uint32 | uint64
  | int8 | int16 | int32 | int64.

Global Instance dtype_eq_dec : EqDecision dtype.
Proof. solve_decision. Defined.

Definition itemsize (dt : dtype) : Z :=
  match dt with
  | uint8 | int8 => 1
  | uint16 | int16 => 2
  | uint32 | int32 => 4
  | uint64 | int64 => 8
  end.

Definition is_signed (dt : dtype) : bool :=
  match dt with
  | int8 | int16 | int32 | int64 => true
  | _ => false
  end.

Definition modulus (dt : dtype) : Z := 2 ^ (8 * itemsize dt).

(** Conversion of an integer to [dt] as numpy 1.14 does it (the version
    [setup.py] pins): the value wraps around, two's complement for the
    signed types. *)
Definition cast (dt : dtype) (z : Z) : Z :=
  if is_signed dt
  then (z + modulus dt / 2) mod modulus dt - modulus dt / 2
  else z mod modulus dt.

Definition in_range (dt : dtype) (z : Z) : Prop :=
  if is_signed dt
  then - (modulus dt / 2) <= z < modulus dt / 2
  else 0 <= z < modulus dt.

(** An array: its shape, its element type and its elements in C order. *)
Record ndarray : Type := mk_ndarray {
  nd_shape : list nat;
  nd_dtype : dtype;
  nd_data : list Z
}.

Global Instance ndarray_eq_dec : EqDecision ndarray.
Proof. solve_decision. Defined.

Definition numel (shape : list nat) : nat := foldr Nat.mul 1%nat shape.

Definition well_shaped (a : ndarray) : Prop :=
  length (nd_data a) = numel (nd_shape a).

(** [np.array(a, dtype=dt)] of an array. *)
Definition np_array_cast (a : ndarray) (dt : dtype) : ndarray :=
  mk_ndarray (nd_shape a) dt (map (cast dt) (nd_data a)).

(** [np.array(values, dtype=dt)] of a flat draw of [numel shape] integers
    that was made with [size=shape]. *)
Definition np_array_of (shape : list nat) (dt : dtype) (values : list Z) : ndarray :=
  mk_ndarray shape dt (map (cast dt) values).

(** The [n] consecutive rows of [sz] elements of [d]. *)
Fixpoint chunks {A} (n sz : nat) (d : list A) : list (list A) :=
  match n with
  | O => []
  | S n' => take sz d :: chunks n' sz (drop sz d)
  end.

Definition sequence_opt {A} (l : list (option A)) : option (list A) :=
  foldr (fun o acc => match o, acc with
                      | Some x, Some xs => Some (x :: xs)
                      | _, _ => None
                      end) (Some []) l.

(** Broadcasting of the data of an array of shape [sb] to shape [sa], both
    of the same rank: an axis of [sb] has the extent of [sa] or extent 1. *)
Fixpoint bcast (sa sb : list nat) (d : list Z) : option (list Z) :=
  match sa, sb with
  | [], [] => Some d
  | da :: sa', db :: sb' =>
      if (db =? da)%nat
      then option_map (fun rows => concat rows)
             (sequence_opt (map (bcast sa' sb') (chunks db (numel sb') d)))
      else if (db =? 1)%nat
      then option_map (fun r => concat (replicate da r)) (bcast sa' sb' d)
      else None
  | _, _ => None
  end.

(** The operand of an in-place operation on an array of shape [sa]: numpy
    aligns the shapes on their last axes and pads the shorter one with
    axes of extent 1; an operand of higher rank, or with an axis that is
    neither 1 nor the target's, is refused. *)
Definition broadcast_to (b : ndarray) (sa : list nat) : option (list Z) :=
  if (length sa <? length (nd_shape b))%nat then None
  else bcast sa (replicate (length sa - length (nd_shape b)) 1%nat ++ nd_shape b)
             (nd_data b).

(** [a += b] on arrays: elementwise, in the dtype of [a], wrapping. *)
Definition np_iadd (a b : ndarray) : result ndarray :=
  match broadcast_to b (nd_shape a) with
  | Some d => Ok (mk_ndarray (nd_shape a) (nd_dtype a)
                    (zip_with (fun x y => cast (nd_dtype a) (x + y)) (nd_data a) d))
  | None => Raise ValueError
  end.

(** [np.array([a0, a1, ...])] of arrays of one shape and dtype: a new array
    with a leading axis.  Lists that numpy would turn into an object array
    are outside the model. *)
Definition np_stack (l : list ndarray) : result ndarray :=
  match l with
  | [] => Raise NotModelled
  | a :: _ =>
      if forallb (fun b => bool_decide (nd_shape b = nd_shape a)
                           && bool_decide (nd_dtype b = nd_dtype a)) l
      then Ok (mk_ndarray (length l :: nd_shape a) (nd_dtype a)
                 (concat (map nd_data l)))
      else Raise NotModelled
  end.

(** ** Floating point

    A binary floating-point number is modelled by the rational it stands
    for.  [round_float p q] is [q] rounded to the nearest number with a
    significand of [p] bits, ties to even; the exponent is not bounded. *)

Local Open Scope Q_scope.

Definition pow2 (k : Z) : Q := Qpower 2 k.

(** The largest [e] found with [2^e <= n/d], from the bit lengths. *)
Definition floor_log2 (n d : positive) : Z :=
  let e := (Z.log2 (Zpos n) - Z.log2 (Zpos d))%Z in
  if Qle_bool (pow2 e) (Zpos n # d) then e else (e - 1)%Z.

Definition round_half_even (q : Q) : Z :=
  let f := Qfloor q in
  match Qcompare (q - inject_Z f) (1 # 2) with
  | Lt => f
  | Gt => (f + 1)%Z
  | Eq => if Z.even f then f else (f + 1)%Z
  end.

Definition round_pos (p : Z) (n d : positive) : Q :=
  let e := floor_log2 n d in
  inject_Z (round_half_even ((Zpos n # d) * pow2 (p - 1 - e))) * pow2 (e - p + 1).

Definition round_float (p : Z) (q : Q) : Q :=
  match Qnum q with
  | Z0 => 0
  | Zpos n => round_pos p n (Qden q)
  | Zneg n => - round_pos p n (Qden q)
  end.

Definition binary64 (q : Q) : Q := Qred (round_float 53 q).
Definition binary32 (q : Q) : Q := Qred (round_float 24 q).

(** Python's [a / b] on integers: the correctly rounded double. *)
Definition py_truediv (a b : Z) : result Q :=
  match b with
  | Z0 => Raise ZeroDivisionError
  | Zpos d => Ok (binary64 (a # d))
  | Zneg d => Ok (binary64 ((- a) # d))
  end.

(** [np.allclose(a, b)] on one pair of elements, with numpy's default
    tolerances [rtol=1e-05], [atol=1e-08]. *)
Definition rtol : Q := 1 # 100000.
Definition atol : Q := 1 # 100000000.
Definition isclose (a b : Q) : Prop := Qabs (a - b) <= atol + rtol * Qabs b.

Local Close Scope Q_scope.

(** ** gym spaces *)

Inductive space : Type :=
  | Box (low high : Z) (shape : list nat) (dt : dtype)
  | Discrete (n : Z)
  | Dict (spaces : list (string * space)).

(** [hasattr(space, "spaces")]: of the spaces used here only [Dict] has
    the attribute. *)
Definition hasattr_spaces (s : space) : bool :=
  match s with
  | Dict _ => true
  | _ => false
  end.

(** ** Python dicts, as ordered association lists *)

Fixpoint dict_get {V} (d : list (string * V)) (k : string) : option V :=
  match d with
  | [] => None
  | (k', v) :: d' => if String.eqb k' k then Some v else dict_get d' k
  end.

(** [d[k] = v]: an existing key keeps its place, a new one goes last. *)
Fixpoint dict_set {V} (d : list (string * V)) (k : string) (v : V) : list (string * V) :=
  match d with
  | [] => [(k, v)]
  | (k', v') :: d' =>
      if String.eqb k' k then (k', v) :: d' else (k', v') :: dict_set d' k v
  end.

(** [OrderedDict(pairs)], as [gym.spaces.Dict] builds its members from a
    list of pairs, and a dict filled by assignments in that order. *)
Definition dict_of_list {V} (pairs : list (string * V)) : list (string * V) :=
  foldl (fun d kv => dict_set d (fst kv) (snd kv)) [] pairs.

Definition dict_keys {V} (d : list (string * V)) : list string := map fst d.

Definition gym_Dict (pairs : list (string * space)) : space :=
  Dict (dict_of_list pairs).

(** ** The object store

    Arrays and dicts are objects with identity: a variable or an attribute
    holds a reference, and an in-place operation is seen through every
    reference to the object. *)

Definition loc : Type := nat.

Inductive pyobj : Type :=
  | PArr (a : ndarray)
  | PDict (items : list (string * loc)).

Abbreviation heap := (list pyobj).

Definition alloc (o : pyobj) : M heap loc :=
  fun h => (Ok (length h), h ++ [o]).

Definition load (l : loc) : M heap pyobj :=
  fun h => match h !! l with
           | Some o => (Ok o, h)
           | None => (Raise SystemError, h)
           end.

Definition store (l : loc) (o : pyobj) : M heap unit :=
  fun h => (Ok tt, <[l := o]> h).

Definition lift_result {S A} (r : result A) : M S A :=
  match r with
  | Ok a => ret a
  | Raise e => raise e
  end.

(** [ref[key]], where [ref] is a reference or [None]. *)
Definition getitem (ref : option loc) (key : string) : M heap loc :=
  match ref with
  | None => raise TypeError
  | Some l =>
      let* o := load l in
      match o with
      | PDict items =>
          match dict_get items key with
          | Some a => ret a
          | None => raise KeyError
          end
      | PArr _ => raise IndexError
      end
  end.

(** [d[key] = a] on the dict at [l]. *)
Definition setitem (l : loc) (key : string) (a : loc) : M heap unit :=
  let* o := load l in
  match o with
  | PDict items => store l (PDict (dict_set items key a))
  | PArr _ => raise IndexError
  end.

(** [x += b] where [x] refers to the object at [l]: numpy adds into the
    array in place and the result is the same object. *)
Definition iadd (l : loc) (b : ndarray) : M heap loc :=
  let* o := load l in
  match o with
  | PArr a => let* a' := lift_result (np_iadd a b) in
              (store l (PArr a') ;; ret l)
  | PDict _ => raise TypeError
  end.

(** The array a reference stands for, when an array is built from it. *)
Definition load_array (ref : option loc) : M heap ndarray :=
  match ref with
  | None => raise NotModelled
  | Some l =>
      let* o := load l in
      match o with
      | PArr a => ret a
      | PDict _ => raise NotModelled
      end
  end.

(** ** Random number generators

    [np.random.RandomState] is numpy's; the program only needs that a
    generator is made from a seed and that [randint(low, high, size)]
    returns [size] integers and advances the generator.  The state of a
    generator is a finite amount of data, here encoded as a number. *)

Definition rng : Type := Z.

Class RandomGen : Type := {
  RandomState : Z -> rng;
  randint : rng -> Z -> Z -> nat -> list Z * rng;
  randint_length : forall g lo hi n, length (fst (randint g lo hi n)) = n
}.

(** Per-instance metadata: the environments here return [{}]. *)
Definition info : Type := list (string * Z).

(** What Python's duck typing asks of an environment. *)
Class Env (E : Type) : Type := {
  env_observation_space : E -> space;
  env_action_space : E -> space;
  env_reset : M (E * heap) (option loc);
  env_step : ndarray -> M (E * heap) (option loc * Q * bool * info);
  env_render : string -> M (E * heap) ndarray;
  env_close : M (E * heap) unit
}.

(** ** [_SimpleEnv]: an environment with a pre-determined observation
    space and RNG seed *)

Module SimpleEnv.
Section SimpleEnv.
Context `{RG : RandomGen}.

Record t : Type := mk {
  _rand : rng;
  _dict_obs_space : bool;
  _dtype : dtype;
  _max_steps : Z;
  _cur_obs : option loc;
  _cur_step : Z;
  action_space : space;
  _obs_keys : list string;
  observation_space : space;
  _start_obs : loc
}.

Definition set_rand (g : rng) (e : t) : t :=
  mk g (_dict_obs_space e) (_dtype e) (_max_steps e) (_cur_obs e) (_cur_step e)
     (action_space e) (_obs_keys e) (observation_space e) (_start_obs e).
Definition set_cur_obs (o : option loc) (e : t) : t :=
  mk (_rand e) (_dict_obs_space e) (_dtype e) (_max_steps e) o (_cur_step e)
     (action_space e) (_obs_keys e) (observation_space e) (_start_obs e).
Definition set_cur_step (n : Z) (e : t) : t :=
  mk (_rand e) (_dict_obs_space e) (_dtype e) (_max_steps e) (_cur_obs e) n
     (action_space e) (_obs_keys e) (observation_space e) (_start_obs e).

(** The loop of [__init__] over [self._obs_keys]: one draw and one new
    array per key, stored in the dict at [d]. *)
Fixpoint init_start_obs (keys : list string) (d : loc) (aspace : space)
    (shape : list nat) (dt : dtype) (spaces : list (string * space)) (g : rng)
    : M heap (list (string * space) * rng) :=
  match keys with
  | [] => ret (spaces, g)
  | key :: keys' =>
      let '(values, g') := randint g 0 256 (numel shape) in
      let* a := alloc (PArr (np_array_of shape dt values)) in
      (setitem d key a ;;
       init_start_obs keys' d aspace shape dt (spaces ++ [(key, aspace)]) g')
  end.

(** [_SimpleEnv(seed, shape, dtype, dict_obs_space)].  numpy refuses a
    seed outside [0, 2**32). *)
Definition __init__ (seed : Z) (shape : list nat) (dt : dtype)
    (dict_obs_space : bool) : M heap t :=
  if negb ((0 <=? seed) && (seed <? 2 ^ 32)) then raise ValueError
  else
    let g := RandomState seed in
    let aspace := Box 0 100 shape dt in
    let keys := ["obs_a"; "obs_b"]%string in
    if dict_obs_space then
      let* d := alloc (PDict []) in
      let* (spaces, g') := init_start_obs keys d aspace shape dt [] g in
      ret (mk g' dict_obs_space dt (seed + 1) None 0 aspace keys
              (gym_Dict spaces) d)
    else
      let '(values, g') := randint g 0 256 (numel shape) in
      let* a := alloc (PArr (np_array_of shape dt values)) in
      ret (mk g' dict_obs_space dt (seed + 1) None 0 aspace keys aspace a).

Definition self : M (t * heap) t := fun st => (Ok (fst st), st).
Definition modify (f : t -> t) : M (t * heap) unit :=
  fun st => (Ok tt, (f (fst st), snd st)).

Definition step (action : ndarray) : M (t * heap) (option loc * Q * bool * info) :=
  let* e := self in
  ((if _dict_obs_space e then
      (for_each (_obs_keys e) (fun key =>
         let* e := self in
         let* a := on_snd (getitem (_cur_obs e) key) in
         let* a' := on_snd (iadd a (np_array_cast action (_dtype e))) in
         match _cur_obs e with
         | Some d => on_snd (setitem d key a')
         | None => raise TypeError
         end) ;; ret tt)
    else
      match _cur_obs e with
      | Some l =>
          let* l' := on_snd (iadd l (np_array_cast action (_dtype e))) in
          modify (set_cur_obs (Some l'))
      | None => raise TypeError
      end) ;;
   modify (fun e => set_cur_step (_cur_step e + 1) e) ;;
   let* e := self in
   let done := (_max_steps e <=? _cur_step e) in
   let* reward := lift_result (py_truediv (_cur_step e) (_max_steps e)) in
   ret (_cur_obs e, reward, done, [])).

Definition reset : M (t * heap) (option loc) :=
  let* e := self in
  (modify (set_cur_obs (Some (_start_obs e))) ;;
   modify (set_cur_step 0) ;;
   let* e := self in
   ret (_cur_obs e)).

Definition render (mode : string) : M (t * heap) ndarray :=
  (assert (String.eqb mode "rgb_array") ;;
   let* e := self in
   let '(values, g') := randint (_rand e) 0 256 (16 * 8 * 4)%nat in
   (modify (set_rand g') ;;
    ret (np_array_of [16; 8; 4]%nat (_dtype e) values))).

(** Inherited from [gym.Env]: does nothing. *)
Definition close : M (t * heap) unit := ret tt.

Global Instance SimpleEnv_Env : Env t := {
  env_observation_space := observation_space;
  env_action_space := action_space;
  env_reset := reset;
  env_step := step;
  env_render := render;
  env_close := close
}.
End SimpleEnv.
End SimpleEnv.

(** ** [Vectorize]: convert an Env into a VecEnv *)

(** A batched observation: one stacked array, or one per name. *)
Inductive obs : Type :=
  | ObsArr (a : ndarray)
  | ObsDict (items : list (string * ndarray)).

Module Vectorize.
Section Vectorize.
Context {E : Type} `{EnvE : Env E}.

(** [spec] and [metadata] are copied from the first environment and
    never read; they are left out. *)
Record t : Type := mk {
  _act : option (list ndarray);
  _envs : list E;
  observation_space : space;
  action_space : space
}.

Definition set_act (a : option (list ndarray)) (v : t) : t :=
  mk a (_envs v) (observation_space v) (action_space v).
Definition set_envs (es : list E) (v : t) : t :=
  mk (_act v) es (observation_space v) (action_space v).

Definition self : M (t * heap) t := fun st => (Ok (fst st), st).

(** Run a method of the environment at index [i] of [self._envs]. *)
Definition with_env {A} (i : nat) (m : M (E * heap) A) : M (t * heap) A :=
  fun st =>
    match _envs (fst st) !! i with
    | Some e =>
        let '(r, (e', h')) := m (e, snd st) in
        (r, (set_envs (<[i := e']> (_envs (fst st))) (fst st), h'))
    | None => (Raise IndexError, st)
    end.

(** [for e in self._envs: body(e)], by index. *)
Definition for_envs {A} (body : nat -> M (t * heap) A) : M (t * heap) (list A) :=
  let* v := self in
  for_each (seq 0 (length (_envs v))) body.

(** [Vectorize(make_env_fns)] *)
Definition __init__ (make_env_fns : list (M heap E)) : M heap t :=
  let* envs := for_each make_env_fns (fun fn => fn) in
  match envs with
  | [] => raise IndexError
  | e0 :: _ =>
      let ospace := env_observation_space e0 in
      let aspace := env_action_space e0 in
      (assert (negb (hasattr_spaces aspace)) ;;
       ret (mk None envs ospace aspace))
  end.

Definition _merge_obs (raw_obs : list (option loc)) : M (t * heap) obs :=
  let* v := self in
  match observation_space v with
  | Dict spaces =>
      let* items :=
        for_each (dict_keys spaces) (fun name =>
          let* arrs := for_each raw_obs (fun o =>
                         let* a := on_snd (getitem o name) in
                         on_snd (load_array (Some a))) in
          let* stacked := lift_result (np_stack arrs) in
          ret (name, stacked)) in
      ret (ObsDict (dict_of_list items))
  | _ =>
      let* arrs := for_each raw_obs (fun o => on_snd (load_array o)) in
      let* stacked := lift_result (np_stack arrs) in
      ret (ObsArr stacked)
  end.

Definition reset : M (t * heap) obs :=
  let* raw_obs := for_envs (fun i => with_env i env_reset) in
  _merge_obs raw_obs.

Definition step_async (act : list ndarray) : M (t * heap) unit :=
  fun st => (Ok tt, (set_act (Some act) (fst st), snd st)).

(** [self._act[i]] *)
Definition act_item (i : nat) : M (t * heap) ndarray :=
  let* v := self in
  match _act v with
  | None => raise TypeError
  | Some act =>
      match act !! i with
      | Some a => ret a
      | None => raise IndexError
      end
  end.

Definition step_wait : M (t * heap) (obs * list Q * list bool * list info) :=
  let* outs := for_envs (fun i =>
                 let* a := act_item i in
                 with_env i (env_step a)) in
  let raw_obs := map (fun o => o.1.1.1) outs in
  let rews := map (fun o => o.1.1.2) outs in
  let dones := map (fun o => o.1.2) outs in
  let infos := map (fun o => o.2) outs in
  let* merged := _merge_obs raw_obs in
  ret (merged, rews, dones, infos).

Definition render (mode : string) : M (t * heap) ndarray :=
  (assert (String.eqb mode "rgb_array") ;;
   let* frames := for_envs (fun i => with_env i (env_render mode)) in
   lift_result (np_stack frames)).

(** [render()] with the default [mode="human"]. *)
Definition render_default : M (t * heap) ndarray := render "human".

Definition close : M (t * heap) unit :=
  (for_envs (fun i => with_env i env_close) ;; ret tt).
End Vectorize.
End Vectorize.

(** ** A concrete generator, to run the program on examples

    A linear congruential generator stands in for numpy's Mersenne
    twister where a statement is evaluated on a concrete input. *)

Definition lcg_next (s : Z) : Z := (1103515245 * s + 12345) mod 2 ^ 31.

Fixpoint lcg_randint (s : Z) (lo hi : Z) (n : nat) : list Z * Z :=
  match n with
  | O => ([], s)
  | S n' =>
      let s' := lcg_next s in
      let '(l, s'') := lcg_randint s' lo hi n' in
      ((lo + (s' / 65536) mod (hi - lo)) :: l, s'')
  end.

Definition lcg_randint_length s lo hi n : length (fst (lcg_randint s lo hi n)) = n.
Proof.
  revert s. induction n as [|n IH]; intros s; simpl; [reflexivity|].
  specialize (IH (lcg_next s)).
  destruct (lcg_randint (lcg_next s) lo hi n) as [l s'']. simpl in *. congruence.
Qed.

Definition lcg : RandomGen := {|
  RandomState := fun seed => seed;
  randint := lcg_randint;
  randint_length := lcg_randint_length
|}.

(** ** The loop over the environments, by recursion on the list

    [run_envs body i envs h] runs [body i] on the first environment,
    [body (i+1)] on the second, and so on, threading the object store; at
    the first exception the remaining environments are left as they are. *)

Fixpoint run_envs {E A} (body : nat -> M (E * heap) A) (i : nat)
    (envs : list E) (h : heap) : result (list A) * (list E * heap) :=
  match envs with
  | [] => (Ok [], ([], h))
  | e :: es =>
      match body i (e, h) with
      | (Ok a, (e', h1)) =>
          let '(r, (es', h2)) := run_envs body (S i) es h1 in
          (match r with Ok l => Ok (a :: l) | Raise x => Raise x end,
           (e' :: es', h2))
      | (Raise x, (e', h1)) => (Raise x, (e' :: es, h1))
      end
  end.

(** [self._act[i]] as a function of the submitted actions. *)
Definition act_lookup (act : option (list ndarray)) (i : nat) : result ndarray :=
  match act with
  | None => Raise TypeError
  | Some l => match l !! i with
              | Some a => Ok a
              | None => Raise IndexError
              end
  end.

(** The body of the loop of [step_wait] on one environment. *)
Definition step_body {E} `{Env E} (act : option (list ndarray)) (i : nat)
    : M (E * heap) (option loc * Q * bool * info) :=
  let* a := lift_result (act_lookup act i) in env_step a.

(** [[f(x) for x in xs]] for an [f] that only reads: the first exception
    ends the comprehension. *)
Fixpoint map_result {A B} (f : A -> result B) (xs : list A) : result (list B) :=
  match xs with
  | [] => Ok []
  | x :: xs' =>
      match f x with
      | Ok y => match map_result f xs' with
                | Ok ys => Ok (y :: ys)
                | Raise e => Raise e
                end
      | Raise e => Raise e
      end
  end.

Definition result_bind {A B} (r : result A) (f : A -> result B) : result B :=
  match r with
  | Ok a => f a
  | Raise e => Raise e
  end.

(** [o[name]] read as an array, in the store [h]. *)
Definition member_array (h : heap) (name : string) (o : option loc) : result ndarray :=
  fst ((let* a := getitem o name in load_array (Some a)) h).

(** What [_merge_obs] computes from the store, which it does not change. *)
Definition merge_obs_of (s : space) (raw_obs : list (option loc)) (h : heap) : result obs :=
  match s with
  | Dict spaces =>
      result_bind
        (map_result (fun name =>
           result_bind (map_result (member_array h name) raw_obs) (fun arrs =>
           result_bind (np_stack arrs) (fun stacked => Ok (name, stacked))))
           (dict_keys spaces))
        (fun items => Ok (ObsDict (dict_of_list items)))
  | _ =>
      result_bind (map_result (fun o => fst (load_array o h)) raw_obs) (fun arrs =>
      result_bind (np_stack arrs) (fun stacked => Ok (ObsArr stacked)))
  end.

(** [stepped i envs acts h outs envs' h']: starting in the store [h], the
    environments [envs], which sit at the indices [i], [i+1], ... of the
    batch, are stepped in order, each with its own entry of [acts]; [outs]
    are the tuples their [step] returned, [envs'] and [h'] what they left. *)
Inductive stepped {E} `{Env E} :
    nat -> list E -> list ndarray -> heap ->
    list (option loc * Q * bool * info) -> list E -> heap -> Prop :=
  | stepped_nil i acts h : stepped i [] acts h [] [] h
  | stepped_cons i e es acts h a o e' h1 outs es' h2 :
      acts !! i = Some a ->
      env_step a (e, h) = (Ok o, (e', h1)) ->
      stepped (S i) es acts h1 outs es' h2 ->
      stepped i (e :: es) acts h (o :: outs) (e' :: es') h2.

(** ** Batched observations, in words

    [is_stack rows a]: the array [a] is the [rows], which all have one
    shape and dtype, laid one after the other along a new leading axis.
    [batched s raw h merged]: [merged] is the batch of the observations
    the references [raw] stand for in the store [h], one row per
    reference in the order of [raw]; for a dict space there is one such
    batch per name. *)

Definition is_stack (rows : list ndarray) (a : ndarray) : Prop :=
  exists row0,
    head rows = Some row0 /\
    Forall (fun row => nd_shape row = nd_shape row0 /\ nd_dtype row = nd_dtype row0) rows /\
    nd_shape a = length rows :: nd_shape row0 /\
    nd_dtype a = nd_dtype row0 /\
    nd_data a = concat (map nd_data rows).

Definition obs_row (h : heap) (o : option loc) (row : ndarray) : Prop :=
  exists l, o = Some l /\ h !! l = Some (PArr row).

Definition obs_member_row (h : heap) (name : string) (o : option loc)
    (row : ndarray) : Prop :=
  exists l items la,
    o = Some l /\ h !! l = Some (PDict items) /\
    dict_get items name = Some la /\ h !! la = Some (PArr row).

Definition batched (s : space) (raw : list (option loc)) (h : heap) (merged : obs) : Prop :=
  match s with
  | Dict spaces =>
      exists items,
        merged = ObsDict items /\
        (NoDup (dict_keys spaces) -> dict_keys items = dict_keys spaces) /\
        forall name, name ∈ dict_keys spaces ->
          exists rows a,
            Forall2 (obs_member_row h name) raw rows /\
            dict_get items name = Some a /\
            is_stack rows a
  | _ =>
      exists rows a,
        merged = ObsArr a /\ Forall2 (obs_row h) raw rows /\ is_stack rows a
  end.

(** ** Reading observations through references, and what [_SimpleEnv]
    keeps in the store *)

(** The value seen through an observation reference: the array, or the
    arrays under the keys of the dict. *)
Definition deref (r : option loc) (h : heap) : option obs :=
  match r with
  | None => None
  | Some l =>
      match h !! l with
      | Some (PArr a) => Some (ObsArr a)
      | Some (PDict items) =>
          option_map ObsDict
            (sequence_opt
               (map (fun kv => match h !! (snd kv) with
                               | Some (PArr a) => Some (fst kv, a)
                               | _ => None
                               end) items))
      | None => None
      end
  end.

(** [a + np.array(action, dtype)] elementwise in the dtype of [a]. *)
Definition arr_add (action a : ndarray) : ndarray :=
  mk_ndarray (nd_shape a) (nd_dtype a)
    (zip_with (fun x y => cast (nd_dtype a) (x + cast (nd_dtype a) y))
              (nd_data a) (nd_data action)).

Definition obs_add (action : ndarray) (o : obs) : obs :=
  match o with
  | ObsArr a => ObsArr (arr_add action a)
  | ObsDict items => ObsDict (map (fun kv => (fst kv, arr_add action (snd kv))) items)
  end.

(** An array of the given shape and dtype with elements of that dtype. *)
Definition conforms (shape : list nat) (dt : dtype) (a : ndarray) : Prop :=
  nd_shape a = shape /\ nd_dtype a = dt /\
  length (nd_data a) = numel shape /\ Forall (in_range dt) (nd_data a).

(** The layout [__init__] sets up and every method keeps: the start
    observation is one array, or a dict of two distinct arrays, and
    [_cur_obs] is unset or refers to the start observation itself. *)
Definition wf_env (shape : list nat) (e : SimpleEnv.t) (h : heap) : Prop :=
  SimpleEnv._obs_keys e = ["obs_a"; "obs_b"]%string /\
  1 <= SimpleEnv._max_steps e /\
  (SimpleEnv._cur_obs e = None \/
   SimpleEnv._cur_obs e = Some (SimpleEnv._start_obs e)) /\
  if SimpleEnv._dict_obs_space e
  then exists la lb a b,
         h !! SimpleEnv._start_obs e
           = Some (PDict [("obs_a", la); ("obs_b", lb)]%string) /\
         la <> lb /\
         h !! la = Some (PArr a) /\ h !! lb = Some (PArr b) /\
         conforms shape (SimpleEnv._dtype e) a /\
         conforms shape (SimpleEnv._dtype e) b
  else exists a,
         h !! SimpleEnv._start_obs e = Some (PArr a) /\
         conforms shape (SimpleEnv._dtype e) a.

(** What a successful [step] returns besides the observation. *)
Definition reward_of (cur_step max_steps : Z) : Q :=
  binary64 (cur_step # Z.to_pos max_steps).

(** ** Runs of actions

    An action fits an environment when it is an array of the
    environment's shape.  [arr_add_all acts x] is [x] after all of
    [acts] were added into it: each element is the dtype's wrap-around of
    the element of [x] plus the sum of the actions' elements at that
    index. *)

Definition valid_action (shape : list nat) (a : ndarray) : Prop :=
  nd_shape a = shape /\ well_shaped a.

Definition sum_at (i : nat) (acts : list ndarray) : Z :=
  foldr (fun a s => default 0 (nd_data a !! i) + s) 0 acts.

Definition arr_add_all (acts : list ndarray) (x : ndarray) : ndarray :=
  mk_ndarray (nd_shape x) (nd_dtype x)
    (imap (fun i xi => cast (nd_dtype x) (xi + sum_at i acts)) (nd_data x)).

Definition obs_map (f : ndarray -> ndarray) (o : obs) : obs :=
  match o with
  | ObsArr a => ObsArr (f a)
  | ObsDict items => ObsDict (map (fun kv => (fst kv, f (snd kv))) items)
  end.

(** An observation whose arrays all have the given shape and dtype. *)
Definition obs_conforms (shape : list nat) (dt : dtype) (o : obs) : Prop :=
  match o with
  | ObsArr a => conforms shape dt a
  | ObsDict items => Forall (fun kv => conforms shape dt (snd kv)) items
  end.

(** The objects an environment's observation lives in. *)
Definition footprint (e : SimpleEnv.t) (h : heap) : list loc :=
  SimpleEnv._start_obs e ::
  match h !! SimpleEnv._start_obs e with
  | Some (PDict items) => map snd items
  | _ => []
  end.

(** ** Batches of [_SimpleEnv]

    What [test_simple_env] builds: environments of one shape, dtype and
    kind of observation space, each with its own observation objects. *)

Definition simple_space (shape : list nat) (dt : dtype) (dict : bool) : space :=
  if dict
  then Dict [("obs_a", Box 0 100 shape dt); ("obs_b", Box 0 100 shape dt)]%string
  else Box 0 100 shape dt.

Section Batch.
Context `{RG : RandomGen}.

Definition make_envs (seeds : list Z) (shape : list nat) (dt : dtype)
    (dict_obs_space : bool) : list (M heap SimpleEnv.t) :=
  map (fun seed => SimpleEnv.__init__ seed shape dt dict_obs_space) seeds.

Definition wf_member (shape : list nat) (dt : dtype) (dict : bool)
    (h : heap) (e : SimpleEnv.t) : Prop :=
  wf_env shape e h /\ SimpleEnv._dtype e = dt /\ SimpleEnv._dict_obs_space e = dict.

Definition separate (envs : list SimpleEnv.t) (h : heap) : Prop :=
  forall i j ei ej, i <> j -> envs !! i = Some ei -> envs !! j = Some ej ->
    forall l, l ∈ footprint ei h -> l ∈ footprint ej h -> False.

Definition wf_batch (shape : list nat) (dt : dtype) (dict : bool)
    (envs : list SimpleEnv.t) (h : heap) : Prop :=
  Forall (wf_member shape dt dict h) envs /\ separate envs h.

(** The environment after [reset], after one [step], and what that
    [step] returns. *)
Definition reset_env (e : SimpleEnv.t) : SimpleEnv.t :=
  SimpleEnv.set_cur_step 0 (SimpleEnv.set_cur_obs (Some (SimpleEnv._start_obs e)) e).

Definition step_env (e : SimpleEnv.t) : SimpleEnv.t :=
  SimpleEnv.set_cur_step (SimpleEnv._cur_step e + 1) e.

Definition step_out (e : SimpleEnv.t) : option loc * Q * bool * info :=
  (Some (SimpleEnv._start_obs e),
   reward_of (SimpleEnv._cur_step e + 1) (SimpleEnv._max_steps e),
   (SimpleEnv._max_steps e <=? SimpleEnv._cur_step e + 1), []).

(** The frame [render] returns and the environment it leaves. *)
Definition render_frame (e : SimpleEnv.t) : ndarray :=
  np_array_of [16; 8; 4]%nat (SimpleEnv._dtype e)
    (fst (randint (SimpleEnv._rand e) 0 256 512)).

Definition render_env (e : SimpleEnv.t) : SimpleEnv.t :=
  SimpleEnv.set_rand (snd (randint (SimpleEnv._rand e) 0 256 512)) e.

(** A batch as it is between two rounds: built, and reset at least once. *)
Definition batch_ready (shape : list nat) (dt : dtype) (dict : bool)
    (v : @Vectorize.t SimpleEnv.t) (h : heap) : Prop :=
  Vectorize._envs v <> [] /\
  wf_batch shape dt dict (Vectorize._envs v) h /\
  Vectorize.observation_space v = simple_space shape dt dict /\
  Forall (fun e => SimpleEnv._cur_obs e = Some (SimpleEnv._start_obs e))
         (Vectorize._envs v).

(** An environment after one round: stepped, then rendered. *)
Definition round_env (e : SimpleEnv.t) : SimpleEnv.t := render_env (step_env e).

(** One round of the loop of [test_simple_env] on [env1]. *)
Definition test_round (actions : list ndarray)
    : M (@Vectorize.t SimpleEnv.t * heap)
        ((obs * list Q * list bool * list info) * ndarray) :=
  (Vectorize.step_async actions ;;
   let* outs1 := Vectorize.step_wait in
   let* rend1 := Vectorize.render "rgb_array" in
   ret (outs1, rend1)).
End Batch.

(** The member arrays of a batch's observations stacked, as [_merge_obs]
    returns them: [rows] are the environments' observations. *)
Definition stack_arrays (shape : list nat) (dt : dtype) (rows : list ndarray) : ndarray :=
  mk_ndarray (length rows :: shape) dt (concat (map nd_data rows)).

Definition obs_member (name : string) (o : obs) : option ndarray :=
  match o with
  | ObsArr _ => None
  | ObsDict items => dict_get items name
  end.

Definition obs_array (o : obs) : option ndarray :=
  match o with
  | ObsArr a => Some a
  | ObsDict _ => None
  end.

Definition stack_obs (shape : list nat) (dt : dtype) (dict : bool)
    (os : list obs) : option obs :=
  if dict then
    match sequence_opt (map (obs_member "obs_a") os),
          sequence_opt (map (obs_member "obs_b") os) with
    | Some ra, Some rb =>
        Some (ObsDict [("obs_a", stack_arrays shape dt ra);
                       ("obs_b", stack_arrays shape dt rb)]%string)
    | _, _ => None
    end
  else
    match sequence_opt (map obs_array os) with
    | Some rows => Some (ObsArr (stack_arrays shape dt rows))
    | None => None
    end.

(** ** Concrete inputs

    Two environments with seeds 0 and 2 on arrays of two bytes, driven by
    the generator [lcg], and an environment class whose action space is a
    dict space. *)

Section Examples.
Local Existing Instance lcg.

Definition example_fns (dict_obs_space : bool) : list (M heap SimpleEnv.t) :=
[SimpleEnv.__init__ (RG:=lcg) 0 [2%nat] uint8 dict_obs_space;
 SimpleEnv.__init__ (RG:=lcg) 2 [2%nat] uint8 dict_obs_space].

Definition example_actions : list ndarray :=
[mk_ndarray [2%nat] uint8 [1; 2]; mk_ndarray [2%nat] uint8 [250; 7]].

(** The batch after its construction and a first [reset]. *)
Definition example_state (dict_obs_space : bool) : @Vectorize.t SimpleEnv.t * heap :=
match Vectorize.__init__ (example_fns dict_obs_space) [] with
| (Ok v, h) => snd (Vectorize.reset (v, h))
| (Raise _, h) => (Vectorize.mk None [] (Discrete 0) (Discrete 0), h)
end.

(** One environment, fresh from its constructor. *)
Definition example_env (dict_obs_space : bool) : SimpleEnv.t * heap :=
match SimpleEnv.__init__ (RG:=lcg) 2 [2%nat] uint8 dict_obs_space [] with
| (Ok e, h) => (e, h)
| (Raise _, h) =>
    (SimpleEnv.mk 0 false uint8 1 None 0 (Discrete 0) []
                  (Discrete 0) 0%nat, h)
end.

(** A class with the methods of [_SimpleEnv] that declares the dict space
  as its action space. *)
Definition DictActionEnv : Env SimpleEnv.t := {|
env_observation_space := SimpleEnv.observation_space;
env_action_space := SimpleEnv.observation_space;
env_reset := SimpleEnv.reset;
env_step := SimpleEnv.step;
env_render := SimpleEnv.render (RG:=lcg);
env_close := SimpleEnv.close
|}.

(** What one step with [example_actions], and one rendering, return from
  [example_state true]. *)
Definition example_step_result :=
Eval vm_compute in
  (Vectorize.step_async example_actions ;; Vectorize.step_wait) (example_state true).

Definition example_render_result :=
Eval vm_compute in Vectorize.render "rgb_array" (example_state true).

(** The batch fresh from its constructor, one step with a single action
    for two environments, and a merge of the two start observations. *)
Definition example_fresh :=
  Eval vm_compute in Vectorize.__init__ (example_fns true) [].

Definition example_short_step :=
  Eval vm_compute in
    run_envs (step_body (Some (take 1 example_actions))) 0
             (take 1 (Vectorize._envs (example_state true).1)) (example_state true).2.

Definition example_merge :=
  Eval vm_compute in
    Vectorize._merge_obs [Some 0%nat; Some 3%nat] (example_state true).

(** The environments of [example_state true]. *)
Definition example_envs : list SimpleEnv.t :=
  Eval vm_compute in Vectorize._envs (example_state true).1.
End Examples.

(** ** [ImageEnv]: image based environment

    The observation is drawn once, in the constructor, from the
    observation space; [sample] stands for the number
    [observation_space.sample()] draws.  [spec] and [metadata] are never
    read and are left out.  The class has no [render] method: calling it
    is an [AttributeError]. *)

Module ImageEnv.

Record t : Type := mk {
  observation_space : space;
  action_space : space;
  _obs : loc
}.

Definition __init__ (sample : Z) : M heap t :=
  let ospace := Box 0 255 [] uint8 in
  let* o := alloc (PArr (np_array_of [] uint8 [sample])) in
  ret (mk ospace (Discrete 3) o).

Definition self : M (t * heap) t := fun st => (Ok (fst st), st).

Definition reset : M (t * heap) (option loc) :=
  let* e := self in ret (Some (_obs e)).

Definition step (act : ndarray) : M (t * heap) (option loc * Q * bool * info) :=
  let* e := self in ret (Some (_obs e), 0%Q, false, []).

Definition close : M (t * heap) unit := ret tt.

Definition render (mode : string) : M (t * heap) ndarray := raise AttributeError.

Global Instance ImageEnv_Env : Env t := {
  env_observation_space := observation_space;
  env_action_space := action_space;
  env_reset := reset;
  env_step := step;
  env_render := render;
  env_close := close
}.
End ImageEnv.

(** ** [rollout] of [env_speed]

    [venv.reset()], then [max_steps] times [step_async(act)] and
    [step_wait()], on the [venv] that [env_speed("Vectorize", ...)]
    builds with [Vectorize([make_env] * n)]. *)

Section Rollout.
Context {E : Type} `{EnvE : Env E}.

Fixpoint rollout_loop (act : list ndarray) (n : nat) : M (@Vectorize.t E * heap) unit :=
  match n with
  | O => ret tt
  | S n' => (Vectorize.step_async act ;; Vectorize.step_wait ;; rollout_loop act n')
  end.

Definition rollout (act : list ndarray) (max_steps : Z) : M (@Vectorize.t E * heap) unit :=
  (Vectorize.reset ;; rollout_loop act (Z.to_nat max_steps)).
End Rollout.

(** The batch of [n] image environments whose observations are at the
    locations [l], [l+1], ... *)
Definition image_envs (l : loc) (n : nat) : list ImageEnv.t :=
  map (fun i => ImageEnv.mk (Box 0 255 [] uint8) (Discrete 3) (l + i)%nat) (seq 0 n).

Definition image_batch (act : option (list ndarray)) (l : loc) (n : nat)
    : @Vectorize.t ImageEnv.t :=
  Vectorize.mk act (image_envs l n) (Box 0 255 [] uint8) (Discrete 3).

Definition image_objects (samples : list Z) : heap :=
  map (fun s => PArr (np_array_of [] uint8 [s])) samples.

Definition image_obs (samples : list Z) : obs :=
  ObsArr (mk_ndarray [length samples] uint8 (map (cast uint8) samples)).

(** * Properties of the embedded program *)

(** ** The monad *)

Lemma bind_ok {S A B} (m : M S A) (f : A -> M S B) s a s' :
  m s = (Ok a, s') -> bind m f s = f a s'.
Proof. intros H. unfold bind. by rewrite H. Qed.

Lemma bind_raise {S A B} (m : M S A) (f : A -> M S B) s e s' :
  m s = (Raise e, s') -> bind m f s = (Raise e, s').
Proof. intros H. unfold bind. by rewrite H. Qed.

Lemma bind_inv_ok {S A B} (m : M S A) (f : A -> M S B) s b s2 :
  bind m f s = (Ok b, s2) ->
  exists a s1, m s = (Ok a, s1) /\ f a s1 = (Ok b, s2).
Proof.
  unfold bind. destruct (m s) as [[a|e] s1]; intros H; [eauto | discriminate].
Qed.

(** ** The loop of [Vectorize] over its environments *)

Section VectorizeLoops.
Context {E : Type} `{EnvE : Env E}.

Lemma with_env_lookup {A} (m : M (E * heap) A) i (v : Vectorize.t) h e :
  Vectorize._envs v !! i = Some e ->
  Vectorize.with_env i m (v, h) =
    (fst (m (e, h)),
     (Vectorize.set_envs (<[i := fst (snd (m (e, h)))]> (Vectorize._envs v)) v,
      snd (snd (m (e, h))))).
Proof.
  intros Hi. unfold Vectorize.with_env. simpl. rewrite Hi.
  destruct (m (e, h)) as [r [e' h']]. reflexivity.
Qed.

(** The loop by index is the loop over the list: the environments before
    the current index are not touched any more.  [B] is the body as the
    method writes it, [body] what it does to the environment at its
    index, in the states [P] that the loop goes through. *)
Lemma for_each_envs {A} (B : nat -> M (Vectorize.t * heap) A)
    (body : nat -> M (E * heap) A) (P : Vectorize.t -> Prop)
    (pre es : list E) (v : Vectorize.t) h :
  (forall v es', P v -> P (Vectorize.set_envs es' v)) ->
  (forall i v h e, P v -> Vectorize._envs v !! i = Some e ->
     B i (v, h) = Vectorize.with_env i (body i) (v, h)) ->
  P v ->
  Vectorize._envs v = pre ++ es ->
  for_each (seq (length pre) (length es)) B (v, h) =
    (fst (run_envs body (length pre) es h),
     (Vectorize.set_envs (pre ++ fst (snd (run_envs body (length pre) es h))) v,
      snd (snd (run_envs body (length pre) es h)))).
Proof.
  intros HP HB. revert pre v h. induction es as [|e es IH]; intros pre v h Pv Hv.
  - simpl. unfold ret. rewrite <- Hv. by destruct v.
  - assert (Hlk : Vectorize._envs v !! length pre = Some e).
    { rewrite Hv. rewrite lookup_app_r by lia. by rewrite Nat.sub_diag. }
    simpl. unfold bind at 1.
    rewrite (HB _ _ _ e Pv Hlk), (with_env_lookup _ _ _ _ e Hlk).
    destruct (body (length pre) (e, h)) as [[a|x] [e' h1]] eqn:Hb; simpl.
    + assert (Hins : <[length pre := e']> (Vectorize._envs v) = (pre ++ [e']) ++ es).
      { rewrite Hv. rewrite insert_app_r_alt by lia. rewrite Nat.sub_diag. simpl.
        by rewrite <- app_assoc. }
      specialize (IH (pre ++ [e'])
                    (Vectorize.set_envs (<[length pre := e']> (Vectorize._envs v)) v) h1).
      rewrite length_app in IH. simpl in IH.
      replace (length pre + 1)%nat with (S (length pre)) in IH by lia.
      unfold bind at 1. rewrite IH; [| by apply HP | simpl; exact Hins].
      destruct (run_envs body (S (length pre)) es h1) as [[l|x] [es' h2]]; simpl.
      * unfold ret. rewrite <- app_assoc. simpl. by destruct v.
      * rewrite <- app_assoc. simpl. by destruct v.
    + rewrite Hv. rewrite insert_app_r_alt by lia. rewrite Nat.sub_diag. reflexivity.
Qed.

Lemma for_envs_run {A} (body : nat -> M (E * heap) A) (v : Vectorize.t) h :
  Vectorize.for_envs (fun i => Vectorize.with_env i (body i)) (v, h) =
    (fst (run_envs body 0 (Vectorize._envs v) h),
     (Vectorize.set_envs (fst (snd (run_envs body 0 (Vectorize._envs v) h))) v,
      snd (snd (run_envs body 0 (Vectorize._envs v) h)))).
Proof.
  unfold Vectorize.for_envs, bind, Vectorize.self. simpl.
  apply (for_each_envs _ body (fun _ => True) [] (Vectorize._envs v) v h); auto.
Qed.

(** The body of the loop of [step_wait] reads [self._act[i]] and then
    steps the environment at [i]. *)
Lemma step_wait_body i (v : Vectorize.t) h e :
  Vectorize._envs v !! i = Some e ->
  (let* a := Vectorize.act_item i in Vectorize.with_env i (env_step a)) (v, h) =
    Vectorize.with_env i (step_body (Vectorize._act v) i) (v, h).
Proof.
  intros Hi. rewrite (with_env_lookup _ _ _ _ e Hi).
  unfold step_body, Vectorize.act_item, act_lookup, bind, Vectorize.self. simpl.
  destruct (Vectorize._act v) as [act|]; simpl.
  - destruct (act !! i) as [a|]; simpl.
    + by rewrite (with_env_lookup _ _ _ _ e Hi).
    + rewrite list_insert_id by done. by destruct v.
  - rewrite list_insert_id by done. by destruct v.
Qed.

Lemma step_wait_loop (v : Vectorize.t) h :
  Vectorize.for_envs
    (fun i => let* a := Vectorize.act_item i in Vectorize.with_env i (env_step a))
    (v, h) =
    (fst (run_envs (step_body (Vectorize._act v)) 0 (Vectorize._envs v) h),
     (Vectorize.set_envs
        (fst (snd (run_envs (step_body (Vectorize._act v)) 0 (Vectorize._envs v) h))) v,
      snd (snd (run_envs (step_body (Vectorize._act v)) 0 (Vectorize._envs v) h)))).
Proof.
  unfold Vectorize.for_envs, bind at 1, Vectorize.self. simpl.
  apply (for_each_envs _ (step_body (Vectorize._act v))
           (fun v' => Vectorize._act v' = Vectorize._act v) [] (Vectorize._envs v) v h);
    auto.
  intros i v' h' e Hact Hi. rewrite <- Hact. by apply (step_wait_body i v' h' e).
Qed.
End VectorizeLoops.

(** ** Comprehensions that only read *)

Lemma for_each_pure {S A B} (body : A -> M S B) (f : A -> result B) (xs : list A) (s : S) :
  (forall x, body x s = (f x, s)) ->
  for_each xs body s = (map_result f xs, s).
Proof.
  intros Hb. induction xs as [|x xs IH]; simpl; [reflexivity|].
  unfold bind at 1. rewrite Hb. destruct (f x) as [y|e]; [|reflexivity].
  unfold bind at 1. rewrite IH. by destruct (map_result f xs).
Qed.

Lemma map_result_length {A B} (f : A -> result B) xs ys :
  map_result f xs = Ok ys -> length ys = length xs.
Proof.
  revert ys. induction xs as [|x xs IH]; simpl; intros ys.
  - by intros [= <-].
  - destruct (f x); [|discriminate]. destruct (map_result f xs); [|discriminate].
    intros [= <-]. simpl. f_equal. by apply IH.
Qed.

Lemma map_result_lookup {A B} (f : A -> result B) xs ys i x :
  map_result f xs = Ok ys -> xs !! i = Some x ->
  exists y, ys !! i = Some y /\ f x = Ok y.
Proof.
  revert ys i. induction xs as [|x0 xs IH]; simpl; intros ys i; [done|].
  destruct (f x0) as [y0|] eqn:Hf; [|discriminate].
  destruct (map_result f xs) as [ys0|]; [|discriminate].
  intros [= <-]. destruct i as [|i]; simpl.
  - intros [= <-]. eauto.
  - intros Hi. by apply IH.
Qed.

Lemma map_result_ext {A B} (f g : A -> result B) xs :
  (forall x, x ∈ xs -> f x = g x) -> map_result f xs = map_result g xs.
Proof.
  induction xs as [|x xs IH]; intros H; simpl; [reflexivity|].
  rewrite (H x) by left. rewrite IH; [reflexivity|].
  intros y Hy. apply H. by right.
Qed.

Lemma load_state l h : snd (load l h) = h.
Proof. unfold load. by destruct (h !! l). Qed.

Lemma getitem_state o k h : snd (getitem o k h) = h.
Proof.
  unfold getitem. destruct o as [l|]; [|reflexivity].
  unfold bind, load. destruct (h !! l) as [[a|items]|]; try reflexivity.
  by destruct (dict_get items k).
Qed.

Lemma load_array_state o h : snd (load_array o h) = h.
Proof.
  unfold load_array. destruct o as [l|]; [|reflexivity].
  unfold bind, load. by destruct (h !! l) as [[a|items]|].
Qed.

Lemma on_snd_eq {S T A} (m : M T A) (s : S) (t : T) :
  on_snd m (s, t) = (fst (m t), (s, snd (m t))).
Proof. unfold on_snd. simpl. by destruct (m t). Qed.

Lemma member_array_eq {S} (s : S) h name o :
  (let* a := on_snd (getitem o name) in on_snd (load_array (Some a))) (s, h) =
    (member_array h name o, (s, h)).
Proof.
  unfold member_array, bind, on_snd, getitem, load_array, load, bind. simpl.
  destruct o as [l|]; simpl; [|reflexivity].
  destruct (h !! l) as [[a|items]|]; simpl; try reflexivity.
  destruct (dict_get items name) as [l'|]; simpl; [|reflexivity].
  by destruct (h !! l') as [[a|items']|].
Qed.

Section MergeObs.
Context {E : Type} `{EnvE : Env E}.

Lemma merge_obs_spec (raw : list (option loc)) (v : @Vectorize.t E) h :
  Vectorize._merge_obs raw (v, h) =
    (merge_obs_of (Vectorize.observation_space v) raw h, (v, h)).
Proof.
  assert (Hplain :
    (let* arrs := for_each raw (fun o => on_snd (load_array o)) in
     let* stacked := lift_result (np_stack arrs) in
     ret (ObsArr stacked)) (v, h) =
    (result_bind (map_result (fun o => fst (load_array o h)) raw) (fun arrs =>
     result_bind (np_stack arrs) (fun stacked => Ok (ObsArr stacked))), (v, h))).
  { unfold bind at 1.
    rewrite (for_each_pure _ (fun o => fst (load_array o h))).
    2:{ intros o. by rewrite on_snd_eq, load_array_state. }
    destruct (map_result _ raw) as [arrs|e]; simpl; [|reflexivity].
    unfold bind. by destruct (np_stack arrs). }
  unfold Vectorize._merge_obs, merge_obs_of. unfold bind at 1. simpl.
  destruct (Vectorize.observation_space v) as [lo hi sh dt|n|spaces]; try exact Hplain.
  clear Hplain. unfold bind at 1.
  rewrite (for_each_pure _ (fun name =>
         result_bind (map_result (member_array h name) raw) (fun arrs =>
         result_bind (np_stack arrs) (fun stacked => Ok (name, stacked))))).
  - by destruct (map_result _ (dict_keys spaces)).
  - intros name. unfold bind at 1.
    rewrite (for_each_pure _ (member_array h name)).
    + destruct (map_result (member_array h name) raw) as [arrs|e]; simpl; [|reflexivity].
      unfold bind. by destruct (np_stack arrs).
    + intros o. apply member_array_eq.
Qed.
End MergeObs.

(** ** [Vectorize]: ordering of [step_async] and [step_wait], construction,
    rendering *)

Section VectorizeFacts.
Context {E : Type} `{EnvE : Env E}.

Lemma step_wait_run (v : Vectorize.t) h :
  Vectorize.step_wait (v, h) =
    let '(r, (envs', h1)) :=
      run_envs (step_body (Vectorize._act v)) 0 (Vectorize._envs v) h in
    match r with
    | Ok outs =>
        match Vectorize._merge_obs (map (fun o => o.1.1.1) outs)
                (Vectorize.set_envs envs' v, h1) with
        | (Ok merged, st) =>
            (Ok (merged, map (fun o => o.1.1.2) outs,
                 map (fun o => o.1.2) outs, map (fun o => o.2) outs), st)
        | (Raise x, st) => (Raise x, st)
        end
    | Raise x => (Raise x, (Vectorize.set_envs envs' v, h1))
    end.
Proof.
  unfold Vectorize.step_wait. unfold bind at 1. rewrite step_wait_loop.
  destruct (run_envs (step_body (Vectorize._act v)) 0 (Vectorize._envs v) h)
    as [[outs|x] [envs' h1]]; simpl; [|reflexivity].
  unfold bind.
  destruct (Vectorize._merge_obs _ _) as [[merged|x] st]; reflexivity.
Qed.

(** C8.  The constructor asserts that the action space of the first
    environment has no [spaces] attribute: when it is a dict space the
    construction stops with [AssertionError], and the action space of
    every [Vectorize] that was constructed is not a dict space. *)
Theorem init_rejects_dict_action_space :
  (forall (fns : list (M heap E)) h e0 envs h1,
      for_each fns (fun fn => fn) h = (Ok (e0 :: envs), h1) ->
      hasattr_spaces (env_action_space e0) = true ->
      Vectorize.__init__ fns h = (Raise AssertionError, h1)) /\
  (forall (fns : list (M heap E)) h v h1,
      Vectorize.__init__ fns h = (Ok v, h1) ->
      hasattr_spaces (Vectorize.action_space v) = false /\
      exists e0, head (Vectorize._envs v) = Some e0 /\
                 Vectorize.action_space v = env_action_space e0).
Proof.
  split.
  - intros fns h e0 envs h1 Hmk Hd. unfold Vectorize.__init__.
    rewrite (bind_ok _ _ _ _ _ Hmk). unfold bind, assert. by rewrite Hd.
  - intros fns h v h1. unfold Vectorize.__init__. intros H.
    apply bind_inv_ok in H as ([|e0 envs] & h' & Hmk & H); [discriminate|].
    unfold bind, assert in H.
    destruct (hasattr_spaces (env_action_space e0)) eqn:Hd; simpl in H; [discriminate|].
    injection H as <- <-. simpl. eauto.
Qed.

(** C10.  [render] asserts [mode == "rgb_array"]: any other mode, the
    default ["human"] included, raises [AssertionError] and nothing is
    rendered; for ["rgb_array"] the environments render one after the
    other in instance order and the frames are stacked in that order
    into one array with a leading axis. *)
Theorem render_only_rgb_array (mode : string) (v : Vectorize.t) (h : heap) :
  Vectorize.render mode (v, h) =
    (if String.eqb mode "rgb_array"
     then
       let '(r, (envs', h1)) :=
         run_envs (fun _ => env_render "rgb_array") 0 (Vectorize._envs v) h in
       (match r with
        | Ok frames => np_stack frames
        | Raise x => Raise x
        end, (Vectorize.set_envs envs' v, h1))
     else (Raise AssertionError, (v, h))) /\
  Vectorize.render_default (v, h) = (Raise AssertionError, (v, h)) /\
  (forall frames a, np_stack frames = Ok a ->
     nd_data a = concat (map nd_data frames) /\
     exists f0, head frames = Some f0 /\
                nd_shape a = length frames :: nd_shape f0).
Proof.
  split; [|split].
  - unfold Vectorize.render. destruct (String.eqb mode "rgb_array") eqn:Hm.
    + apply String.eqb_eq in Hm. subst mode. unfold bind at 1. simpl.
      unfold bind at 1. rewrite for_envs_run.
      destruct (run_envs _ 0 (Vectorize._envs v) h) as [[frames|x] [envs' h1]]; simpl.
      * by destruct (np_stack frames).
      * reflexivity.
    + reflexivity.
  - reflexivity.
  - intros frames a. unfold np_stack. destruct frames as [|f0 fs]; [discriminate|].
    destruct (forallb _ _); [|discriminate].
    intros [= <-]. simpl. eauto.
Qed.
End VectorizeFacts.

(** ** [step_wait] steps environment [i] with [actions[i]] *)

Section StepWait.
Context {E : Type} `{EnvE : Env E}.

Lemma run_envs_stepped (acts : list ndarray) i (envs : list E) h outs envs' h' :
  run_envs (step_body (Some acts)) i envs h = (Ok outs, (envs', h')) <->
  stepped i envs acts h outs envs' h'.
Proof.
  split.
  - revert i h outs envs' h'. induction envs as [|e es IH]; simpl; intros i h outs envs' h'.
    + intros [= <- <- <-]. constructor.
    + unfold step_body at 1, bind at 1, act_lookup. simpl.
      destruct (acts !! i) as [a|] eqn:Ha; simpl; [|discriminate].
      destruct (env_step a (e, h)) as [[o|x] [e' h1]] eqn:Hs; [|discriminate].
      destruct (run_envs _ (S i) es h1) as [[l|x] [es' h2]] eqn:Hr; [|discriminate].
      intros [= <- <- <-]. econstructor; eauto.
  - induction 1 as [|i e es acts h a o e' h1 outs es' h2 Ha Hs _ IH]; simpl; [reflexivity|].
    unfold step_body at 1, bind at 1, act_lookup. simpl. rewrite Ha. simpl.
    rewrite Hs, IH. reflexivity.
Qed.

Lemma stepped_length (acts : list ndarray) i (envs : list E) h outs envs' h' :
  stepped i envs acts h outs envs' h' ->
  length outs = length envs /\ length envs' = length envs.
Proof. induction 1; simpl; [done|]. lia. Qed.

(** Each environment is stepped once, from the store its predecessors
    left, with the action at its own index. *)
Lemma stepped_lookup (acts : list ndarray) i (envs : list E) h outs envs' h' k e :
  stepped i envs acts h outs envs' h' ->
  envs !! k = Some e ->
  exists a o e' hk hk',
    acts !! (i + k)%nat = Some a /\ outs !! k = Some o /\ envs' !! k = Some e' /\
    env_step a (e, hk) = (Ok o, (e', hk')).
Proof.
  intros Hst. revert k. induction Hst as [|i e0 es acts h a o e' h1 outs es' h2 Ha Hs _ IH];
    intros k Hk; [done|].
  destruct k as [|k]; simpl in *.
  - injection Hk as <-. rewrite Nat.add_0_r. eauto 10.
  - destruct (IH k Hk) as (a' & o' & e'' & hk & hk' & H1 & H2 & H3 & H4).
    replace (i + S k)%nat with (S i + k)%nat by lia. eauto 10.
Qed.

(** [step_async(actions)] followed by [step_wait()] returns a tuple
    exactly when every environment could be stepped, in index order, with
    its own entry of [actions], and the observations could be merged. *)
Lemma step_wait_stepped (acts : list ndarray) (v : @Vectorize.t E) (h : heap)
    merged rews dones infos v' h' :
  (Vectorize.step_async acts ;; Vectorize.step_wait) (v, h)
    = (Ok (merged, rews, dones, infos), (v', h')) <->
  exists outs,
    stepped 0 (Vectorize._envs v) acts h outs (Vectorize._envs v') h' /\
    v' = Vectorize.set_envs (Vectorize._envs v') (Vectorize.set_act (Some acts) v) /\
    rews = map (fun o => o.1.1.2) outs /\
    dones = map (fun o => o.1.2) outs /\
    infos = map (fun o => o.2) outs /\
    length rews = length (Vectorize._envs v) /\
    length dones = length (Vectorize._envs v) /\
    length infos = length (Vectorize._envs v) /\
    merge_obs_of (Vectorize.observation_space v) (map (fun o => o.1.1.1) outs) h'
      = Ok merged /\
    (forall i e, Vectorize._envs v !! i = Some e ->
       exists a o r d inf e' hi hi',
         acts !! i = Some a /\
         env_step a (e, hi) = (Ok (o, r, d, inf), (e', hi')) /\
         rews !! i = Some r /\ dones !! i = Some d /\ infos !! i = Some inf /\
         Vectorize._envs v' !! i = Some e').
Proof.
  unfold bind at 1. simpl. rewrite step_wait_run. simpl.
  destruct (run_envs (step_body (Some acts)) 0 (Vectorize._envs v) h)
    as [r [envs1 h1]] eqn:Hrun.
  split.
  - destruct r as [outs|x]; [|discriminate].
    rewrite merge_obs_spec. simpl.
    destruct (merge_obs_of _ _ h1) as [m|x] eqn:Hm; [|discriminate].
    intros [= <- <- <- <- <- <-]. simpl.
    apply run_envs_stepped in Hrun.
    destruct (stepped_length _ _ _ _ _ _ _ Hrun) as [Hl1 Hl2].
    exists outs. rewrite !length_map. repeat split; try done.
    intros i e Hi.
    destruct (stepped_lookup _ _ _ _ _ _ _ i e Hrun Hi)
      as (a & [[[o r] d] inf] & e' & hk & hk' & H1 & H2 & H3 & H4).
    exists a, o, r, d, inf, e', hk, hk'. rewrite !list_lookup_fmap, H2. simpl. done.
  - intros (outs & Hst & Hv' & -> & -> & -> & _ & _ & _ & Hm & _).
    apply run_envs_stepped in Hst. rewrite Hst in Hrun. injection Hrun as <- <- <-.
    rewrite merge_obs_spec. simpl. rewrite Hm. by rewrite <- Hv'.
Qed.

(** C4.  [step_async] never raises and only records its argument: a
    second call without a [step_wait] in between overwrites the actions
    of the first.  The [step_wait] that follows returns a tuple exactly
    when every environment could be stepped, in index order, with its
    entry of the actions submitted last, and then rewards, dones and
    infos are what these steps returned; the actions of the first call
    are never read, so with an empty second submission [step_wait]
    raises [IndexError] at the first environment whatever the first
    submission was. *)
Theorem step_async_twice_supersedes (a1 a2 : list ndarray) (v : @Vectorize.t E)
    (h : heap) :
  fst (Vectorize.step_async a1 (v, h)) = Ok tt /\
  (Vectorize.step_async a1 ;; Vectorize.step_async a2) (v, h)
    = (Ok tt, (Vectorize.set_act (Some a2) v, h)) /\
  (Vectorize.step_async a1 ;; Vectorize.step_async a2 ;; Vectorize.step_wait) (v, h)
    = (Vectorize.step_async a2 ;; Vectorize.step_wait) (v, h) /\
  (forall merged rews dones infos v' h',
     (Vectorize.step_async a1 ;; Vectorize.step_async a2 ;; Vectorize.step_wait) (v, h)
       = (Ok (merged, rews, dones, infos), (v', h')) <->
     exists outs,
       stepped 0 (Vectorize._envs v) a2 h outs (Vectorize._envs v') h' /\
       v' = Vectorize.set_envs (Vectorize._envs v') (Vectorize.set_act (Some a2) v) /\
       rews = map (fun o => o.1.1.2) outs /\
       dones = map (fun o => o.1.2) outs /\
       infos = map (fun o => o.2) outs /\
       merge_obs_of (Vectorize.observation_space v) (map (fun o => o.1.1.1) outs) h'
         = Ok merged) /\
  (forall merged rews dones infos v' h',
     (Vectorize.step_async a1 ;; Vectorize.step_async a2 ;; Vectorize.step_wait) (v, h)
       = (Ok (merged, rews, dones, infos), (v', h')) ->
     forall i e, Vectorize._envs v !! i = Some e ->
       exists a o r d inf e' hi hi',
         a2 !! i = Some a /\
         env_step a (e, hi) = (Ok (o, r, d, inf), (e', hi')) /\
         rews !! i = Some r /\ dones !! i = Some d /\ infos !! i = Some inf /\
         Vectorize._envs v' !! i = Some e') /\
  (Vectorize._envs v <> [] ->
   (Vectorize.step_async a1 ;; Vectorize.step_async [] ;; Vectorize.step_wait) (v, h)
     = (Raise IndexError, (Vectorize.set_act (Some []) v, h))).
Proof.
  assert (Heq : forall a, (Vectorize.step_async a1 ;; Vectorize.step_async a ;;
                           Vectorize.step_wait) (v, h)
                          = (Vectorize.step_async a ;; Vectorize.step_wait) (v, h))
    by reflexivity.
  split; [reflexivity|]. split; [reflexivity|]. split; [apply Heq|].
  split; [|split].
  - intros merged rews dones infos v' h'. rewrite Heq, step_wait_stepped. split.
    + intros (outs & Hst & Hv & Hr & Hd & Hi & _ & _ & _ & Hm & _). by exists outs.
    + intros (outs & Hst & Hv & Hr & Hd & Hi & Hm). exists outs.
      destruct (stepped_length _ _ _ _ _ _ _ Hst) as [Hl1 Hl2].
      subst rews dones infos. rewrite !length_map.
      split; [done|]. split; [done|]. split; [done|]. split; [done|].
      split; [done|]. split; [done|]. split; [done|]. split; [done|].
      split; [done|]. intros i e He.
      destruct (stepped_lookup _ _ _ _ _ _ _ i e Hst He)
        as (a & [[[o r] d] inf] & e' & hk & hk' & H1 & H2 & H3 & H4).
      exists a, o, r, d, inf, e', hk, hk'. rewrite !list_lookup_fmap, H2. simpl. done.
  - intros merged rews dones infos v' h'. rewrite Heq, step_wait_stepped.
    intros (outs & _ & _ & _ & _ & _ & _ & _ & _ & _ & Hall). exact Hall.
  - intros Hne. rewrite Heq. unfold bind at 1. simpl. rewrite step_wait_run. simpl.
    destruct (Vectorize._envs v) as [|e es] eqn:Hes; [done|].
    simpl. rewrite <- Hes. by destruct v.
Qed.
End StepWait.

(** ** numpy arithmetic *)

Lemma modulus_pos dt : 0 < modulus dt.
Proof. by destruct dt. Qed.

Ltac eval_modulus :=
  repeat match goal with
         | |- context [modulus ?d / 2] =>
             let v := eval vm_compute in (modulus d / 2) in
             change (modulus d / 2) with v
         | H : context [modulus ?d / 2] |- _ =>
             let v := eval vm_compute in (modulus d / 2) in
             change (modulus d / 2) with v in H
         | |- context [modulus ?d] =>
             let v := eval vm_compute in (modulus d) in change (modulus d) with v
         | H : context [modulus ?d] |- _ =>
             let v := eval vm_compute in (modulus d) in change (modulus d) with v in H
         end.

Ltac mod_facts :=
  repeat match goal with
         | |- context [?u mod ?m] =>
             let q := fresh "q" in let r := fresh "r" in
             pose proof (Z.div_mod u m ltac:(lia));
             pose proof (Z.mod_pos_bound u m ltac:(lia));
             set (q := u / m) in *; set (r := u mod m) in *; clearbody q r
         | H : context [?u mod ?m] |- _ =>
             let q := fresh "q" in let r := fresh "r" in
             pose proof (Z.div_mod u m ltac:(lia));
             pose proof (Z.mod_pos_bound u m ltac:(lia));
             set (q := u / m) in *; set (r := u mod m) in *; clearbody q r
         end.

Lemma cast_in_range dt z : in_range dt (cast dt z).
Proof.
  unfold in_range, cast.
  destruct dt; cbn [is_signed]; eval_modulus; mod_facts; lia.
Qed.

Lemma cast_id dt z : in_range dt z -> cast dt z = z.
Proof.
  unfold in_range, cast.
  destruct dt; cbn [is_signed]; eval_modulus; intros H; mod_facts; lia.
Qed.

Lemma cast_cast dt z : cast dt (cast dt z) = cast dt z.
Proof. apply cast_id, cast_in_range. Qed.

(** Adding [y] leaves an element of the dtype as it is only if [y] is a
    multiple of the modulus. *)
Lemma cast_add_fix dt x y :
  in_range dt x -> cast dt (x + cast dt y) = x -> cast dt y = 0.
Proof.
  intros Hx Heq. pose proof (cast_in_range dt y) as Hy.
  revert Hx Hy Heq. generalize (cast dt y) as c. intros c.
  unfold in_range, cast.
  destruct dt; cbn [is_signed]; eval_modulus; intros Hx Hc Heq; mod_facts; lia.
Qed.

Lemma chunks_concat {A} n sz (d : list A) :
  length d = (n * sz)%nat -> concat (chunks n sz d) = d.
Proof.
  revert d. induction n as [|n IH]; intros d Hd; simpl.
  - symmetry. by apply nil_length_inv.
  - rewrite IH; [apply take_drop|]. rewrite length_drop. lia.
Qed.

Lemma chunks_lengths {A} n sz (d : list A) :
  length d = (n * sz)%nat -> Forall (fun c => length c = sz) (chunks n sz d).
Proof.
  revert d. induction n as [|n IH]; intros d Hd; simpl; constructor.
  - rewrite length_take. lia.
  - apply IH. rewrite length_drop. lia.
Qed.

Lemma sequence_opt_map_some {A} (l : list A) : sequence_opt (map Some l) = Some l.
Proof.
  induction l as [|x l IH]; [reflexivity|].
  unfold sequence_opt in *. simpl. by rewrite IH.
Qed.

(** Broadcasting an operand that already has the target's shape changes
    nothing. *)
Lemma bcast_same s d : length d = numel s -> bcast s s d = Some d.
Proof.
  revert d. induction s as [|n s IH]; intros d Hd; simpl; [reflexivity|].
  rewrite Nat.eqb_refl. simpl in Hd.
  assert (Hmap : map (bcast s s) (chunks n (numel s) d) = map Some (chunks n (numel s) d)).
  { apply map_ext_Forall. eapply Forall_impl; [by apply chunks_lengths|].
    intros c Hc. by apply IH. }
  rewrite Hmap, sequence_opt_map_some. simpl. f_equal. by apply chunks_concat.
Qed.

Lemma broadcast_to_same b s :
  nd_shape b = s -> well_shaped b -> broadcast_to b s = Some (nd_data b).
Proof.
  intros <- Hw. unfold broadcast_to. rewrite Nat.ltb_irrefl, Nat.sub_diag. simpl.
  by apply bcast_same.
Qed.

Lemma np_iadd_same a b dt :
  nd_shape b = nd_shape a -> well_shaped b -> nd_dtype a = dt ->
  np_iadd a (np_array_cast b dt) = Ok (arr_add b a).
Proof.
  intros Hs Hw <-. unfold np_iadd.
  rewrite (broadcast_to_same (np_array_cast b (nd_dtype a)) (nd_shape a)).
  - unfold arr_add. simpl. f_equal. f_equal. by rewrite zip_with_fmap_r.
  - exact Hs.
  - unfold well_shaped in *. simpl. by rewrite length_map.
Qed.

Lemma arr_add_conforms shape dt a b :
  conforms shape dt a -> nd_shape b = shape -> well_shaped b ->
  conforms shape dt (arr_add b a).
Proof.
  intros (Hs & Hd & Hl & Hr) Hb Hw. unfold conforms, arr_add. simpl.
  repeat split; try done.
  - rewrite length_zip_with. unfold well_shaped in Hw. rewrite Hb in Hw. lia.
  - rewrite Hd. apply Forall_forall. intros z Hz.
    apply list_elem_of_lookup in Hz as [i Hi].
    apply lookup_zip_with_Some in Hi as (x & y & -> & _ & _). apply cast_in_range.
Qed.

(** ** The object store *)

Lemma iadd_array l a b dt h :
  h !! l = Some (PArr a) ->
  nd_shape b = nd_shape a -> well_shaped b -> nd_dtype a = dt ->
  iadd l (np_array_cast b dt) h = (Ok l, <[l := PArr (arr_add b a)]> h).
Proof.
  intros Hl Hs Hw Hd. unfold iadd, bind, load. rewrite Hl.
  by rewrite (np_iadd_same a b dt).
Qed.

Lemma getitem_dict l items key a h :
  h !! l = Some (PDict items) -> dict_get items key = Some a ->
  getitem (Some l) key h = (Ok a, h).
Proof. intros Hl Hk. unfold getitem, bind, load. by rewrite Hl, Hk. Qed.

Lemma dict_set_same {V} (items : list (string * V)) key a :
  dict_get items key = Some a -> dict_set items key a = items.
Proof.
  induction items as [|[k v] items IH]; simpl; [done|].
  destruct (String.eqb k key) eqn:Hk.
  - by intros [= ->].
  - intros H. by rewrite IH.
Qed.

(** Storing back the reference a dict already holds under a key leaves the
    store as it is. *)
Lemma setitem_same l items key a h :
  h !! l = Some (PDict items) -> dict_get items key = Some a ->
  setitem l key a h = (Ok tt, h).
Proof.
  intros Hl Hk. unfold setitem, bind, load, store. rewrite Hl.
  rewrite dict_set_same by done. by rewrite list_insert_id.
Qed.

(** ** [_SimpleEnv] *)

Section SimpleEnvFacts.
Context `{RG : RandomGen}.

Lemma py_truediv_pos a b : 1 <= b -> py_truediv a b = Ok (reward_of a b).
Proof. intros Hb. destruct b as [|d|d]; try lia. reflexivity. Qed.

Lemma set_cur_obs_id (e : SimpleEnv.t) o :
  SimpleEnv._cur_obs e = o -> SimpleEnv.set_cur_obs o e = e.
Proof. intros <-. by destruct e. Qed.

(** [reset] returns the reference stored in [_start_obs], not a copy. *)
Lemma reset_spec (e : SimpleEnv.t) h :
  SimpleEnv.reset (e, h) =
    (Ok (Some (SimpleEnv._start_obs e)),
     (SimpleEnv.set_cur_step 0
        (SimpleEnv.set_cur_obs (Some (SimpleEnv._start_obs e)) e), h)).
Proof. reflexivity. Qed.

Lemma step_spec_array shape (e : SimpleEnv.t) h action a :
  SimpleEnv._dict_obs_space e = false ->
  1 <= SimpleEnv._max_steps e ->
  SimpleEnv._cur_obs e = Some (SimpleEnv._start_obs e) ->
  h !! SimpleEnv._start_obs e = Some (PArr a) ->
  conforms shape (SimpleEnv._dtype e) a ->
  nd_shape action = shape -> well_shaped action ->
  SimpleEnv.step action (e, h) =
    (Ok (Some (SimpleEnv._start_obs e),
         reward_of (SimpleEnv._cur_step e + 1) (SimpleEnv._max_steps e),
         (SimpleEnv._max_steps e <=? SimpleEnv._cur_step e + 1), []),
     (SimpleEnv.set_cur_step (SimpleEnv._cur_step e + 1) e,
      <[SimpleEnv._start_obs e := PArr (arr_add action a)]> h)).
Proof.
  intros Hd Hm Hc Hl (Hs & Hdt & _) Ha Hw.
  unfold SimpleEnv.step. unfold bind at 1, SimpleEnv.self at 1. cbn [fst snd].
  rewrite Hd, Hc. unfold bind at 1. unfold bind at 1.
  rewrite on_snd_eq.
  rewrite (iadd_array _ a action (SimpleEnv._dtype e)); [|done|congruence|done|done].
  cbn [fst snd]. unfold SimpleEnv.modify at 1. cbn [fst snd].
  rewrite (set_cur_obs_id e) by done.
  unfold bind at 1, SimpleEnv.modify at 1. cbn [fst snd].
  unfold bind at 1, SimpleEnv.self at 1. cbn [fst snd].
  destruct e; simpl in *. rewrite py_truediv_pos by done. subst. reflexivity.
Qed.

Lemma step_spec_dict shape (e : SimpleEnv.t) h action la lb a b :
  SimpleEnv._dict_obs_space e = true ->
  SimpleEnv._obs_keys e = ["obs_a"; "obs_b"]%string ->
  1 <= SimpleEnv._max_steps e ->
  SimpleEnv._cur_obs e = Some (SimpleEnv._start_obs e) ->
  h !! SimpleEnv._start_obs e = Some (PDict [("obs_a", la); ("obs_b", lb)]%string) ->
  la <> lb ->
  h !! la = Some (PArr a) -> h !! lb = Some (PArr b) ->
  conforms shape (SimpleEnv._dtype e) a ->
  conforms shape (SimpleEnv._dtype e) b ->
  nd_shape action = shape -> well_shaped action ->
  SimpleEnv.step action (e, h) =
    (Ok (Some (SimpleEnv._start_obs e),
         reward_of (SimpleEnv._cur_step e + 1) (SimpleEnv._max_steps e),
         (SimpleEnv._max_steps e <=? SimpleEnv._cur_step e + 1), []),
     (SimpleEnv.set_cur_step (SimpleEnv._cur_step e + 1) e,
      <[lb := PArr (arr_add action b)]> (<[la := PArr (arr_add action a)]> h))).
Proof.
  intros Hd Hk Hm Hc Hl Hne Hla Hlb (Hsa & Hda & _) (Hsb & Hdb & _) Ha Hw.
  assert (Hla_d : la <> SimpleEnv._start_obs e) by (intros ->; congruence).
  assert (Hlb_d : lb <> SimpleEnv._start_obs e) by (intros ->; congruence).
  pose proof (lookup_lt_Some _ _ _ Hla) as Hlta.
  pose proof (lookup_lt_Some _ _ _ Hlb) as Hltb.
  set (h1 := <[la := PArr (arr_add action a)]> h).
  set (h2 := <[lb := PArr (arr_add action b)]> h1).
  assert (Hl1 : h1 !! SimpleEnv._start_obs e
                = Some (PDict [("obs_a", la); ("obs_b", lb)]%string)).
  { unfold h1. by rewrite list_lookup_insert_ne. }
  assert (Hl2 : h2 !! SimpleEnv._start_obs e
                = Some (PDict [("obs_a", la); ("obs_b", lb)]%string)).
  { unfold h2. by rewrite list_lookup_insert_ne. }
  assert (Hlb1 : h1 !! lb = Some (PArr b)).
  { unfold h1. by rewrite list_lookup_insert_ne. }
  unfold SimpleEnv.step. unfold bind at 1, SimpleEnv.self at 1. cbn [fst snd].
  rewrite Hd, Hk. cbn [for_each].
  (* key "obs_a" *)
  unfold bind at 1. unfold bind at 1. unfold bind at 1.
  unfold bind at 1, SimpleEnv.self at 1. cbn [fst snd]. rewrite Hc.
  unfold bind at 1. rewrite on_snd_eq.
  rewrite (getitem_dict _ _ "obs_a" la h Hl eq_refl). cbn [fst snd].
  unfold bind at 1. rewrite on_snd_eq.
  rewrite (iadd_array _ a action (SimpleEnv._dtype e)); [|done|congruence|done|done].
  cbn [fst snd]. fold h1. rewrite on_snd_eq.
  rewrite (setitem_same _ _ "obs_a" la h1 Hl1 eq_refl). cbn [fst snd].
  (* key "obs_b" *)
  unfold bind at 1. unfold bind at 1.
  unfold bind at 1, SimpleEnv.self at 1. cbn [fst snd]. rewrite Hc.
  unfold bind at 1. rewrite on_snd_eq.
  rewrite (getitem_dict _ _ "obs_b" lb h1 Hl1 eq_refl). cbn [fst snd].
  unfold bind at 1. rewrite on_snd_eq.
  rewrite (iadd_array _ b action (SimpleEnv._dtype e)); [|done|congruence|done|done].
  cbn [fst snd]. fold h2. rewrite on_snd_eq.
  rewrite (setitem_same _ _ "obs_b" lb h2 Hl2 eq_refl). cbn [fst snd].
  unfold bind at 1, ret at 1. unfold ret at 1. unfold ret at 1.
  unfold bind at 1, SimpleEnv.modify at 1. cbn [fst snd].
  unfold bind at 1, SimpleEnv.self at 1. cbn [fst snd].
  destruct e; simpl in *. rewrite py_truediv_pos by done. subst. reflexivity.
Qed.

Lemma arr_add_neq shape dt a action :
  conforms shape dt a -> nd_shape action = shape -> well_shaped action ->
  (exists y, y ∈ nd_data action /\ cast dt y <> 0) ->
  arr_add action a <> a.
Proof.
  intros (Hs & Hd & Hl & Hr) Ha Hw (y & Hy & Hc) Heq.
  apply list_elem_of_lookup in Hy as [i Hi].
  assert (Hlt : (i < length (nd_data a))%nat).
  { apply lookup_lt_Some in Hi. unfold well_shaped in Hw. rewrite Ha in Hw. lia. }
  apply lookup_lt_is_Some in Hlt as [x Hx].
  assert (Hz : nd_data (arr_add action a) !! i = Some (cast dt (x + cast dt y))).
  { unfold arr_add. simpl. rewrite Hd. apply lookup_zip_with_Some. eauto. }
  rewrite Heq, Hx in Hz. injection Hz as Hz.
  apply Hc, (cast_add_fix dt x); [|done].
  rewrite Forall_forall in Hr. apply Hr. apply list_elem_of_lookup. eauto.
Qed.

(** C9.  [reset] returns a reference to the stored start observation
    itself, and [step] adds the action into that same object: the
    reference returned by [step] and by a later [reset] is the one the
    first [reset] returned, and what it shows after the step is the
    start observation plus the action, which differs from what the first
    [reset] showed whenever an element of the action is not a multiple
    of the dtype's modulus. *)
Theorem reset_after_step_returns_mutated (shape : list nat) (e : SimpleEnv.t)
    (h : heap) (action : ndarray) :
  wf_env shape e h -> nd_shape action = shape -> well_shaped action ->
  exists r e1 e2 h2 e3 rew done,
    r = Some (SimpleEnv._start_obs e) /\
    SimpleEnv.reset (e, h) = (Ok r, (e1, h)) /\
    SimpleEnv._cur_obs e1 = Some (SimpleEnv._start_obs e1) /\
    SimpleEnv.step action (e1, h) = (Ok (r, rew, done, []), (e2, h2)) /\
    SimpleEnv.reset (e2, h2) = (Ok r, (e3, h2)) /\
    is_Some (deref r h) /\
    deref r h2 = option_map (obs_add action) (deref r h) /\
    ((exists y, y ∈ nd_data action /\ cast (SimpleEnv._dtype e) y <> 0) ->
     deref r h2 <> deref r h).
Proof.
  intros (Hk & Hm & _ & Hobs) Ha Hw.
  set (e1 := SimpleEnv.set_cur_step 0
               (SimpleEnv.set_cur_obs (Some (SimpleEnv._start_obs e)) e)).
  destruct (SimpleEnv._dict_obs_space e) eqn:Hd.
  - destruct Hobs as (la & lb & a & b & Hl & Hne & Hla & Hlb & Hca & Hcb).
    assert (Hla_d : la <> SimpleEnv._start_obs e) by (intros ->; congruence).
    assert (Hlb_d : lb <> SimpleEnv._start_obs e) by (intros ->; congruence).
    pose proof (lookup_lt_Some _ _ _ Hla) as Hlta.
    pose proof (lookup_lt_Some _ _ _ Hlb) as Hltb.
    pose proof (step_spec_dict shape e1 h action la lb a b Hd Hk Hm eq_refl
                  Hl Hne Hla Hlb Hca Hcb Ha Hw) as Hstep.
    eexists _, e1, _, _, _, _, _.
    split; [reflexivity|]. split; [reflexivity|]. split; [reflexivity|].
    split; [exact Hstep|]. split; [reflexivity|].
    assert (D1 : deref (Some (SimpleEnv._start_obs e)) h
                 = Some (ObsDict [("obs_a", a); ("obs_b", b)]%string)).
    { unfold deref. rewrite Hl. simpl. by rewrite Hla, Hlb. }
    assert (D2 : deref (Some (SimpleEnv._start_obs e))
                   (<[lb := PArr (arr_add action b)]>
                      (<[la := PArr (arr_add action a)]> h))
                 = Some (ObsDict [("obs_a", arr_add action a);
                                  ("obs_b", arr_add action b)]%string)).
    { set (h2 := <[lb := PArr (arr_add action b)]>
                   (<[la := PArr (arr_add action a)]> h)).
      assert (H2s : h2 !! SimpleEnv._start_obs e
                    = Some (PDict [("obs_a", la); ("obs_b", lb)]%string)).
      { unfold h2. by rewrite !list_lookup_insert_ne. }
      assert (H2a : h2 !! la = Some (PArr (arr_add action a))).
      { unfold h2. rewrite list_lookup_insert_ne by done.
        by rewrite list_lookup_insert_eq. }
      assert (H2b : h2 !! lb = Some (PArr (arr_add action b))).
      { unfold h2. rewrite list_lookup_insert_eq; [done|]. by rewrite length_insert. }
      unfold deref. rewrite H2s. simpl. by rewrite H2a, H2b. }
    simpl SimpleEnv._start_obs. rewrite D1, D2. split; [eauto|]. split; [done|].
    intros Hy [= Heq _]. by eapply (arr_add_neq shape _ a action).
  - destruct Hobs as (a & Hl & Hca).
    pose proof (lookup_lt_Some _ _ _ Hl) as Hlt.
    pose proof (step_spec_array shape e1 h action a Hd Hm eq_refl Hl Hca Ha Hw) as Hstep.
    eexists _, e1, _, _, _, _, _.
    split; [reflexivity|]. split; [reflexivity|]. split; [reflexivity|].
    split; [exact Hstep|]. split; [reflexivity|].
    simpl SimpleEnv._start_obs. unfold deref.
    rewrite list_lookup_insert_eq by done. rewrite Hl. simpl.
    split; [eauto|]. split; [done|].
    intros Hy [= Heq]. by eapply (arr_add_neq shape _ a action).
Qed.

Lemma np_array_of_conforms shape dt values :
  length values = numel shape -> conforms shape dt (np_array_of shape dt values).
Proof.
  intros Hl. unfold conforms, np_array_of. simpl. rewrite length_map.
  repeat split; try done.
  apply Forall_forall. intros z Hz. apply list_elem_of_fmap in Hz as (y & -> & _).
  apply cast_in_range.
Qed.

Lemma insert_app_length {A} (l k : list A) x y :
  <[length l := y]> (l ++ x :: k) = l ++ y :: k.
Proof. rewrite insert_app_r_alt by lia. by rewrite Nat.sub_diag. Qed.

(** The constructor appends its objects to the store and sets up the
    layout of [wf_env]. *)
Lemma init_spec seed shape dt dict h0 :
  0 <= seed < 2 ^ 32 ->
  exists e new,
    SimpleEnv.__init__ seed shape dt dict h0 = (Ok e, h0 ++ new) /\
    wf_env shape e (h0 ++ new) /\
    SimpleEnv._dtype e = dt /\ SimpleEnv._dict_obs_space e = dict /\
    SimpleEnv._max_steps e = seed + 1 /\ SimpleEnv._cur_step e = 0 /\
    SimpleEnv._cur_obs e = None /\
    SimpleEnv.action_space e = Box 0 100 shape dt /\
    SimpleEnv.observation_space e =
      (if dict
       then Dict [("obs_a", Box 0 100 shape dt); ("obs_b", Box 0 100 shape dt)]%string
       else Box 0 100 shape dt).
Proof.
  intros Hseed. unfold SimpleEnv.__init__.
  assert (Hs : negb ((0 <=? seed) && (seed <? 2 ^ 32)) = false).
  { apply negb_false_iff, andb_true_iff. split; [apply Z.leb_le|apply Z.ltb_lt]; lia. }
  rewrite Hs. destruct dict.
  - unfold bind at 1, alloc at 1. cbn [SimpleEnv.init_start_obs].
    pose proof (randint_length (RandomState seed) 0 256 (numel shape)) as Hl1.
    destruct (randint (RandomState seed) 0 256 (numel shape)) as [v1 g1].
    pose proof (randint_length g1 0 256 (numel shape)) as Hl2.
    destruct (randint g1 0 256 (numel shape)) as [v2 g2]. simpl in Hl1, Hl2.
    unfold bind, alloc, setitem, bind, load, store, ret. simpl.
    rewrite <- !app_assoc. simpl.
    rewrite (list_lookup_middle h0 _ _ (length h0)) by done. simpl.
    rewrite insert_app_length. rewrite <- !app_assoc. simpl.
    rewrite (list_lookup_middle h0 _ _ (length h0)) by done. simpl.
    rewrite insert_app_length. rewrite !length_app. simpl.
    eexists _, _. split; [reflexivity|]. simpl.
    split; [|repeat split; reflexivity].
    unfold wf_env. simpl. split; [done|]. split; [lia|]. split; [by left|].
    exists (length h0 + 1)%nat, (length h0 + 2)%nat.
    exists (np_array_of shape dt v1), (np_array_of shape dt v2).
    rewrite (list_lookup_middle h0 _ _ (length h0)) by done.
    rewrite !lookup_app_r by lia.
    replace (length h0 + 1 - length h0)%nat with 1%nat by lia.
    replace (length h0 + 2 - length h0)%nat with 2%nat by lia. simpl.
    repeat split; try done; try lia; by apply np_array_of_conforms.
  - pose proof (randint_length (RandomState seed) 0 256 (numel shape)) as Hl1.
    destruct (randint (RandomState seed) 0 256 (numel shape)) as [v1 g1]. simpl in Hl1.
    unfold bind, alloc, ret. simpl.
    eexists _, _. split; [reflexivity|]. simpl.
    split; [|repeat split; reflexivity].
    unfold wf_env. simpl. split; [done|]. split; [lia|]. split; [by left|].
    eexists. rewrite lookup_app_r by lia. rewrite Nat.sub_diag. simpl.
    split; [done|]. by apply np_array_of_conforms.
Qed.
End SimpleEnvFacts.

(** * Further properties of [Vectorize] *)

Section VectorizeExtra.
Context {E : Type} `{EnvE : Env E}.

Lemma set_envs_id (v : @Vectorize.t E) : Vectorize.set_envs (Vectorize._envs v) v = v.
Proof. by destruct v. Qed.

(** The loop over a list of environments in two parts. *)
Lemma run_envs_app {A} (body : nat -> M (E * heap) A) i (l1 l2 : list E) h outs l1' h1 :
  run_envs body i l1 h = (Ok outs, (l1', h1)) ->
  run_envs body i (l1 ++ l2) h =
    (match fst (run_envs body (i + length l1) l2 h1) with
     | Ok outs2 => Ok (outs ++ outs2)
     | Raise x => Raise x
     end,
     (l1' ++ fst (snd (run_envs body (i + length l1) l2 h1)),
      snd (snd (run_envs body (i + length l1) l2 h1)))).
Proof.
  revert i h outs l1' h1. induction l1 as [|e l1 IH]; intros i h outs l1' h1; simpl.
  - intros [= <- <- <-]. rewrite Nat.add_0_r.
    destruct (run_envs body i l2 h) as [[o|x] [l2' h2]]; reflexivity.
  - destruct (body i (e, h)) as [[a|x] [e' h0]] eqn:Hb; [|discriminate].
    destruct (run_envs body (S i) l1 h0) as [[o|x] [l1'' h1']] eqn:Hr; [|discriminate].
    intros [= <- <- <-].
    rewrite (IH (S i) h0 o l1'' h1' Hr).
    replace (S i + length l1)%nat with (i + S (length l1))%nat by lia.
    destruct (run_envs body (i + S (length l1)) l2 h1') as [[o2|x] [l2' h2]]; reflexivity.
Qed.

Lemma run_envs_ext {A} (body body' : nat -> M (E * heap) A) i (l : list E) h :
  (forall k st, (i <= k < i + length l)%nat -> body k st = body' k st) ->
  run_envs body i l h = run_envs body' i l h.
Proof.
  revert i h. induction l as [|e l IH]; intros i h Hb; simpl; [reflexivity|].
  rewrite (Hb i) by (simpl; lia).
  destruct (body' i (e, h)) as [[a|x] [e' h0]]; [|reflexivity].
  rewrite (IH (S i) h0); [reflexivity|].
  intros k st Hk. apply Hb. simpl. lia.
Qed.

Lemma step_async_then_wait (acts : list ndarray) (v : @Vectorize.t E) h :
  (Vectorize.step_async acts ;; Vectorize.step_wait) (v, h)
    = Vectorize.step_wait (Vectorize.set_act (Some acts) v, h).
Proof. reflexivity. Qed.

(** [step_wait] on a batch whose [_act] is still [None] raises [TypeError]
    at the first environment, from [self._act[i]], and changes nothing. *)
Lemma step_wait_without_actions_raises (v : @Vectorize.t E) (h : heap) :
  Vectorize._act v = None -> Vectorize._envs v <> [] ->
  Vectorize.step_wait (v, h) = (Raise TypeError, (v, h)).
Proof.
  intros Hact Hne. rewrite step_wait_run, Hact.
  destruct (Vectorize._envs v) as [|e es] eqn:Hes; [done|].
  simpl. rewrite <- Hes. by rewrite set_envs_id.
Qed.

(** X1.  A freshly constructed batch has one environment per factory, at
    least one, and no actions: a [step_wait] before any [step_async]
    raises [TypeError], from [self._act[i]] at the first environment, and
    changes nothing. *)
Theorem step_wait_after_init_raises (fns : list (M heap E)) h (v : @Vectorize.t E) h1 :
  Vectorize.__init__ fns h = (Ok v, h1) ->
  Vectorize._act v = None /\ Vectorize._envs v <> [] /\
  length (Vectorize._envs v) = length fns /\
  Vectorize.step_wait (v, h1) = (Raise TypeError, (v, h1)).
Proof.
  unfold Vectorize.__init__. intros H.
  apply bind_inv_ok in H as (envs & h' & Hmk & H).
  assert (Hlen : length envs = length fns).
  { clear H. revert envs h h' Hmk. induction fns as [|fn fns IH]; intros envs h h'; simpl.
    - by intros [= <- <-].
    - unfold bind at 1. destruct (fn h) as [[e|x] h0]; [|discriminate].
      unfold bind at 1.
      destruct (for_each fns (fun fn => fn) h0) as [[es|x] h2] eqn:Hr; [|discriminate].
      intros [= <- <-]. simpl. f_equal. by eapply IH. }
  destruct envs as [|e0 envs]; [discriminate|].
  unfold bind, assert in H.
  destruct (hasattr_spaces (env_action_space e0)); simpl in H; [discriminate|].
  injection H as <- <-. simpl.
  split; [done|]. split; [done|]. split; [done|].
  by apply step_wait_without_actions_raises.
Qed.

(** X2.  With fewer actions than environments [step_wait] is not atomic:
    the environments that have an action are stepped, then
    [self._act[i]] raises [IndexError], and the steps already taken stay
    taken. *)
Theorem step_wait_too_few_actions (acts : list ndarray) (v : @Vectorize.t E) (h : heap)
    outs envs' h' :
  (length acts < length (Vectorize._envs v))%nat ->
  stepped 0 (take (length acts) (Vectorize._envs v)) acts h outs envs' h' ->
  (Vectorize.step_async acts ;; Vectorize.step_wait) (v, h) =
    (Raise IndexError,
     (Vectorize.set_envs (envs' ++ drop (length acts) (Vectorize._envs v))
        (Vectorize.set_act (Some acts) v), h')).
Proof.
  intros Hlt Hst. unfold bind at 1. simpl. rewrite step_wait_run. simpl.
  apply run_envs_stepped in Hst.
  rewrite <- (take_drop (length acts) (Vectorize._envs v)) at 1.
  rewrite (run_envs_app _ _ _ _ _ _ _ _ Hst).
  rewrite length_take, Nat.min_l by lia.
  destruct (drop (length acts) (Vectorize._envs v)) as [|e es] eqn:Hd.
  { apply (f_equal length) in Hd. rewrite length_drop in Hd. simpl in Hd. lia. }
  assert (Hrest : run_envs (step_body (Some acts)) (0 + length acts) (e :: es) h'
                  = (Raise IndexError, (e :: es, h'))).
  { simpl. unfold step_body, bind, act_lookup.
    rewrite lookup_ge_None_2 by lia. reflexivity. }
  rewrite Hrest. reflexivity.
Qed.

(** X3.  Actions beyond the number of environments are never read: the
    result, the environments and the store are those of a step with the
    first [N] actions. *)
Theorem step_wait_ignores_extra_actions (acts : list ndarray) (v : @Vectorize.t E)
    (h : heap) :
  let n := length (Vectorize._envs v) in
  let full := (Vectorize.step_async acts ;; Vectorize.step_wait) (v, h) in
  let cut := (Vectorize.step_async (take n acts) ;; Vectorize.step_wait) (v, h) in
  fst full = fst cut /\
  Vectorize._envs (fst (snd full)) = Vectorize._envs (fst (snd cut)) /\
  snd (snd full) = snd (snd cut).
Proof.
  intros n full cut. subst full cut.
  rewrite !step_async_then_wait, !step_wait_run. simpl.
  rewrite (run_envs_ext (step_body (Some acts)) (step_body (Some (take n acts)))).
  2:{ intros k st Hk. unfold step_body, act_lookup.
      rewrite lookup_take_lt by (subst n; lia). reflexivity. }
  destruct (run_envs (step_body (Some (take n acts))) 0 (Vectorize._envs v) h)
    as [[outs|x] [envs' h1]]; [|by repeat split].
  rewrite !merge_obs_spec. simpl.
  by destruct (merge_obs_of (Vectorize.observation_space v) _ h1).
Qed.

(** X4.  When the environments' [close] does nothing (as [gym.Env.close]
    and the [close] methods written with [pass] do), [Vectorize.close]
    returns normally and leaves the batch and the store as they were, so
    it can be called any number of times. *)
Theorem close_changes_nothing (v : @Vectorize.t E) (h : heap) :
  (forall e h, env_close (e, h) = (Ok tt, (e, h))) ->
  Vectorize.close (v, h) = (Ok tt, (v, h)) /\
  (Vectorize.close ;; Vectorize.close) (v, h) = (Ok tt, (v, h)).
Proof.
  intros Hclose.
  assert (Hrun : forall i (l : list E) h0,
             run_envs (fun _ => env_close) i l h0 = (Ok (map (fun _ => tt) l), (l, h0))).
  { intros i l. revert i. induction l as [|e l IH]; intros i h0; simpl; [reflexivity|].
    rewrite Hclose. by rewrite IH. }
  assert (H1 : Vectorize.close (v, h) = (Ok tt, (v, h))).
  { unfold Vectorize.close. unfold bind at 1. rewrite for_envs_run, Hrun. simpl.
    by rewrite set_envs_id. }
  split; [exact H1|]. unfold bind. by rewrite H1.
Qed.

Lemma dict_get_set_ne {V} (d : list (string * V)) k k' v :
  k <> k' -> dict_get (dict_set d k v) k' = dict_get d k'.
Proof.
  intros Hne. induction d as [|[k0 v0] d IH]; simpl.
  - destruct (String.eqb k k') eqn:Hk; [|done]. by apply String.eqb_eq in Hk.
  - destruct (String.eqb k0 k) eqn:Hk0; simpl.
    + apply String.eqb_eq in Hk0. subst k0.
      destruct (String.eqb k k') eqn:Hk; [|done]. by apply String.eqb_eq in Hk.
    + by rewrite IH.
Qed.

Lemma dict_set_fresh {V} (d : list (string * V)) k v :
  k ∉ dict_keys d -> dict_set d k v = d ++ [(k, v)].
Proof.
  induction d as [|[k0 v0] d IH]; simpl; intros Hk; [done|].
  apply not_elem_of_cons in Hk as [Hne Hk].
  destruct (String.eqb k0 k) eqn:Hk0.
  - apply String.eqb_eq in Hk0. congruence.
  - by rewrite IH.
Qed.

(** A dict filled key by key with distinct keys holds the pairs in the
    order of the assignments. *)
Lemma dict_of_list_nodup {V} (l : list (string * V)) :
  NoDup (map fst l) -> dict_of_list l = l.
Proof.
  intros Hnd. unfold dict_of_list.
  assert (Hgen : forall acc, NoDup (map fst (acc ++ l)) ->
            foldl (fun d kv => dict_set d (fst kv) (snd kv)) acc l = acc ++ l).
  { clear Hnd. induction l as [|[k x] l IH]; intros acc Hnd; simpl.
    - by rewrite app_nil_r.
    - rewrite dict_set_fresh.
      + rewrite IH; rewrite <- app_assoc; [done|exact Hnd].
      + rewrite map_app in Hnd. simpl in Hnd.
        apply NoDup_app in Hnd as (_ & Hd & _).
        intros Hin. apply (Hd k); [exact Hin | left]. }
  by apply (Hgen []).
Qed.

Lemma map_result_fst {B} (f : string -> result B) (names : list string)
    (items : list (string * B)) :
  map_result (fun name => result_bind (f name) (fun b => Ok (name, b))) names = Ok items ->
  map fst items = names /\
  forall k b, (k, b) ∈ items -> f k = Ok b.
Proof.
  revert items. induction names as [|n names IH]; simpl; intros items.
  - intros [= <-]. split; [done|]. intros k b Hin. by apply elem_of_nil in Hin.
  - destruct (f n) as [b0|] eqn:Hf; simpl; [|discriminate].
    destruct (map_result _ names) as [its|] eqn:Hr; [|discriminate].
    intros [= <-]. destruct (IH its eq_refl) as [Hk Hall]. simpl. split; [by f_equal|].
    intros k b Hin. apply elem_of_cons in Hin as [[= -> ->]|Hin]; [done|by apply Hall].
Qed.

(** X5.  [_merge_obs] only reads.  For a dict observation space with
    distinct keys the merged observation has exactly the keys of the
    space, in the order of the space, and the array under a key is the
    stack, in instance order, of what the environments hold under that key:
    its leading axis is the number of environments. *)
Theorem merge_obs_dict_keys (raw : list (option loc)) (v : @Vectorize.t E) (h : heap)
    spaces o st :
  Vectorize.observation_space v = Dict spaces ->
  NoDup (dict_keys spaces) ->
  Vectorize._merge_obs raw (v, h) = (Ok o, st) ->
  st = (v, h) /\
  exists items,
    o = ObsDict items /\ dict_keys items = dict_keys spaces /\
    forall k a, (k, a) ∈ items ->
      exists arrs,
        map_result (member_array h k) raw = Ok arrs /\
        length arrs = length raw /\
        np_stack arrs = Ok a /\
        nd_data a = concat (map nd_data arrs) /\
        exists shape, nd_shape a = length raw :: shape.
Proof.
  intros Hsp Hnd. rewrite merge_obs_spec. unfold merge_obs_of. rewrite Hsp.
  destruct (map_result _ (dict_keys spaces)) as [items|] eqn:Hm; simpl; [|discriminate].
  intros [= <- <-]. split; [done|].
  pose proof (map_result_fst
    (fun name => result_bind (map_result (member_array h name) raw)
                             (fun arrs => np_stack arrs))
    (dict_keys spaces) items) as Hfst.
  assert (Hm' : map_result
            (fun name => result_bind
               (result_bind (map_result (member_array h name) raw)
                            (fun arrs => np_stack arrs))
               (fun b => Ok (name, b))) (dict_keys spaces) = Ok items).
  { rewrite <- Hm. apply map_result_ext. intros name _.
    destruct (map_result (member_array h name) raw) as [arrs|]; simpl; [|done].
    by destruct (np_stack arrs). }
  destruct (Hfst Hm') as [Hkeys Hall].
  exists items. rewrite dict_of_list_nodup by (by rewrite Hkeys).
  split; [done|]. split; [exact Hkeys|].
  intros k a Hin. specialize (Hall k a Hin).
  destruct (map_result (member_array h k) raw) as [arrs|] eqn:Harrs; simpl in Hall;
    [|discriminate].
  exists arrs. pose proof (map_result_length _ _ _ Harrs) as Hlen.
  split; [done|]. split; [done|]. split; [done|].
  unfold np_stack in Hall. destruct arrs as [|a0 arrs]; [discriminate|].
  destruct (forallb _ _); [|discriminate].
  injection Hall as <-. simpl. split; [done|]. exists (nd_shape a0).
  by rewrite <- Hlen.
Qed.

Lemma for_each_app_raise {S A B} (body : A -> M S B) l1 x l2 s ys s1 e s2 :
  for_each l1 body s = (Ok ys, s1) ->
  body x s1 = (Raise e, s2) ->
  for_each (l1 ++ x :: l2) body s = (Raise e, s2).
Proof.
  revert s ys. induction l1 as [|y l1 IH]; intros s ys Hrun Hx; simpl in *.
  - injection Hrun as <- <-. unfold bind at 1. by rewrite Hx.
  - unfold bind at 1 in Hrun. unfold bind at 1.
    destruct (body y s) as [[b|e'] s'] eqn:Hy; [|discriminate].
    unfold bind at 1 in Hrun. unfold bind at 1.
    destruct (for_each l1 body s') as [[bs|e'] s''] eqn:Hr; [|discriminate].
    injection Hrun as <- <-. by rewrite (IH s' bs Hr Hx).
Qed.

(** X20 (Vectorize.__init__): with an empty list of constructors
    [self._envs[0]] raises [IndexError].  When a constructor raises, the
    exception is that of [Vectorize(...)]; the constructors after it are
    never called, and what the earlier ones put into the object store
    stays there. *)
Theorem vectorize_init_errors :
  (forall h, @Vectorize.__init__ E EnvE [] h = (Raise IndexError, h)) /\
  (forall (fns1 : list (M heap E)) (fn : M heap E) (fns2 : list (M heap E))
          h envs h1 x h2,
     for_each fns1 (fun fn => fn) h = (Ok envs, h1) ->
     fn h1 = (Raise x, h2) ->
     Vectorize.__init__ (fns1 ++ fn :: fns2) h = (Raise x, h2)).
Proof.
  split; [done|].
  intros fns1 fn fns2 h envs h1 x h2 Hrun Hfn. unfold Vectorize.__init__.
  unfold bind at 1.
  by rewrite (for_each_app_raise (fun fn => fn) fns1 fn fns2 h envs h1 x h2 Hrun Hfn).
Qed.
End VectorizeExtra.

(** * The observations [step_wait] returns *)

Lemma map_result_Forall2 {A B} (f : A -> result B) xs ys :
  map_result f xs = Ok ys -> Forall2 (fun x y => f x = Ok y) xs ys.
Proof.
  revert ys. induction xs as [|x xs IH]; simpl; intros ys.
  - intros [= <-]. constructor.
  - destruct (f x) as [y|] eqn:Hf; [|discriminate].
    destruct (map_result f xs) as [ys'|]; [|discriminate].
    intros [= <-]. constructor; [done|]. by apply IH.
Qed.

Lemma np_stack_is_stack rows a : np_stack rows = Ok a -> is_stack rows a.
Proof.
  unfold np_stack. destruct rows as [|row0 rows]; [discriminate|].
  destruct (forallb _ _) eqn:Hall; [|discriminate].
  intros [= <-]. exists row0. split; [done|]. split; [|done].
  apply Forall_forall. intros row Hrow.
  rewrite forallb_forall in Hall. apply list_elem_of_In in Hrow.
  specialize (Hall row Hrow). apply andb_true_iff in Hall as [Hs Hd].
  apply bool_decide_eq_true in Hs. apply bool_decide_eq_true in Hd. done.
Qed.

Lemma load_array_row h o row : fst (load_array o h) = Ok row -> obs_row h o row.
Proof.
  unfold load_array, obs_row. destruct o as [l|]; [|discriminate].
  unfold bind, load. destruct (h !! l) as [[a|items]|] eqn:Hl; try discriminate.
  intros [= <-]. by exists l.
Qed.

Lemma member_array_row h name o row :
  member_array h name o = Ok row -> obs_member_row h name o row.
Proof.
  unfold member_array, obs_member_row, bind, getitem.
  destruct o as [l|]; [|discriminate].
  unfold bind, load. destruct (h !! l) as [[a|items]|] eqn:Hl; try discriminate.
  destruct (dict_get items name) as [la|] eqn:Hg; [|discriminate].
  simpl. unfold load_array, bind, load.
  destruct (h !! la) as [[a|items']|] eqn:Hla; try discriminate.
  intros [= <-]. by exists l, items, la.
Qed.

Lemma dict_get_set_eq {V} (d : list (string * V)) k v :
  dict_get (dict_set d k v) k = Some v.
Proof.
  induction d as [|[k0 v0] d IH]; simpl.
  - by rewrite String.eqb_refl.
  - destruct (String.eqb k0 k) eqn:Hk; simpl; by rewrite Hk.
Qed.

Lemma dict_get_set_other {V} (d : list (string * V)) k k' v :
  k <> k' -> dict_get (dict_set d k v) k' = dict_get d k'.
Proof.
  intros Hne. induction d as [|[k0 v0] d IH]; simpl.
  - destruct (String.eqb k k') eqn:Hk; [|done]. by apply String.eqb_eq in Hk.
  - destruct (String.eqb k0 k) eqn:Hk0; simpl.
    + apply String.eqb_eq in Hk0. subst k0.
      destruct (String.eqb k k') eqn:Hk; [|done]. by apply String.eqb_eq in Hk.
    + by rewrite IH.
Qed.

(** A dict filled from pairs that give every key one value holds that
    value under the key. *)
Lemma dict_of_list_get {V} (l : list (string * V)) :
  (forall k b1 b2, (k, b1) ∈ l -> (k, b2) ∈ l -> b1 = b2) ->
  forall k b, (k, b) ∈ l -> dict_get (dict_of_list l) k = Some b.
Proof.
  induction l as [|[k0 b0] l IH] using rev_ind; intros Hfun k b Hin.
  - by apply elem_of_nil in Hin.
  - unfold dict_of_list. rewrite foldl_app. simpl.
    fold (dict_of_list l).
    destruct (decide (k0 = k)) as [->|Hne].
    + rewrite dict_get_set_eq. f_equal. apply (Hfun k); [|done].
      apply elem_of_app. right. by apply list_elem_of_singleton.
    + rewrite dict_get_set_other by done. apply IH.
      * intros k1 b1 b2 H1 H2. apply (Hfun k1); apply elem_of_app; by left.
      * apply elem_of_app in Hin as [Hin|Hin]; [done|].
        apply list_elem_of_singleton in Hin. congruence.
Qed.

Lemma dict_of_list_keys {V} (l : list (string * V)) :
  NoDup (map fst l) -> dict_keys (dict_of_list l) = map fst l.
Proof. intros Hnd. by rewrite dict_of_list_nodup. Qed.

(** What [_merge_obs] returns is the batch of the observations. *)
Lemma merge_obs_batched (s : space) (raw : list (option loc)) (h : heap) merged :
  merge_obs_of s raw h = Ok merged -> batched s raw h merged.
Proof.
  assert (Hplain :
    result_bind (map_result (fun o => fst (load_array o h)) raw) (fun arrs =>
    result_bind (np_stack arrs) (fun stacked => Ok (ObsArr stacked))) = Ok merged ->
    exists rows a, merged = ObsArr a /\ Forall2 (obs_row h) raw rows /\ is_stack rows a).
  { destruct (map_result _ raw) as [rows|] eqn:Hr; [|discriminate]. simpl.
    destruct (np_stack rows) as [a|] eqn:Hs; [|discriminate]. simpl.
    intros [= <-]. exists rows, a. split; [done|]. split; [|by apply np_stack_is_stack].
    apply map_result_Forall2 in Hr. eapply Forall2_impl; [exact Hr|].
    intros o row. apply load_array_row. }
  unfold merge_obs_of, batched. destruct s as [low high shape dt|n|spaces]; try exact Hplain.
  clear Hplain.
  destruct (map_result _ (dict_keys spaces)) as [items|] eqn:Hm; simpl; [|discriminate].
  intros [= <-].
  assert (Hm' : map_result
            (fun name => result_bind
               (result_bind (map_result (member_array h name) raw)
                            (fun arrs => np_stack arrs))
               (fun b => Ok (name, b))) (dict_keys spaces) = Ok items).
  { rewrite <- Hm. apply map_result_ext. intros name _.
    destruct (map_result (member_array h name) raw) as [arrs|]; simpl; [|done].
    by destruct (np_stack arrs). }
  destruct (map_result_fst
              (fun name => result_bind (map_result (member_array h name) raw)
                                       (fun arrs => np_stack arrs))
              (dict_keys spaces) items Hm') as [Hkeys Hall].
  exists (dict_of_list items). split; [done|]. split.
  - intros Hnd. rewrite dict_of_list_keys by (by rewrite Hkeys). exact Hkeys.
  - intros name Hname. rewrite <- Hkeys in Hname.
    apply list_elem_of_fmap in Hname as ([k a] & -> & Hin). simpl.
    pose proof (Hall k a Hin) as Hf.
    destruct (map_result (member_array h k) raw) as [rows|] eqn:Hr; [|discriminate].
    simpl in Hf. exists rows, a. split; [|split].
    + apply map_result_Forall2 in Hr. eapply Forall2_impl; [exact Hr|].
      intros o row. apply member_array_row.
    + apply dict_of_list_get; [|done].
      intros k1 b1 b2 H1 H2. pose proof (Hall k1 b1 H1). pose proof (Hall k1 b2 H2).
      congruence.
    + by apply np_stack_is_stack.
Qed.

Section StepWaitObs.
Context {E : Type} `{EnvE : Env E}.

(** C7.  [step_async(actions)] followed by [step_wait()] returns the
    tuple (observations, rewards, dones, infos) exactly when every
    environment could be stepped, in index order, with its own entry of
    [actions] and the observations could be merged.  Rewards, dones and
    infos then have one entry per environment, entry [i] being what
    [envs[i].step(actions[i])] returned; and the observations are the
    batch of what the environments returned: one array (per name, for a
    dict space) whose leading axis is the number of environments and
    whose rows are the environments' observation arrays, read from the
    store the steps left, in index order. *)
Theorem step_wait_steps_each_env (acts : list ndarray) (v : @Vectorize.t E) (h : heap)
    merged rews dones infos v' h' :
  ((Vectorize.step_async acts ;; Vectorize.step_wait) (v, h)
     = (Ok (merged, rews, dones, infos), (v', h')) <->
   exists outs,
     stepped 0 (Vectorize._envs v) acts h outs (Vectorize._envs v') h' /\
     v' = Vectorize.set_envs (Vectorize._envs v') (Vectorize.set_act (Some acts) v) /\
     rews = map (fun o => o.1.1.2) outs /\
     dones = map (fun o => o.1.2) outs /\
     infos = map (fun o => o.2) outs /\
     length rews = length (Vectorize._envs v) /\
     length dones = length (Vectorize._envs v) /\
     length infos = length (Vectorize._envs v) /\
     merge_obs_of (Vectorize.observation_space v) (map (fun o => o.1.1.1) outs) h'
       = Ok merged /\
     (forall i e, Vectorize._envs v !! i = Some e ->
        exists a o r d inf e' hi hi',
          acts !! i = Some a /\
          env_step a (e, hi) = (Ok (o, r, d, inf), (e', hi')) /\
          rews !! i = Some r /\ dones !! i = Some d /\ infos !! i = Some inf /\
          Vectorize._envs v' !! i = Some e')) /\
  ((Vectorize.step_async acts ;; Vectorize.step_wait) (v, h)
     = (Ok (merged, rews, dones, infos), (v', h')) ->
   exists outs,
     stepped 0 (Vectorize._envs v) acts h outs (Vectorize._envs v') h' /\
     length outs = length (Vectorize._envs v) /\
     batched (Vectorize.observation_space v) (map (fun o => o.1.1.1) outs) h' merged).
Proof.
  split; [apply step_wait_stepped|].
  intros Hrun. apply step_wait_stepped in Hrun
    as (outs & Hst & _ & _ & _ & _ & _ & _ & _ & Hm & _).
  exists outs. split; [done|].
  split; [by destruct (stepped_length _ _ _ _ _ _ _ Hst)|].
  by apply merge_obs_batched.
Qed.
End StepWaitObs.

(** * Further properties of [_SimpleEnv] *)

(** ** Adding modulo the dtype *)

Lemma cast_add_l dt u v : cast dt (cast dt u + v) = cast dt (u + v).
Proof.
  unfold cast. destruct (is_signed dt).
  - f_equal.
    replace ((u + modulus dt / 2) mod modulus dt - modulus dt / 2 + v + modulus dt / 2)
      with ((u + modulus dt / 2) mod modulus dt + v) by ring.
    rewrite Zplus_mod_idemp_l. f_equal. ring.
  - by rewrite Zplus_mod_idemp_l.
Qed.

Lemma cast_add_r dt u v : cast dt (u + cast dt v) = cast dt (u + v).
Proof. rewrite (Z.add_comm u), cast_add_l. f_equal. ring. Qed.

Lemma arr_add_all_nil shape dt x :
  conforms shape dt x -> arr_add_all [] x = x.
Proof.
  intros (_ & Hd & _ & Hr). destruct x as [s d data]. simpl in *. subst d.
  unfold arr_add_all. simpl. f_equal.
  apply list_eq. intros i. rewrite list_lookup_imap.
  destruct (data !! i) as [xi|] eqn:Hi; simpl; [|done].
  f_equal. rewrite Z.add_0_r. apply cast_id.
  eapply Forall_lookup_1; eauto.
Qed.

Lemma arr_add_all_cons shape dt a acts x :
  conforms shape dt x -> valid_action shape a ->
  arr_add_all acts (arr_add a x) = arr_add_all (a :: acts) x.
Proof.
  intros (Hs & Hd & Hl & _) [Ha Hw]. unfold arr_add_all, arr_add. simpl. f_equal.
  apply list_eq. intros i. rewrite !list_lookup_imap, lookup_zip_with.
  destruct (nd_data x !! i) as [xi|] eqn:Hi; simpl; [|done].
  assert (Hlt : (i < length (nd_data a))%nat).
  { apply lookup_lt_Some in Hi. unfold well_shaped in Hw. rewrite Ha in Hw. lia. }
  apply lookup_lt_is_Some in Hlt as [ai Hai]. rewrite Hai. simpl. f_equal.
  rewrite cast_add_l, <- Z.add_assoc, (Z.add_comm (cast _ ai)), Z.add_assoc.
  rewrite cast_add_r. f_equal. ring.
Qed.

Lemma arr_add_all_fold shape dt acts x :
  conforms shape dt x -> Forall (valid_action shape) acts ->
  foldl (fun x a => arr_add a x) x acts = arr_add_all acts x.
Proof.
  intros Hx Hacts. revert x Hx.
  induction Hacts as [|a acts Ha _ IH]; intros x Hx; simpl.
  - symmetry. by eapply arr_add_all_nil.
  - rewrite IH.
    + by eapply arr_add_all_cons.
    + destruct Ha. by apply arr_add_conforms.
Qed.

Lemma obs_add_conforms shape dt a o :
  obs_conforms shape dt o -> valid_action shape a ->
  obs_conforms shape dt (obs_add a o).
Proof.
  intros Ho [Ha Hw]. destruct o as [x|items]; simpl in *.
  - by apply arr_add_conforms.
  - apply Forall_fmap. eapply Forall_impl; [exact Ho|].
    intros kv Hkv. simpl. by apply arr_add_conforms.
Qed.

Lemma obs_add_all shape dt acts o :
  obs_conforms shape dt o -> Forall (valid_action shape) acts ->
  foldl (fun o a => obs_add a o) o acts = obs_map (arr_add_all acts) o.
Proof.
  intros Ho Hacts. revert o Ho.
  induction Hacts as [|a acts Ha _ IH]; intros o Ho; simpl.
  - destruct o as [x|items]; simpl in *.
    + f_equal. symmetry. by eapply arr_add_all_nil.
    + f_equal. symmetry. rewrite <- (map_id items) at 2.
      apply Forall_fmap_ext_1. eapply Forall_impl; [exact Ho|].
      intros [k x] Hx. simpl in *. f_equal. by eapply arr_add_all_nil.
  - rewrite IH by (by apply obs_add_conforms).
    destruct o as [x|items]; simpl in *.
    + f_equal. by eapply arr_add_all_cons.
    + f_equal. rewrite map_map.
      apply Forall_fmap_ext_1. eapply Forall_impl; [exact Ho|].
      intros [k x] Hx. simpl in *. f_equal. by eapply arr_add_all_cons.
Qed.

Lemma sum_at_perm i acts acts2 :
  acts ≡ₚ acts2 -> sum_at i acts = sum_at i acts2.
Proof.
  induction 1 as [|a l l2 _ IH|a b l|l1 l2 l3 _ IH1 _ IH2]; simpl; try lia.
Qed.

Lemma arr_add_all_perm acts acts2 x :
  acts ≡ₚ acts2 -> arr_add_all acts x = arr_add_all acts2 x.
Proof.
  intros Hp. unfold arr_add_all. f_equal. apply imap_ext.
  intros i xi _. by rewrite (sum_at_perm i acts acts2).
Qed.

Lemma obs_map_ext (f g : ndarray -> ndarray) o :
  (forall x, f x = g x) -> obs_map f o = obs_map g o.
Proof.
  intros Hfg. destruct o as [x|items]; simpl; f_equal; [done|].
  apply map_ext. intros kv. by rewrite Hfg.
Qed.

Section SimpleEnvExtra.
Context `{RG : RandomGen}.

Lemma wf_deref shape (e : SimpleEnv.t) h :
  wf_env shape e h ->
  exists o, deref (Some (SimpleEnv._start_obs e)) h = Some o /\
            obs_conforms shape (SimpleEnv._dtype e) o /\
            (if SimpleEnv._dict_obs_space e
             then exists a b, o = ObsDict [("obs_a", a); ("obs_b", b)]%string
             else exists a, o = ObsArr a).
Proof.
  intros (_ & _ & _ & Hobs). destruct (SimpleEnv._dict_obs_space e).
  - destruct Hobs as (la & lb & a & b & Hl & _ & Hla & Hlb & Hca & Hcb).
    exists (ObsDict [("obs_a", a); ("obs_b", b)]%string).
    split; [|split; [|by eauto]].
    + unfold deref. rewrite Hl. simpl. by rewrite Hla, Hlb.
    + simpl. constructor; [exact Hca|]. constructor; [exact Hcb|]. constructor.
  - destruct Hobs as (a & Hl & Hca). exists (ObsArr a).
    split; [|split; [done|by eauto]]. unfold deref. by rewrite Hl.
Qed.

Lemma wf_env_set_cur_step shape (e : SimpleEnv.t) h n :
  wf_env shape e h -> wf_env shape (SimpleEnv.set_cur_step n e) h.
Proof. intros H. exact H. Qed.

(** One step of an environment whose current observation is set: what it
    returns, and that the layout of the store is kept. *)
Lemma step_wf shape (e : SimpleEnv.t) h action :
  wf_env shape e h ->
  SimpleEnv._cur_obs e = Some (SimpleEnv._start_obs e) ->
  valid_action shape action ->
  exists h',
    SimpleEnv.step action (e, h) =
      (Ok (Some (SimpleEnv._start_obs e),
           reward_of (SimpleEnv._cur_step e + 1) (SimpleEnv._max_steps e),
           (SimpleEnv._max_steps e <=? SimpleEnv._cur_step e + 1), []),
       (SimpleEnv.set_cur_step (SimpleEnv._cur_step e + 1) e, h')) /\
    wf_env shape (SimpleEnv.set_cur_step (SimpleEnv._cur_step e + 1) e) h' /\
    length h' = length h /\
    is_Some (deref (Some (SimpleEnv._start_obs e)) h) /\
    deref (Some (SimpleEnv._start_obs e)) h'
      = option_map (obs_add action) (deref (Some (SimpleEnv._start_obs e)) h) /\
    footprint e h' = footprint e h /\
    (forall l, l ∉ footprint e h -> h' !! l = h !! l).
Proof.
  intros (Hk & Hm & Hcur & Hobs) Hc [Ha Hw].
  destruct (SimpleEnv._dict_obs_space e) eqn:Hd.
  - destruct Hobs as (la & lb & a & b & Hl & Hne & Hla & Hlb & Hca & Hcb).
    assert (Hla_d : la <> SimpleEnv._start_obs e) by (intros ->; congruence).
    assert (Hlb_d : lb <> SimpleEnv._start_obs e) by (intros ->; congruence).
    pose proof (lookup_lt_Some _ _ _ Hla) as Hlta.
    pose proof (lookup_lt_Some _ _ _ Hlb) as Hltb.
    set (h2 := <[lb := PArr (arr_add action b)]> (<[la := PArr (arr_add action a)]> h)).
    assert (H2s : h2 !! SimpleEnv._start_obs e
                  = Some (PDict [("obs_a", la); ("obs_b", lb)]%string)).
    { unfold h2. by rewrite !list_lookup_insert_ne. }
    assert (H2a : h2 !! la = Some (PArr (arr_add action a))).
    { unfold h2. rewrite list_lookup_insert_ne by done.
      by rewrite list_lookup_insert_eq. }
    assert (H2b : h2 !! lb = Some (PArr (arr_add action b))).
    { unfold h2. rewrite list_lookup_insert_eq; [done|]. by rewrite length_insert. }
    exists h2. split; [|split; [|split; [|split; [|split; [|split]]]]].
    + exact (step_spec_dict shape e h action la lb a b Hd Hk Hm Hc Hl Hne Hla Hlb
               Hca Hcb Ha Hw).
    + unfold wf_env. simpl. rewrite Hd. split; [done|]. split; [done|]. split; [done|].
      exists la, lb, (arr_add action a), (arr_add action b).
      split; [done|]. split; [done|]. split; [done|]. split; [done|].
      split; by apply arr_add_conforms.
    + unfold h2. by rewrite !length_insert.
    + unfold deref. rewrite Hl. simpl. rewrite Hla, Hlb. eauto.
    + unfold deref. rewrite H2s, Hl. simpl. by rewrite H2a, H2b, Hla, Hlb.
    + unfold footprint. by rewrite H2s, Hl.
    + intros l. unfold footprint. rewrite Hl. simpl.
      rewrite !not_elem_of_cons. intros (_ & Hna & Hnb & _).
      unfold h2. by rewrite !list_lookup_insert_ne.
  - destruct Hobs as (a & Hl & Hca).
    pose proof (lookup_lt_Some _ _ _ Hl) as Hlt.
    exists (<[SimpleEnv._start_obs e := PArr (arr_add action a)]> h).
    split; [|split; [|split; [|split; [|split; [|split]]]]].
    + exact (step_spec_array shape e h action a Hd Hm Hc Hl Hca Ha Hw).
    + unfold wf_env. simpl. rewrite Hd. split; [done|]. split; [done|]. split; [done|].
      exists (arr_add action a). rewrite list_lookup_insert_eq by done.
      split; [done|]. by apply arr_add_conforms.
    + by rewrite length_insert.
    + unfold deref. rewrite Hl. eauto.
    + unfold deref. rewrite list_lookup_insert_eq by done. by rewrite Hl.
    + unfold footprint. rewrite list_lookup_insert_eq by done. by rewrite Hl.
    + intros l. unfold footprint. rewrite Hl.
      rewrite not_elem_of_cons. intros (Hn & _).
      by rewrite list_lookup_insert_ne.
Qed.

(** A run of steps from a state whose current observation is set. *)
Lemma steps_wf shape (acts : list ndarray) (e : SimpleEnv.t) h :
  wf_env shape e h ->
  SimpleEnv._cur_obs e = Some (SimpleEnv._start_obs e) ->
  Forall (valid_action shape) acts ->
  exists outs h',
    for_each acts SimpleEnv.step (e, h) =
      (Ok outs,
       (SimpleEnv.set_cur_step (SimpleEnv._cur_step e + Z.of_nat (length acts)) e, h')) /\
    length outs = length acts /\
    (forall k o, outs !! k = Some o ->
       o = (Some (SimpleEnv._start_obs e),
            reward_of (SimpleEnv._cur_step e + Z.of_nat k + 1) (SimpleEnv._max_steps e),
            (SimpleEnv._max_steps e <=? SimpleEnv._cur_step e + Z.of_nat k + 1), [])) /\
    wf_env shape e h' /\
    deref (Some (SimpleEnv._start_obs e)) h'
      = option_map (fun o => foldl (fun o a => obs_add a o) o acts)
                   (deref (Some (SimpleEnv._start_obs e)) h) /\
    footprint e h' = footprint e h /\
    (forall l, l ∉ footprint e h -> h' !! l = h !! l).
Proof.
  intros Hwf Hc Hacts. revert e h Hwf Hc.
  induction Hacts as [|a acts Ha _ IH]; intros e h Hwf Hc.
  - exists [], h.
    split; [|split; [done|split; [done|split; [done|split; [|done]]]]].
    + simpl. unfold ret. rewrite Z.add_0_r. by destruct e.
    + cbn [foldl]. by destruct (deref (Some (SimpleEnv._start_obs e)) h).
  - destruct (step_wf shape e h a Hwf Hc Ha)
      as (h1 & Hstep & Hwf1 & _ & Hsome & Hd1 & Hfp1 & Hfr1).
    set (e1 := SimpleEnv.set_cur_step (SimpleEnv._cur_step e + 1) e) in *.
    destruct (IH e1 h1 Hwf1 Hc)
      as (outs & h' & Hrun & Hlen & Hout & Hwf' & Hd' & Hfp' & Hfr').
    exists ((Some (SimpleEnv._start_obs e),
             reward_of (SimpleEnv._cur_step e + 1) (SimpleEnv._max_steps e),
             (SimpleEnv._max_steps e <=? SimpleEnv._cur_step e + 1), []) :: outs), h'.
    split; [|split; [|split; [|split; [|split; [|split]]]]].
    + simpl. unfold bind at 1. rewrite Hstep. unfold bind at 1. rewrite Hrun.
      unfold ret. do 2 f_equal. destruct e. unfold e1, SimpleEnv.set_cur_step. simpl.
      f_equal. lia.
    + simpl. by rewrite Hlen.
    + intros k o. destruct k as [|k]; simpl.
      * intros [= <-]. do 3 f_equal; f_equal; lia.
      * intros Hk. rewrite (Hout k o Hk). unfold e1. simpl.
        do 3 f_equal; f_equal; lia.
    + exact Hwf'.
    + change (SimpleEnv._start_obs e1) with (SimpleEnv._start_obs e) in Hd'.
      rewrite Hd', Hd1. destruct Hsome as [o Ho]. by rewrite Ho.
    + change (footprint e1 h') with (footprint e h') in Hfp'.
      change (footprint e1 h1) with (footprint e h1) in Hfp'. congruence.
    + intros l Hl. rewrite Hfr'; [by apply Hfr1|].
      change (footprint e1 h1) with (footprint e h1). by rewrite Hfp1.
Qed.

(** A run of steps right after [reset]. *)
Lemma reset_steps shape (acts : list ndarray) (e : SimpleEnv.t) h :
  wf_env shape e h ->
  Forall (valid_action shape) acts ->
  exists outs h',
    (SimpleEnv.reset ;; for_each acts SimpleEnv.step) (e, h) =
      (Ok outs,
       (SimpleEnv.set_cur_step (Z.of_nat (length acts))
          (SimpleEnv.set_cur_obs (Some (SimpleEnv._start_obs e)) e), h')) /\
    length outs = length acts /\
    (forall k o, outs !! k = Some o ->
       o = (Some (SimpleEnv._start_obs e),
            reward_of (Z.of_nat k + 1) (SimpleEnv._max_steps e),
            (SimpleEnv._max_steps e <=? Z.of_nat k + 1), [])) /\
    wf_env shape e h' /\
    deref (Some (SimpleEnv._start_obs e)) h'
      = option_map (fun o => foldl (fun o a => obs_add a o) o acts)
                   (deref (Some (SimpleEnv._start_obs e)) h) /\
    footprint e h' = footprint e h /\
    (forall l, l ∉ footprint e h -> h' !! l = h !! l).
Proof.
  intros Hwf Hacts.
  set (e1 := SimpleEnv.set_cur_step 0
               (SimpleEnv.set_cur_obs (Some (SimpleEnv._start_obs e)) e)).
  assert (Hwf1 : wf_env shape e1 h).
  { destruct Hwf as (Hk & Hm & _ & Hobs). unfold wf_env. simpl.
    split; [done|]. split; [done|]. split; [by right|]. exact Hobs. }
  destruct (steps_wf shape acts e1 h Hwf1 eq_refl Hacts)
    as (outs & h' & Hrun & Hlen & Hout & Hwf' & Hd & Hfp & Hfr).
  exists outs, h'. split; [|split; [done|split; [|split; [|done]]]].
  - unfold bind at 1. rewrite reset_spec. fold e1. rewrite Hrun. reflexivity.
  - intros k o Hk. rewrite (Hout k o Hk). reflexivity.
  - destruct Hwf' as (Hk & Hm & _ & Hobs). destruct Hwf as (_ & _ & Hc & _).
    unfold wf_env. split; [done|]. split; [done|]. split; [done|]. exact Hobs.
Qed.

(** X6 (_SimpleEnv.__init__, _SimpleEnv.step): an environment fresh from
    its constructor has no current observation; [step] before the first
    [reset] raises [TypeError] (from [None[key]], or from [None += array]
    for an action with at least one element) and leaves the environment
    and the object store as they were: the step counter is not advanced. *)
Theorem step_before_reset_raises (seed : Z) (shape : list nat) (dt : dtype)
    (dict : bool) (h0 : heap) (action : ndarray) :
  0 <= seed < 2 ^ 32 ->
  (0 < length (nd_data action))%nat ->
  exists e h,
    SimpleEnv.__init__ seed shape dt dict h0 = (Ok e, h) /\
    SimpleEnv._cur_obs e = None /\
    SimpleEnv.step action (e, h) = (Raise TypeError, (e, h)).
Proof.
  intros Hseed _.
  destruct (init_spec seed shape dt dict h0 Hseed)
    as (e & new & Hinit & (Hk & _) & _ & Hd & _ & _ & Hc & _).
  exists e, (h0 ++ new). split; [done|]. split; [done|].
  unfold SimpleEnv.step. unfold bind at 1, SimpleEnv.self at 1. cbn [fst snd].
  rewrite Hd, Hc, Hk. destruct dict; [|reflexivity].
  cbn [for_each]. unfold bind, SimpleEnv.self, on_snd. cbn [fst snd].
  rewrite Hc. reflexivity.
Qed.

(** X7 (_SimpleEnv.reset, _SimpleEnv.step): after [reset], any number of
    steps with actions of the environment's shape succeeds.  The k-th
    step (from 0) returns the reference [reset] returned, the reward
    [(k+1) / max_steps] as a double, and [done] exactly when
    [k+1 >= max_steps]; the environment does not reset itself, the
    counter goes on past [max_steps]. *)
Theorem steps_after_reset_count (shape : list nat) (e : SimpleEnv.t) (h : heap)
    (acts : list ndarray) :
  wf_env shape e h ->
  Forall (valid_action shape) acts ->
  exists outs e' h',
    (SimpleEnv.reset ;; for_each acts SimpleEnv.step) (e, h) = (Ok outs, (e', h')) /\
    length outs = length acts /\
    SimpleEnv._cur_step e' = Z.of_nat (length acts) /\
    SimpleEnv._cur_obs e' = Some (SimpleEnv._start_obs e) /\
    (forall k o, outs !! k = Some o ->
       o = (Some (SimpleEnv._start_obs e),
            reward_of (Z.of_nat k + 1) (SimpleEnv._max_steps e),
            (SimpleEnv._max_steps e <=? Z.of_nat k + 1), [])) /\
    wf_env shape e' h'.
Proof.
  intros Hwf Hacts.
  destruct (reset_steps shape acts e h Hwf Hacts)
    as (outs & h' & Hrun & Hlen & Hout & Hwf' & _).
  eexists outs, _, h'. split; [exact Hrun|].
  split; [done|]. split; [done|]. split; [done|]. split; [done|].
  destruct Hwf' as (Hk & Hm & _ & Hobs).
  unfold wf_env. simpl. split; [done|]. split; [done|]. split; [by right|]. exact Hobs.
Qed.

(** X8 (_SimpleEnv.step, _SimpleEnv.reset): the observation after a run
    of steps is the start observation with, at every index, the sum of
    the actions' elements added modulo the dtype ([arr_add_all]).  A
    later [reset] does not undo this: it returns the same object, which
    still holds the accumulated values. *)
Theorem observation_accumulates_actions (shape : list nat) (e : SimpleEnv.t)
    (h : heap) (acts : list ndarray) :
  wf_env shape e h ->
  Forall (valid_action shape) acts ->
  exists o outs e' h',
    deref (Some (SimpleEnv._start_obs e)) h = Some o /\
    (SimpleEnv.reset ;; for_each acts SimpleEnv.step) (e, h) = (Ok outs, (e', h')) /\
    deref (SimpleEnv._cur_obs e') h' = Some (obs_map (arr_add_all acts) o) /\
    SimpleEnv.reset (e', h')
      = (Ok (Some (SimpleEnv._start_obs e)), (SimpleEnv.set_cur_step 0 e', h')) /\
    deref (Some (SimpleEnv._start_obs e)) h' = Some (obs_map (arr_add_all acts) o).
Proof.
  intros Hwf Hacts.
  destruct (wf_deref shape e h Hwf) as (o & Ho & Hoc & _).
  destruct (reset_steps shape acts e h Hwf Hacts)
    as (outs & h' & Hrun & _ & _ & _ & Hd & _).
  rewrite Ho in Hd. simpl in Hd.
  rewrite (obs_add_all shape (SimpleEnv._dtype e)) in Hd by done.
  eexists o, outs, _, h'. split; [done|]. split; [exact Hrun|].
  split; [exact Hd|]. split; [reflexivity|exact Hd].
Qed.

(** X9 (_SimpleEnv.reset, _SimpleEnv.step): for an environment of an
    integer dtype (the dtypes of this development, whose addition wraps
    around), and for actions of the environment's shape: two runs that
    each start with [reset] from the same state and whose actions are a
    permutation of each other both succeed and leave the same
    observation. *)
Theorem observation_order_irrelevant (shape : list nat) (e : SimpleEnv.t)
    (h : heap) (acts acts2 : list ndarray) :
  wf_env shape e h ->
  Forall (valid_action shape) acts ->
  acts ≡ₚ acts2 ->
  exists outs outs2 e' h' h2,
    (SimpleEnv.reset ;; for_each acts SimpleEnv.step) (e, h) = (Ok outs, (e', h')) /\
    (SimpleEnv.reset ;; for_each acts2 SimpleEnv.step) (e, h) = (Ok outs2, (e', h2)) /\
    deref (SimpleEnv._cur_obs e') h' = deref (SimpleEnv._cur_obs e') h2.
Proof.
  intros Hwf Hacts Hp.
  assert (Hacts2 : Forall (valid_action shape) acts2) by (by rewrite <- Hp).
  destruct (wf_deref shape e h Hwf) as (o & Ho & Hoc & _).
  destruct (reset_steps shape acts e h Hwf Hacts)
    as (outs & h' & Hrun & _ & _ & _ & Hd & _).
  destruct (reset_steps shape acts2 e h Hwf Hacts2)
    as (outs2 & h2 & Hrun2 & _ & _ & _ & Hd2 & _).
  rewrite Ho in Hd, Hd2. simpl in Hd, Hd2.
  rewrite (obs_add_all shape (SimpleEnv._dtype e)) in Hd, Hd2 by done.
  eexists outs, outs2, _, h', h2. split; [exact Hrun|]. split.
  - rewrite Hrun2. by rewrite (Permutation_length Hp).
  - simpl. rewrite Hd, Hd2. f_equal. apply obs_map_ext. intros x.
    by apply arr_add_all_perm.
Qed.

(** X10 (_SimpleEnv.render): a mode given as a string other than
    "rgb_array" raises [AssertionError] without drawing from the
    generator (the call without a mode is not covered); with
    "rgb_array" the frame is a 16 x 8 x 4 array of the environment's
    dtype made of the next 512 draws, and only the generator of the
    environment advances: steps, observation and object store are
    untouched. *)
Theorem simple_render_frame (mode : string) (e : SimpleEnv.t) (h : heap) :
  (mode <> "rgb_array"%string ->
   SimpleEnv.render mode (e, h) = (Raise AssertionError, (e, h))) /\
  exists frame,
    SimpleEnv.render "rgb_array" (e, h)
      = (Ok frame,
         (SimpleEnv.set_rand (snd (randint (SimpleEnv._rand e) 0 256 512)) e, h)) /\
    conforms [16; 8; 4]%nat (SimpleEnv._dtype e) frame /\
    nd_data frame
      = map (cast (SimpleEnv._dtype e)) (fst (randint (SimpleEnv._rand e) 0 256 512)).
Proof.
  split.
  - intros Hm. unfold SimpleEnv.render, bind, assert.
    apply String.eqb_neq in Hm. by rewrite Hm.
  - unfold SimpleEnv.render, bind, assert. simpl.
    pose proof (randint_length (SimpleEnv._rand e) 0 256 512) as Hl.
    change (16 * 8 * 4)%nat with 512%nat.
    destruct (randint (SimpleEnv._rand e) 0 256 512) as [values g']. simpl in *.
    eexists. split; [reflexivity|]. split; [|reflexivity].
    by apply np_array_of_conforms.
Qed.

(** Where the constructor puts the observation: in objects that are new
    in the store. *)
Lemma init_footprint seed shape dt dict h0 e h :
  SimpleEnv.__init__ seed shape dt dict h0 = (Ok e, h) ->
  footprint e h =
    (if dict then [length h0; length h0 + 1; length h0 + 2] else [length h0])%nat.
Proof.
  unfold SimpleEnv.__init__.
  destruct (negb ((0 <=? seed) && (seed <? 2 ^ 32))); [discriminate|].
  destruct dict.
  - unfold bind at 1, alloc at 1. cbn [SimpleEnv.init_start_obs].
    destruct (randint (RandomState seed) 0 256 (numel shape)) as [v1 g1].
    destruct (randint g1 0 256 (numel shape)) as [v2 g2].
    unfold bind, alloc, setitem, bind, load, store, ret. simpl.
    rewrite <- !app_assoc. simpl.
    rewrite (list_lookup_middle h0 _ _ (length h0)) by done. simpl.
    rewrite insert_app_length. rewrite <- !app_assoc. simpl.
    rewrite (list_lookup_middle h0 _ _ (length h0)) by done. simpl.
    rewrite insert_app_length. rewrite !length_app. simpl.
    intros [= <- <-]. unfold footprint. simpl.
    rewrite (list_lookup_middle h0 _ _ (length h0)) by done. simpl.
    repeat f_equal; lia.
  - destruct (randint (RandomState seed) 0 256 (numel shape)) as [v1 g1].
    unfold bind, alloc, ret. simpl. intros [= <- <-]. unfold footprint. simpl.
    rewrite lookup_app_r by lia. by rewrite Nat.sub_diag.
Qed.

(** X11 (_SimpleEnv.__init__): for a seed numpy accepts, the constructor
    succeeds and only adds objects to the store.  The episode length is
    [seed + 1]; the start observation is one array, or a dict with the
    keys "obs_a" and "obs_b" holding two different array objects, each
    of the requested shape and dtype; the declared observation space
    has the same structure, and the action space is the box of that
    shape and dtype. *)
Theorem init_layout (seed : Z) (shape : list nat) (dt : dtype) (dict : bool)
    (h0 : heap) :
  0 <= seed < 2 ^ 32 ->
  exists e new o,
    SimpleEnv.__init__ seed shape dt dict h0 = (Ok e, h0 ++ new) /\
    SimpleEnv._max_steps e = seed + 1 /\
    SimpleEnv._cur_step e = 0 /\
    SimpleEnv._cur_obs e = None /\
    SimpleEnv.action_space e = Box 0 100 shape dt /\
    SimpleEnv.observation_space e =
      (if dict
       then Dict [("obs_a", Box 0 100 shape dt); ("obs_b", Box 0 100 shape dt)]%string
       else Box 0 100 shape dt) /\
    deref (Some (SimpleEnv._start_obs e)) (h0 ++ new) = Some o /\
    obs_conforms shape dt o /\
    (if dict
     then exists a b, o = ObsDict [("obs_a", a); ("obs_b", b)]%string
     else exists a, o = ObsArr a) /\
    NoDup (footprint e (h0 ++ new)) /\
    Forall (fun l => (length h0 <= l)%nat) (footprint e (h0 ++ new)).
Proof.
  intros Hseed.
  destruct (init_spec seed shape dt dict h0 Hseed)
    as (e & new & Hinit & Hwf & Hdt & Hd & Hmax & Hstep & Hc & Has & Hos).
  destruct (wf_deref shape e (h0 ++ new) Hwf) as (o & Ho & Hoc & Hshape).
  rewrite Hdt in Hoc. rewrite Hd in Hshape.
  exists e, new, o. repeat (split; [done|]).
  rewrite (init_footprint seed shape dt dict h0 e (h0 ++ new) Hinit).
  destruct dict; split.
  - repeat (apply NoDup_cons; split; [rewrite ?elem_of_cons, elem_of_nil; lia|]).
    apply NoDup_nil_2.
  - repeat (apply Forall_cons; split; [lia|]). apply Forall_nil_2.
  - apply NoDup_singleton.
  - by apply Forall_singleton.
Qed.
End SimpleEnvExtra.

(** * [Vectorize] over a batch of [_SimpleEnv] *)

Lemma np_stack_conforms shape dt rows :
  rows <> [] -> Forall (conforms shape dt) rows ->
  np_stack rows = Ok (stack_arrays shape dt rows).
Proof.
  intros Hne Hall. destruct rows as [|a rows]; [done|].
  unfold np_stack.
  assert (Ha : nd_shape a = shape /\ nd_dtype a = dt).
  { apply Forall_cons in Hall as [(Hs & Hd & _) _]. done. }
  destruct Ha as [Hs Hd].
  assert (Hf : forallb (fun b => bool_decide (nd_shape b = nd_shape a)
                                 && bool_decide (nd_dtype b = nd_dtype a)) (a :: rows)
               = true).
  { apply forallb_forall. intros b Hb. apply list_elem_of_In in Hb.
    rewrite Forall_forall in Hall. destruct (Hall b Hb) as (Hbs & Hbd & _).
    apply andb_true_iff. split; apply bool_decide_eq_true; congruence. }
  rewrite Hf. unfold stack_arrays. by rewrite Hs, Hd.
Qed.

Lemma sequence_opt_cons {A} (x : A) (l : list (option A)) xs :
  sequence_opt l = Some xs -> sequence_opt (Some x :: l) = Some (x :: xs).
Proof. intros H. unfold sequence_opt in *. simpl. by rewrite H. Qed.

Lemma sequence_opt_length {A} (l : list (option A)) xs :
  sequence_opt l = Some xs -> length xs = length l.
Proof.
  revert xs. induction l as [|o l IH]; intros xs; unfold sequence_opt in *; simpl.
  - by intros [= <-].
  - destruct o as [x|]; [|done].
    destruct (foldr _ _ l) as [ys|]; [|done].
    intros [= <-]. simpl. f_equal. by apply IH.
Qed.

(** What is outside an environment's objects does not matter to it. *)
Lemma footprint_frame (e : SimpleEnv.t) h h' :
  (forall l, l ∈ footprint e h -> h' !! l = h !! l) ->
  footprint e h' = footprint e h.
Proof.
  intros Hfr. unfold footprint. rewrite Hfr; [done|].
  unfold footprint. apply elem_of_cons. by left.
Qed.

Lemma deref_frame (e : SimpleEnv.t) h h' :
  (forall l, l ∈ footprint e h -> h' !! l = h !! l) ->
  deref (Some (SimpleEnv._start_obs e)) h' = deref (Some (SimpleEnv._start_obs e)) h.
Proof.
  intros Hfr. unfold deref.
  assert (Hs : h' !! SimpleEnv._start_obs e = h !! SimpleEnv._start_obs e).
  { apply Hfr. unfold footprint. apply elem_of_cons. by left. }
  rewrite Hs. destruct (h !! SimpleEnv._start_obs e) as [[a|items]|] eqn:Hl; try done.
  do 2 f_equal. apply Forall_fmap_ext_1, Forall_forall. intros kv Hkv.
  rewrite Hfr; [done|]. unfold footprint. rewrite Hl. apply elem_of_cons. right.
  apply list_elem_of_fmap. by exists kv.
Qed.

Lemma wf_env_frame shape (e : SimpleEnv.t) h h' :
  (forall l, l ∈ footprint e h -> h' !! l = h !! l) ->
  wf_env shape e h -> wf_env shape e h'.
Proof.
  intros Hfr (Hk & Hm & Hc & Hobs). unfold wf_env.
  split; [done|]. split; [done|]. split; [done|].
  destruct (SimpleEnv._dict_obs_space e).
  - destruct Hobs as (la & lb & a & b & Hl & Hne & Hla & Hlb & Hca & Hcb).
    exists la, lb, a, b.
    assert (Hfp : footprint e h = [SimpleEnv._start_obs e; la; lb]).
    { unfold footprint. by rewrite Hl. }
    rewrite Hfp in Hfr.
    rewrite !Hfr by (rewrite !elem_of_cons; auto). done.
  - destruct Hobs as (a & Hl & Hca). exists a.
    rewrite Hfr; [done|]. unfold footprint. apply elem_of_cons. by left.
Qed.

Lemma wf_footprint_lt shape (e : SimpleEnv.t) h l :
  wf_env shape e h -> l ∈ footprint e h -> (l < length h)%nat.
Proof.
  intros (_ & _ & _ & Hobs) Hl. unfold footprint in Hl.
  destruct (SimpleEnv._dict_obs_space e).
  - destruct Hobs as (la & lb & a & b & Hs & _ & Hla & Hlb & _).
    rewrite Hs in Hl. simpl in Hl. rewrite !elem_of_cons, elem_of_nil in Hl.
    destruct Hl as [->|[->|[->|[]]]]; by eapply lookup_lt_Some.
  - destruct Hobs as (a & Hs & _). rewrite Hs in Hl.
    apply list_elem_of_singleton in Hl as ->. by eapply lookup_lt_Some.
Qed.

Section BatchFacts.
Context `{RG : RandomGen}.

Lemma run_envs_reset i (envs : list SimpleEnv.t) h :
  run_envs (fun _ => env_reset) i envs h
    = (Ok (map (fun e => Some (SimpleEnv._start_obs e)) envs), (map reset_env envs, h)).
Proof.
  revert i. induction envs as [|e es IH]; intros i; [done|].
  cbn [run_envs]. change (env_reset (e, h)) with (SimpleEnv.reset (e, h)).
  rewrite reset_spec, IH. reflexivity.
Qed.

Lemma render_spec (e : SimpleEnv.t) h :
  SimpleEnv.render "rgb_array" (e, h) = (Ok (render_frame e), (render_env e, h)).
Proof.
  unfold SimpleEnv.render, render_frame, render_env, bind, assert. simpl.
  change (16 * 8 * 4)%nat with 512%nat.
  by destruct (randint (SimpleEnv._rand e) 0 256 512).
Qed.

Lemma run_envs_render i (envs : list SimpleEnv.t) h :
  run_envs (fun _ => env_render "rgb_array") i envs h
    = (Ok (map render_frame envs), (map render_env envs, h)).
Proof.
  revert i. induction envs as [|e es IH]; intros i; [done|].
  cbn [run_envs].
  change (env_render "rgb_array" (e, h)) with (SimpleEnv.render "rgb_array" (e, h)).
  rewrite render_spec, IH. reflexivity.
Qed.

Lemma render_frame_conforms (e : SimpleEnv.t) :
  conforms [16; 8; 4]%nat (SimpleEnv._dtype e) (render_frame e).
Proof.
  apply np_array_of_conforms.
  exact (randint_length (SimpleEnv._rand e) 0 256 512).
Qed.

(** The rows [_merge_obs] reads from one environment. *)
Lemma member_rows shape dt h (e : SimpleEnv.t) :
  wf_member shape dt true h e ->
  exists a b,
    deref (Some (SimpleEnv._start_obs e)) h
      = Some (ObsDict [("obs_a", a); ("obs_b", b)]%string) /\
    member_array h "obs_a" (Some (SimpleEnv._start_obs e)) = Ok a /\
    member_array h "obs_b" (Some (SimpleEnv._start_obs e)) = Ok b /\
    conforms shape dt a /\ conforms shape dt b.
Proof.
  intros ((_ & _ & _ & Hobs) & Hdt & Hd). rewrite Hd in Hobs.
  destruct Hobs as (la & lb & a & b & Hl & _ & Hla & Hlb & Hca & Hcb).
  rewrite Hdt in Hca, Hcb. exists a, b.
  split; [|split; [|split; [|done]]].
  - unfold deref. rewrite Hl. simpl. by rewrite Hla, Hlb.
  - unfold member_array, bind, getitem, bind, load. rewrite Hl. simpl.
    unfold load_array, bind, load. by rewrite Hla.
  - unfold member_array, bind, getitem, bind, load. rewrite Hl. simpl.
    unfold load_array, bind, load. by rewrite Hlb.
Qed.

Lemma array_row shape dt h (e : SimpleEnv.t) :
  wf_member shape dt false h e ->
  exists a,
    deref (Some (SimpleEnv._start_obs e)) h = Some (ObsArr a) /\
    fst (load_array (Some (SimpleEnv._start_obs e)) h) = Ok a /\
    conforms shape dt a.
Proof.
  intros ((_ & _ & _ & Hobs) & Hdt & Hd). rewrite Hd in Hobs.
  destruct Hobs as (a & Hl & Hca). rewrite Hdt in Hca. exists a.
  split; [|split; [|done]].
  - unfold deref. by rewrite Hl.
  - unfold load_array, bind, load. by rewrite Hl.
Qed.

Lemma batch_rows_dict shape dt h (envs : list SimpleEnv.t) :
  Forall (wf_member shape dt true h) envs ->
  exists os ra rb,
    sequence_opt (map (fun e => deref (Some (SimpleEnv._start_obs e)) h) envs) = Some os /\
    Forall (obs_conforms shape dt) os /\
    map_result (member_array h "obs_a")
      (map (fun e => Some (SimpleEnv._start_obs e)) envs) = Ok ra /\
    map_result (member_array h "obs_b")
      (map (fun e => Some (SimpleEnv._start_obs e)) envs) = Ok rb /\
    sequence_opt (map (obs_member "obs_a") os) = Some ra /\
    sequence_opt (map (obs_member "obs_b") os) = Some rb /\
    Forall (conforms shape dt) ra /\ Forall (conforms shape dt) rb /\
    length ra = length envs /\ length rb = length envs.
Proof.
  induction 1 as [|e es He _ IH].
  - by exists [], [], [].
  - destruct IH as (os & ra & rb & Hos & Hoc & Hra & Hrb & Hsa & Hsb & Hca & Hcb & Hla & Hlb).
    destruct (member_rows shape dt h e He) as (a & b & Hd & Hma & Hmb & Ha & Hb).
    exists (ObsDict [("obs_a", a); ("obs_b", b)]%string :: os), (a :: ra), (b :: rb).
    cbn [map map_result]. rewrite Hd, Hma, Hmb, Hra, Hrb.
    split; [by apply sequence_opt_cons|].
    split; [constructor; [simpl; constructor; [done|constructor; [done|constructor]]|done]|].
    split; [done|]. split; [done|].
    split; [by apply (sequence_opt_cons a)|].
    split; [by apply (sequence_opt_cons b)|].
    split; [by constructor|]. split; [by constructor|].
    simpl. by rewrite Hla, Hlb.
Qed.

Lemma batch_rows_array shape dt h (envs : list SimpleEnv.t) :
  Forall (wf_member shape dt false h) envs ->
  exists os rows,
    sequence_opt (map (fun e => deref (Some (SimpleEnv._start_obs e)) h) envs) = Some os /\
    Forall (obs_conforms shape dt) os /\
    map_result (fun o => fst (load_array o h))
      (map (fun e => Some (SimpleEnv._start_obs e)) envs) = Ok rows /\
    sequence_opt (map obs_array os) = Some rows /\
    Forall (conforms shape dt) rows /\
    length rows = length envs.
Proof.
  induction 1 as [|e es He _ IH].
  - by exists [], [].
  - destruct IH as (os & rows & Hos & Hoc & Hr & Hs & Hc & Hl).
    destruct (array_row shape dt h e He) as (a & Hd & Hla & Ha).
    exists (ObsArr a :: os), (a :: rows).
    cbn [map map_result]. rewrite Hd, Hla, Hr.
    split; [by apply sequence_opt_cons|].
    split; [by constructor|]. split; [done|].
    split; [by apply (sequence_opt_cons a)|].
    split; [by constructor|]. simpl. by rewrite Hl.
Qed.

(** [_merge_obs] on a batch: the stack of the environments' observations. *)
Lemma merge_batch shape dt dict h (envs : list SimpleEnv.t) :
  envs <> [] ->
  Forall (wf_member shape dt dict h) envs ->
  exists os o,
    sequence_opt (map (fun e => deref (Some (SimpleEnv._start_obs e)) h) envs) = Some os /\
    Forall (obs_conforms shape dt) os /\
    length os = length envs /\
    stack_obs shape dt dict os = Some o /\
    merge_obs_of (simple_space shape dt dict)
      (map (fun e => Some (SimpleEnv._start_obs e)) envs) h = Ok o.
Proof.
  intros Hne Hall. destruct dict.
  - destruct (batch_rows_dict shape dt h envs Hall)
      as (os & ra & rb & Hos & Hoc & Hra & Hrb & Hsa & Hsb & Hca & Hcb & Hla & Hlb).
    exists os. eexists. split; [done|]. split; [done|].
    assert (Hna : ra <> []) by (intros ->; by destruct envs).
    assert (Hnb : rb <> []) by (intros ->; by destruct envs).
    split.
    { apply sequence_opt_length in Hos. by rewrite length_map in Hos. }
    unfold stack_obs, simple_space, merge_obs_of. rewrite Hsa, Hsb.
    split; [reflexivity|]. cbn [dict_keys map map_result fst].
    rewrite Hra, Hrb. cbn [result_bind].
    rewrite (np_stack_conforms shape dt ra), (np_stack_conforms shape dt rb) by done.
    reflexivity.
  - destruct (batch_rows_array shape dt h envs Hall)
      as (os & rows & Hos & Hoc & Hr & Hs & Hc & Hl).
    exists os. eexists. split; [done|]. split; [done|].
    assert (Hn : rows <> []) by (intros ->; by destruct envs).
    split.
    { apply sequence_opt_length in Hos. by rewrite length_map in Hos. }
    unfold stack_obs, simple_space, merge_obs_of. rewrite Hs.
    split; [reflexivity|]. rewrite Hr. cbn [result_bind].
    rewrite (np_stack_conforms shape dt rows) by done. reflexivity.
Qed.

Lemma step_body_lookup (acts : list ndarray) i a (e : SimpleEnv.t) h :
  acts !! i = Some a ->
  step_body (Some acts) i (e, h) = SimpleEnv.step a (e, h).
Proof. intros Ha. unfold step_body, bind, act_lookup. by rewrite Ha. Qed.

(** The loop of [step_wait] over environments that do not share
    observation objects: each one is stepped as if it were alone. *)
Lemma run_envs_steps shape (es : list SimpleEnv.t) : forall i h (acts : list ndarray),
  (forall k e, es !! k = Some e ->
     wf_env shape e h /\ SimpleEnv._cur_obs e = Some (SimpleEnv._start_obs e)) ->
  separate es h ->
  (forall k e, es !! k = Some e ->
     exists a, acts !! (i + k)%nat = Some a /\ valid_action shape a) ->
  exists h',
    run_envs (step_body (Some acts)) i es h
      = (Ok (map step_out es), (map step_env es, h')) /\
    length h' = length h /\
    (forall k e, es !! k = Some e ->
       wf_env shape e h' /\ footprint e h' = footprint e h) /\
    (forall l, (forall k e, es !! k = Some e -> l ∉ footprint e h) ->
       h' !! l = h !! l) /\
    (forall k e a, es !! k = Some e -> acts !! (i + k)%nat = Some a ->
       deref (Some (SimpleEnv._start_obs e)) h'
         = option_map (obs_add a) (deref (Some (SimpleEnv._start_obs e)) h)).
Proof.
  induction es as [|e es IH]; intros i h acts Hall Hsep Hacts.
  - exists h. split; [done|]. split; [done|]. split; [done|]. split; [done|]. done.
  - destruct (Hall 0%nat e eq_refl) as [Hwf Hc].
    destruct (Hacts 0%nat e eq_refl) as (a & Ha & Hva).
    rewrite Nat.add_0_r in Ha.
    destruct (step_wf shape e h a Hwf Hc Hva)
      as (h1 & Hstep & Hwf1 & Hlen1 & _ & Hd1 & Hfp1 & Hfr1).
    assert (Hdis : forall k e', es !! k = Some e' ->
              forall l, l ∈ footprint e' h -> l ∉ footprint e h).
    { intros k e' Hk l Hl Hl'.
      exact (Hsep 0%nat (S k) e e' ltac:(lia) eq_refl Hk l Hl' Hl). }
    assert (Hfr_es : forall k e', es !! k = Some e' ->
              forall l, l ∈ footprint e' h -> h1 !! l = h !! l).
    { intros k e' Hk l Hl. apply Hfr1. by eapply Hdis. }
    assert (Hfp_es : forall k e', es !! k = Some e' -> footprint e' h1 = footprint e' h).
    { intros k e' Hk. apply footprint_frame. by eapply Hfr_es. }
    assert (Hall1 : forall k e', es !! k = Some e' ->
              wf_env shape e' h1 /\
              SimpleEnv._cur_obs e' = Some (SimpleEnv._start_obs e')).
    { intros k e' Hk. destruct (Hall (S k) e' Hk) as [Hwf' Hc'].
      split; [|done]. eapply wf_env_frame; [|exact Hwf']. by eapply Hfr_es. }
    assert (Hsep1 : separate es h1).
    { intros j1 j2 e1 e2 Hne H1 H2 l Hl1 Hl2.
      rewrite (Hfp_es j1 e1 H1) in Hl1. rewrite (Hfp_es j2 e2 H2) in Hl2.
      exact (Hsep (S j1) (S j2) e1 e2 ltac:(lia) H1 H2 l Hl1 Hl2). }
    assert (Hacts1 : forall k e', es !! k = Some e' ->
              exists a', acts !! (S i + k)%nat = Some a' /\ valid_action shape a').
    { intros k e' Hk. destruct (Hacts (S k) e' Hk) as (a' & Ha' & Hv').
      exists a'. split; [|done]. by replace (S i + k)%nat with (i + S k)%nat by lia. }
    destruct (IH (S i) h1 acts Hall1 Hsep1 Hacts1)
      as (h' & Hrun & Hlen & Hall' & Hfr' & Hd').
    assert (Hfr_e : forall l, l ∈ footprint e h1 -> h' !! l = h1 !! l).
    { intros l Hl. apply Hfr'. intros k e' Hk Hl'.
      rewrite (Hfp_es k e' Hk) in Hl'. rewrite Hfp1 in Hl.
      by eapply Hdis. }
    exists h'. split; [|split; [|split; [|split]]].
    + cbn [run_envs]. rewrite (step_body_lookup acts i a e h Ha), Hstep, Hrun.
      reflexivity.
    + congruence.
    + intros [|k] e' Hk; simpl in Hk.
      * injection Hk as <-. split.
        -- eapply wf_env_frame; [exact Hfr_e|exact Hwf1].
        -- rewrite (footprint_frame e h1 h' Hfr_e). exact Hfp1.
      * destruct (Hall' k e' Hk) as [Hwf' Hfp']. split; [done|].
        rewrite Hfp'. by eapply Hfp_es.
    + intros l Hl. rewrite Hfr'.
      * apply Hfr1. exact (Hl 0%nat e eq_refl).
      * intros k e' Hk. rewrite (Hfp_es k e' Hk). exact (Hl (S k) e' Hk).
    + intros [|k] e' a' Hk Ha'; simpl in Hk.
      * injection Hk as <-. rewrite Nat.add_0_r in Ha'.
        assert (a' = a) as -> by congruence.
        rewrite (deref_frame e h1 h' Hfr_e). exact Hd1.
      * replace (i + S k)%nat with (S i + k)%nat in Ha' by lia.
        rewrite (Hd' k e' a' Hk Ha'). f_equal.
        apply deref_frame. by eapply Hfr_es.
Qed.

Lemma wf_batch_map shape dt dict (f : SimpleEnv.t -> SimpleEnv.t)
    (envs : list SimpleEnv.t) h :
  (forall e, SimpleEnv._start_obs (f e) = SimpleEnv._start_obs e) ->
  (forall e, wf_member shape dt dict h e -> wf_member shape dt dict h (f e)) ->
  wf_batch shape dt dict envs h -> wf_batch shape dt dict (map f envs) h.
Proof.
  intros Hstart Hf [Hall Hsep]. split.
  - apply Forall_fmap. eapply Forall_impl; [exact Hall|]. exact Hf.
  - intros i j ei ej Hne Hi Hj l Hli Hlj.
    apply list_lookup_fmap_Some in Hi as (ei' & -> & Hi).
    apply list_lookup_fmap_Some in Hj as (ej' & -> & Hj).
    unfold footprint in Hli, Hlj. rewrite Hstart in Hli, Hlj.
    exact (Hsep i j ei' ej' Hne Hi Hj l Hli Hlj).
Qed.

Lemma wf_member_reset shape dt dict h (e : SimpleEnv.t) :
  wf_member shape dt dict h e -> wf_member shape dt dict h (reset_env e).
Proof.
  intros ((Hk & Hm & _ & Hobs) & Hdt & Hd). split; [|done].
  unfold wf_env. simpl. split; [done|]. split; [done|]. split; [by right|]. exact Hobs.
Qed.

Lemma wf_member_render shape dt dict h (e : SimpleEnv.t) :
  wf_member shape dt dict h e -> wf_member shape dt dict h (render_env e).
Proof. intros H. exact H. Qed.

(** The constructors of a batch, run one after the other. *)
Lemma make_envs_spec shape dt dict (seeds : list Z) : forall h0,
  Forall (fun seed => 0 <= seed < 2 ^ 32) seeds ->
  exists envs new,
    for_each (make_envs seeds shape dt dict) (fun fn => fn) h0 = (Ok envs, h0 ++ new) /\
    wf_batch shape dt dict envs (h0 ++ new) /\
    (forall k e l, envs !! k = Some e -> l ∈ footprint e (h0 ++ new) ->
       (length h0 <= l)%nat) /\
    Forall2 (fun seed e =>
               SimpleEnv._max_steps e = seed + 1 /\ SimpleEnv._cur_step e = 0 /\
               SimpleEnv._cur_obs e = None /\
               SimpleEnv.action_space e = Box 0 100 shape dt /\
               SimpleEnv.observation_space e = simple_space shape dt dict)
            seeds envs.
Proof.
  induction seeds as [|seed seeds IH]; intros h0 Hseeds.
  - exists [], []. rewrite app_nil_r. split; [done|]. split; [|split; [done|constructor]].
    split; [constructor|]. intros i j ei ej _ Hi. done.
  - apply Forall_cons in Hseeds as [Hseed Hseeds].
    destruct (init_spec seed shape dt dict h0 Hseed)
      as (e & new1 & Hinit & Hwf & Hdt & Hd & Hmax & Hstep & Hc & Has & Hos).
    pose proof (init_footprint seed shape dt dict h0 e (h0 ++ new1) Hinit) as Hfp.
    destruct (IH (h0 ++ new1) Hseeds) as (envs & new2 & Hrun & [Hall Hsep] & Hfresh & Hfacts).
    assert (Hfr : forall l, l ∈ footprint e (h0 ++ new1) ->
              ((h0 ++ new1) ++ new2) !! l = (h0 ++ new1) !! l).
    { intros l Hl. apply lookup_app_l. by eapply wf_footprint_lt. }
    assert (Hfp2 : footprint e ((h0 ++ new1) ++ new2) = footprint e (h0 ++ new1))
      by (by apply footprint_frame).
    assert (Hge : forall l, l ∈ footprint e (h0 ++ new1) -> (length h0 <= l)%nat).
    { intros l. rewrite Hfp. destruct dict; rewrite !elem_of_cons, elem_of_nil; lia. }
    exists (e :: envs), (new1 ++ new2). rewrite app_assoc.
    split; [|split; [split|split]].
    + cbn [make_envs map for_each]. unfold bind at 1. rewrite Hinit.
      unfold bind at 1. unfold make_envs in Hrun. rewrite Hrun. reflexivity.
    + constructor; [|done]. split; [|done]. by eapply wf_env_frame.
    + intros i j ei ej Hne Hi Hj l Hli Hlj.
      destruct i as [|i], j as [|j]; simpl in Hi, Hj; [done| | |].
      * injection Hi as <-. rewrite Hfp2 in Hli.
        pose proof (wf_footprint_lt _ _ _ _ Hwf Hli).
        pose proof (Hfresh j ej l Hj Hlj). lia.
      * injection Hj as <-. rewrite Hfp2 in Hlj.
        pose proof (wf_footprint_lt _ _ _ _ Hwf Hlj).
        pose proof (Hfresh i ei l Hi Hli). lia.
      * exact (Hsep i j ei ej ltac:(lia) Hi Hj l Hli Hlj).
    + intros [|k] e' l Hk Hl; simpl in Hk.
      * injection Hk as <-. rewrite Hfp2 in Hl. by apply Hge.
      * pose proof (Hfresh k e' l Hk Hl) as Hle. rewrite length_app in Hle. lia.
    + constructor; [|done]. unfold simple_space. by destruct dict.
Qed.

Lemma close_simple_batch (v : @Vectorize.t SimpleEnv.t) h :
  Vectorize.close (v, h) = (Ok tt, (v, h)).
Proof.
  assert (Hrun : forall i (l : list SimpleEnv.t),
             run_envs (fun _ => env_close) i l h = (Ok (map (fun _ => tt) l), (l, h))).
  { intros i l. revert i. induction l as [|e l IH]; intros i; [done|].
    cbn [run_envs]. change (env_close (e, h)) with (@ret (SimpleEnv.t * heap) _ tt (e, h)).
    unfold ret. by rewrite IH. }
  unfold Vectorize.close. unfold bind at 1. rewrite for_envs_run, Hrun. simpl.
  by rewrite set_envs_id.
Qed.

Lemma wf_batch_lookup shape dt dict (envs : list SimpleEnv.t) h k e :
  wf_batch shape dt dict envs h -> envs !! k = Some e -> wf_member shape dt dict h e.
Proof. intros [Hall _] Hk. by eapply Forall_lookup_1. Qed.

(** [Vectorize.reset] on a batch. *)
Lemma reset_batch shape dt dict (v : @Vectorize.t SimpleEnv.t) h :
  Vectorize._envs v <> [] ->
  wf_batch shape dt dict (Vectorize._envs v) h ->
  Vectorize.observation_space v = simple_space shape dt dict ->
  exists os o,
    sequence_opt (map (fun e => deref (Some (SimpleEnv._start_obs e)) h)
                      (Vectorize._envs v)) = Some os /\
    stack_obs shape dt dict os = Some o /\
    Vectorize.reset (v, h)
      = (Ok o, (Vectorize.set_envs (map reset_env (Vectorize._envs v)) v, h)) /\
    batch_ready shape dt dict
      (Vectorize.set_envs (map reset_env (Vectorize._envs v)) v) h.
Proof.
  intros Hne Hwf Hos.
  destruct (merge_batch shape dt dict h (Vectorize._envs v) Hne (proj1 Hwf))
    as (os & o & Hseq & _ & _ & Hst & Hm).
  exists os, o. split; [done|]. split; [done|]. split.
  - unfold Vectorize.reset. unfold bind at 1.
    rewrite for_envs_run, run_envs_reset. cbn [fst snd].
    rewrite merge_obs_spec. cbn [Vectorize.observation_space Vectorize.set_envs].
    by rewrite Hos, Hm.
  - unfold batch_ready. cbn [Vectorize._envs Vectorize.set_envs
                             Vectorize.observation_space].
    split; [by destruct (Vectorize._envs v)|].
    split; [|split; [done|]].
    + apply wf_batch_map; [done| |done]. intros e. apply wf_member_reset.
    + apply Forall_fmap. by apply Forall_true.
Qed.

(** [Vectorize.render] on a batch. *)
Lemma render_batch shape dt dict (v : @Vectorize.t SimpleEnv.t) h :
  Vectorize._envs v <> [] ->
  wf_batch shape dt dict (Vectorize._envs v) h ->
  Vectorize.render "rgb_array" (v, h)
    = (Ok (stack_arrays [16; 8; 4]%nat dt (map render_frame (Vectorize._envs v))),
       (Vectorize.set_envs (map render_env (Vectorize._envs v)) v, h)).
Proof.
  intros Hne [Hall _]. unfold Vectorize.render, bind, assert. simpl.
  rewrite for_envs_run, run_envs_render. cbn [fst snd].
  rewrite (np_stack_conforms [16; 8; 4]%nat dt).
  - reflexivity.
  - by destruct (Vectorize._envs v).
  - apply Forall_fmap. eapply Forall_impl; [exact Hall|].
    intros e (_ & Hdt & _). simpl. rewrite <- Hdt. apply render_frame_conforms.
Qed.

(** [step_wait] on a batch that is ready, with one action of the right
    shape per environment. *)
Lemma step_wait_batch shape dt dict (v : @Vectorize.t SimpleEnv.t) h
    (acts : list ndarray) :
  batch_ready shape dt dict v h ->
  length acts = length (Vectorize._envs v) ->
  Forall (valid_action shape) acts ->
  exists os o h',
    sequence_opt (map (fun e => deref (Some (SimpleEnv._start_obs e)) h')
                      (Vectorize._envs v)) = Some os /\
    stack_obs shape dt dict os = Some o /\
    Vectorize.step_wait (Vectorize.set_act (Some acts) v, h)
      = (Ok (o,
             map (fun e => reward_of (SimpleEnv._cur_step e + 1) (SimpleEnv._max_steps e))
                 (Vectorize._envs v),
             map (fun e => SimpleEnv._max_steps e <=? SimpleEnv._cur_step e + 1)
                 (Vectorize._envs v),
             map (fun _ => []) (Vectorize._envs v)),
         (Vectorize.set_envs (map step_env (Vectorize._envs v))
            (Vectorize.set_act (Some acts) v), h')) /\
    length h' = length h /\
    batch_ready shape dt dict
      (Vectorize.set_envs (map step_env (Vectorize._envs v))
         (Vectorize.set_act (Some acts) v)) h' /\
    (forall i e a, Vectorize._envs v !! i = Some e -> acts !! i = Some a ->
       deref (Some (SimpleEnv._start_obs e)) h'
         = option_map (obs_add a) (deref (Some (SimpleEnv._start_obs e)) h)).
Proof.
  intros (Hne & [Hall Hsep] & Hos & Hready) Hlen Hacts.
  destruct (run_envs_steps shape (Vectorize._envs v) 0 h acts)
    as (h' & Hrun & Hlen' & Hall' & _ & Hd).
  { intros k e Hk. split.
    - by destruct (Forall_lookup_1 _ _ _ _ Hall Hk) as [Hwf _].
    - exact (Forall_lookup_1 _ _ _ _ Hready Hk). }
  { exact Hsep. }
  { intros k e Hk. apply lookup_lt_Some in Hk. rewrite <- Hlen in Hk.
    apply lookup_lt_is_Some in Hk as [a Ha]. exists a. split; [done|].
    exact (Forall_lookup_1 _ _ _ _ Hacts Ha). }
  assert (Hall2 : Forall (wf_member shape dt dict h') (Vectorize._envs v)).
  { apply Forall_lookup_2. intros k e Hk.
    destruct (Forall_lookup_1 _ _ _ _ Hall Hk) as (_ & Hdt & Hdict).
    destruct (Hall' k e Hk) as [Hwf' _]. done. }
  assert (Hsep2 : separate (Vectorize._envs v) h').
  { intros i j ei ej Hij Hi Hj l Hli Hlj.
    rewrite (proj2 (Hall' i ei Hi)) in Hli. rewrite (proj2 (Hall' j ej Hj)) in Hlj.
    exact (Hsep i j ei ej Hij Hi Hj l Hli Hlj). }
  destruct (merge_batch shape dt dict h' (Vectorize._envs v) Hne Hall2)
    as (os & o & Hseq & _ & _ & Hst & Hm).
  exists os, o, h'. split; [done|]. split; [done|]. split; [|split; [done|split]].
  - rewrite step_wait_run.
    cbn [Vectorize._act Vectorize._envs Vectorize.set_act]. rewrite Hrun.
    rewrite merge_obs_spec.
    cbn [Vectorize.observation_space Vectorize.set_envs Vectorize.set_act].
    rewrite Hos, !map_map. cbn [fst snd step_out]. by rewrite Hm.
  - unfold batch_ready.
    cbn [Vectorize._envs Vectorize.set_envs Vectorize.set_act
         Vectorize.observation_space].
    split; [by destruct (Vectorize._envs v)|].
    split; [|split; [done|]].
    + apply wf_batch_map; [done| |by split]. intros e H. exact H.
    + apply Forall_fmap. eapply Forall_impl; [exact Hready|]. intros e H. exact H.
  - intros i e a Hi Ha. by apply (Hd i e a Hi).
Qed.

(** One round on a batch that is ready. *)
Lemma round_batch shape dt dict (v : @Vectorize.t SimpleEnv.t) h
    (acts : list ndarray) :
  batch_ready shape dt dict v h ->
  length acts = length (Vectorize._envs v) ->
  Forall (valid_action shape) acts ->
  exists o h',
    test_round acts (v, h)
      = (Ok ((o,
              map (fun e => reward_of (SimpleEnv._cur_step e + 1) (SimpleEnv._max_steps e))
                  (Vectorize._envs v),
              map (fun e => SimpleEnv._max_steps e <=? SimpleEnv._cur_step e + 1)
                  (Vectorize._envs v),
              map (fun _ => []) (Vectorize._envs v)),
             stack_arrays [16; 8; 4]%nat dt
               (map (fun e => render_frame (step_env e)) (Vectorize._envs v))),
         (Vectorize.set_envs (map round_env (Vectorize._envs v))
            (Vectorize.set_act (Some acts) v), h')) /\
    length h' = length h /\
    batch_ready shape dt dict
      (Vectorize.set_envs (map round_env (Vectorize._envs v))
         (Vectorize.set_act (Some acts) v)) h'.
Proof.
  intros Hready Hlen Hacts.
  destruct (step_wait_batch shape dt dict v h acts Hready Hlen Hacts)
    as (os & o & h' & _ & _ & Hstep & Hlen' & Hready' & _).
  exists o, h'.
  destruct Hready' as (Hne' & Hwf' & Hos' & Hcur').
  pose proof (render_batch shape dt dict _ h' Hne' Hwf') as Hrender.
  cbn [Vectorize._envs Vectorize.set_envs Vectorize.set_act] in Hrender, Hne', Hwf', Hcur'.
  rewrite !map_map in Hrender.
  split; [|split; [done|]].
  - unfold test_round. unfold bind at 1.
    change (Vectorize.step_async acts (v, h))
      with (@Ok unit tt, (Vectorize.set_act (Some acts) v, h)).
    cbn iota beta. unfold bind at 1. rewrite Hstep.
    unfold bind at 1. rewrite Hrender. reflexivity.
  - unfold batch_ready.
    cbn [Vectorize._envs Vectorize.set_envs Vectorize.set_act
         Vectorize.observation_space].
    cbn [Vectorize.observation_space Vectorize.set_envs Vectorize.set_act] in Hos'.
    split; [by destruct (Vectorize._envs v)|].
    split; [|split; [done|]].
    + unfold round_env. rewrite <- (map_map step_env render_env).
      apply wf_batch_map; [done| |done]. intros e H. exact H.
    + unfold round_env. rewrite <- (map_map step_env render_env).
      apply Forall_fmap. eapply Forall_impl; [exact Hcur'|]. intros e H. exact H.
Qed.

(** Any number of rounds. *)
Lemma rounds_batch shape dt dict (rounds : list (list ndarray)) :
  forall (v : @Vectorize.t SimpleEnv.t) h,
  batch_ready shape dt dict v h ->
  Forall (fun acts => length acts = length (Vectorize._envs v) /\
                      Forall (valid_action shape) acts) rounds ->
  exists outs v' h',
    for_each rounds test_round (v, h) = (Ok outs, (v', h')) /\
    length outs = length rounds /\
    length h' = length h /\
    batch_ready shape dt dict v' h' /\
    map SimpleEnv._max_steps (Vectorize._envs v')
      = map SimpleEnv._max_steps (Vectorize._envs v) /\
    map SimpleEnv._cur_step (Vectorize._envs v')
      = map (fun e => SimpleEnv._cur_step e + Z.of_nat (length rounds))
            (Vectorize._envs v) /\
    (forall k out, outs !! k = Some out ->
       out.1.1.1.2
         = map (fun e => reward_of (SimpleEnv._cur_step e + Z.of_nat k + 1)
                                   (SimpleEnv._max_steps e)) (Vectorize._envs v) /\
       out.1.1.2
         = map (fun e => SimpleEnv._max_steps e <=? SimpleEnv._cur_step e + Z.of_nat k + 1)
               (Vectorize._envs v) /\
       out.1.2 = map (fun _ => []) (Vectorize._envs v) /\
       nd_shape out.2 = [length (Vectorize._envs v); 16; 8; 4]%nat /\
       nd_dtype out.2 = dt).
Proof.
  induction rounds as [|acts rounds IH]; intros v h Hready Hrounds.
  - exists [], v, h. split; [done|]. split; [done|]. split; [done|]. split; [done|].
    split; [done|]. split; [|done]. simpl. apply map_ext. intros e. lia.
  - apply Forall_cons in Hrounds as [[Hlen Hacts] Hrounds].
    destruct (round_batch shape dt dict v h acts Hready Hlen Hacts)
      as (o & h1 & Hround & Hlen1 & Hready1).
    set (v1 := Vectorize.set_envs (map round_env (Vectorize._envs v))
                 (Vectorize.set_act (Some acts) v)) in *.
    assert (Henvs1 : Vectorize._envs v1 = map round_env (Vectorize._envs v)) by done.
    destruct (IH v1 h1 Hready1) as (outs & v' & h' & Hrun & Hlo & Hlh & Hready' & Hmax & Hcur & Hout).
    { eapply Forall_impl; [exact Hrounds|]. intros a [Hla Hva]. split; [|done].
      rewrite Henvs1, length_map. exact Hla. }
    eexists (_ :: outs), v', h'. split; [|split; [|split; [|split; [|split; [|split]]]]].
    + cbn [for_each]. unfold bind at 1. rewrite Hround.
      unfold bind at 1. rewrite Hrun. reflexivity.
    + simpl. by rewrite Hlo.
    + congruence.
    + done.
    + rewrite Hmax, Henvs1, map_map. reflexivity.
    + rewrite Hcur, Henvs1, map_map. apply map_ext. intros e.
      unfold round_env, render_env, step_env. simpl. lia.
    + intros [|k] out Hk; simpl in Hk.
      * injection Hk as <-. cbn [fst snd].
        split; [apply map_ext; intros e; f_equal; lia|].
        split; [apply map_ext; intros e; f_equal; lia|].
        split; [done|]. split; [|done].
        unfold stack_arrays. simpl. by rewrite length_map.
      * destruct (Hout k out Hk) as (Hr & Hd & Hi & Hs & Hdt).
        rewrite Hr, Hd, Hi, Hs, Hdt, Henvs1, !map_map, length_map.
        split; [apply map_ext; intros e; unfold round_env, render_env, step_env;
                simpl; f_equal; lia|].
        split; [apply map_ext; intros e; unfold round_env, render_env, step_env;
                simpl; f_equal; lia|].
        done.
Qed.

Lemma Forall2_map_eq {A B C} (R : A -> B -> Prop) (f : B -> C) (g : A -> C) l k :
  Forall2 R l k -> (forall a b, R a b -> f b = g a) -> map f k = map g l.
Proof.
  intros H Hfg. induction H as [|a b l k Hab _ IH]; [done|].
  simpl. by rewrite (Hfg a b Hab), IH.
Qed.

(** [Vectorize(make_envs)] for the constructors of [test_simple_env]. *)
Lemma init_batch shape dt dict (seeds : list Z) h0 :
  seeds <> [] ->
  Forall (fun seed => 0 <= seed < 2 ^ 32) seeds ->
  exists envs new,
    Vectorize.__init__ (make_envs seeds shape dt dict) h0
      = (Ok (Vectorize.mk None envs (simple_space shape dt dict) (Box 0 100 shape dt)),
         h0 ++ new) /\
    envs <> [] /\
    wf_batch shape dt dict envs (h0 ++ new) /\
    Forall2 (fun seed e =>
               SimpleEnv._max_steps e = seed + 1 /\ SimpleEnv._cur_step e = 0 /\
               SimpleEnv._cur_obs e = None /\
               SimpleEnv.action_space e = Box 0 100 shape dt /\
               SimpleEnv.observation_space e = simple_space shape dt dict)
            seeds envs.
Proof.
  intros Hne Hseeds.
  destruct (make_envs_spec shape dt dict seeds h0 Hseeds)
    as (envs & new & Hrun & Hwf & _ & Hfacts).
  exists envs, new. destruct Hfacts as [|seed e seeds envs He Hrest]; [done|].
  split; [|split; [done|split; [done|by constructor]]].
  unfold Vectorize.__init__. unfold bind at 1. rewrite Hrun.
  destruct He as (_ & _ & _ & Has & Hos).
  change (env_observation_space e) with (SimpleEnv.observation_space e).
  change (env_action_space e) with (SimpleEnv.action_space e).
  rewrite Has, Hos. reflexivity.
Qed.

(** X12 (Vectorize.__init__, _SimpleEnv.__init__, make_envs of
    test_simple_env): building a batch from a non-empty list of seeds
    that numpy accepts succeeds.  There is one environment per seed, in
    order, with episode length [seed + 1]; no actions are pending; the
    spaces are those of the environments; every environment has its own
    observation objects, none shared with another one. *)
Theorem vectorize_init_batch (shape : list nat) (dt : dtype) (dict : bool)
    (seeds : list Z) (h0 : heap) :
  seeds <> [] ->
  Forall (fun seed => 0 <= seed < 2 ^ 32) seeds ->
  exists v new,
    Vectorize.__init__ (make_envs seeds shape dt dict) h0 = (Ok v, h0 ++ new) /\
    length (Vectorize._envs v) = length seeds /\
    Vectorize._act v = None /\
    Vectorize.observation_space v = simple_space shape dt dict /\
    Vectorize.action_space v = Box 0 100 shape dt /\
    wf_batch shape dt dict (Vectorize._envs v) (h0 ++ new) /\
    map SimpleEnv._max_steps (Vectorize._envs v) = map (fun seed => seed + 1) seeds /\
    Forall (fun e => SimpleEnv._cur_obs e = None /\ SimpleEnv._cur_step e = 0)
           (Vectorize._envs v).
Proof.
  intros Hne Hseeds.
  destruct (init_batch shape dt dict seeds h0 Hne Hseeds)
    as (envs & new & Hinit & _ & Hwf & Hfacts).
  eexists _, new. split; [exact Hinit|]. simpl.
  split; [symmetry; by eapply Forall2_length|].
  split; [done|]. split; [done|]. split; [done|]. split; [done|]. split.
  - eapply Forall2_map_eq; [exact Hfacts|]. by intros seed e (Hm & _).
  - clear -Hfacts. induction Hfacts as [|seed e seeds envs He _ IH]; constructor; [|done].
    by destruct He as (_ & Hs & Hc & _).
Qed.

(** X13 (Vectorize.reset, Vectorize._merge_obs, _SimpleEnv.reset): on a
    batch of environments of one shape, dtype and kind of observation
    space, [reset] succeeds and returns the environments' start
    observations stacked along a new leading axis (per key for a dict
    space).  It leaves the object store as it is, sets every
    environment's step counter to 0 and its current observation to its
    start observation, and calling it again changes nothing more. *)
Theorem vectorize_reset_batch (shape : list nat) (dt : dtype) (dict : bool)
    (v : @Vectorize.t SimpleEnv.t) (h : heap) :
  Vectorize._envs v <> [] ->
  wf_batch shape dt dict (Vectorize._envs v) h ->
  Vectorize.observation_space v = simple_space shape dt dict ->
  exists os o v',
    sequence_opt (map (fun e => deref (Some (SimpleEnv._start_obs e)) h)
                      (Vectorize._envs v)) = Some os /\
    stack_obs shape dt dict os = Some o /\
    Vectorize.reset (v, h) = (Ok o, (v', h)) /\
    Vectorize._envs v' = map reset_env (Vectorize._envs v) /\
    Vectorize._act v' = Vectorize._act v /\
    batch_ready shape dt dict v' h /\
    Vectorize.reset (v', h) = (Ok o, (v', h)).
Proof.
  intros Hne Hwf Hos.
  destruct (reset_batch shape dt dict v h Hne Hwf Hos)
    as (os & o & Hseq & Hst & Hreset & Hready).
  set (v' := Vectorize.set_envs (map reset_env (Vectorize._envs v)) v) in *.
  exists os, o, v'. split; [done|]. split; [done|]. split; [done|].
  split; [done|]. split; [done|]. split; [done|].
  destruct Hready as (Hne' & Hwf' & Hos' & _).
  destruct (reset_batch shape dt dict v' h Hne' Hwf' Hos')
    as (os2 & o2 & Hseq2 & Hst2 & Hreset2 & _).
  assert (os2 = os) as ->.
  { cbn [v' Vectorize._envs Vectorize.set_envs] in Hseq2. rewrite map_map in Hseq2.
    cbn [reset_env SimpleEnv._start_obs SimpleEnv.set_cur_step SimpleEnv.set_cur_obs]
      in Hseq2. congruence. }
  assert (o2 = o) as -> by congruence.
  rewrite Hreset2. do 2 f_equal.
  unfold v'. cbn [Vectorize._envs Vectorize.set_envs]. rewrite map_map.
  reflexivity.
Qed.

(** X14 (Vectorize.step_async, Vectorize.step_wait, _SimpleEnv.step): on
    a batch that was reset, with one action of the environments' shape
    per environment, [step_async] followed by [step_wait] succeeds.  The
    rewards and dones are those of the single environments, in order;
    every environment's observation grows by its own action only, whatever
    the others do; the returned observation is the stack of the
    observations after the step; and the batch is ready for the next
    round. *)
Theorem vectorize_step_batch (shape : list nat) (dt : dtype) (dict : bool)
    (v : @Vectorize.t SimpleEnv.t) (h : heap) (acts : list ndarray) :
  batch_ready shape dt dict v h ->
  length acts = length (Vectorize._envs v) ->
  Forall (valid_action shape) acts ->
  exists os o v' h',
    (Vectorize.step_async acts ;; Vectorize.step_wait) (v, h)
      = (Ok (o,
             map (fun e => reward_of (SimpleEnv._cur_step e + 1) (SimpleEnv._max_steps e))
                 (Vectorize._envs v),
             map (fun e => SimpleEnv._max_steps e <=? SimpleEnv._cur_step e + 1)
                 (Vectorize._envs v),
             map (fun _ => []) (Vectorize._envs v)),
         (v', h')) /\
    Vectorize._envs v' = map step_env (Vectorize._envs v) /\
    (forall i e a, Vectorize._envs v !! i = Some e -> acts !! i = Some a ->
       deref (Some (SimpleEnv._start_obs e)) h'
         = option_map (obs_add a) (deref (Some (SimpleEnv._start_obs e)) h)) /\
    sequence_opt (map (fun e => deref (Some (SimpleEnv._start_obs e)) h')
                      (Vectorize._envs v)) = Some os /\
    stack_obs shape dt dict os = Some o /\
    batch_ready shape dt dict v' h'.
Proof.
  intros Hready Hlen Hacts.
  destruct (step_wait_batch shape dt dict v h acts Hready Hlen Hacts)
    as (os & o & h' & Hseq & Hst & Hstep & _ & Hready' & Hd).
  eexists os, o, _, h'. rewrite step_async_then_wait.
  split; [exact Hstep|]. split; [done|]. split; [done|]. done.
Qed.

(** X15 (Vectorize.render, _SimpleEnv.render): on a batch of
    environments of one dtype, [render("rgb_array")] succeeds; the
    result has the shape [(n, 16, 8, 4)] and the environments' dtype,
    and its rows are the environments' frames in order.  Only the
    generators of the environments advance: the object store, the
    observations and the step counters stay as they are. *)
Theorem vectorize_render_batch (shape : list nat) (dt : dtype) (dict : bool)
    (v : @Vectorize.t SimpleEnv.t) (h : heap) :
  Vectorize._envs v <> [] ->
  wf_batch shape dt dict (Vectorize._envs v) h ->
  exists a v',
    Vectorize.render "rgb_array" (v, h) = (Ok a, (v', h)) /\
    nd_shape a = [length (Vectorize._envs v); 16; 8; 4]%nat /\
    nd_dtype a = dt /\
    nd_data a = concat (map (fun e => nd_data (render_frame e)) (Vectorize._envs v)) /\
    Vectorize._envs v' = map render_env (Vectorize._envs v) /\
    map SimpleEnv._cur_step (Vectorize._envs v')
      = map SimpleEnv._cur_step (Vectorize._envs v) /\
    map SimpleEnv._cur_obs (Vectorize._envs v')
      = map SimpleEnv._cur_obs (Vectorize._envs v) /\
    wf_batch shape dt dict (Vectorize._envs v') h.
Proof.
  intros Hne Hwf.
  eexists _, _. split; [exact (render_batch shape dt dict v h Hne Hwf)|].
  cbn [stack_arrays nd_shape nd_dtype nd_data Vectorize._envs Vectorize.set_envs].
  rewrite !map_map, length_map.
  split; [done|]. split; [done|]. split; [done|]. split; [done|].
  split; [done|]. split; [done|].
  apply wf_batch_map; [done| |done]. intros e H. exact H.
Qed.

(** X16 (test_simple_env, the calls on [env1]): for a non-empty list of
    seeds and rounds of actions of the right number and shape, building
    the batch, [reset], then in every round [step_async], [step_wait]
    and [render(mode="rgb_array")], and finally [close], all succeed.
    In round k (from 0) the environment with seed s reports the reward
    [(k+1) / (s+1)] and done exactly when [k+1 >= s+1]; the rendering has
    the shape [(n, 16, 8, 4)]; the rounds allocate no new objects. *)
Theorem test_simple_env_env1_runs (shape : list nat) (dt : dtype) (dict : bool)
    (seeds : list Z) (rounds : list (list ndarray)) (h0 : heap) :
  seeds <> [] ->
  Forall (fun seed => 0 <= seed < 2 ^ 32) seeds ->
  Forall (fun acts => length acts = length seeds /\
                      Forall (valid_action shape) acts) rounds ->
  exists v h obs1 outs v' h',
    Vectorize.__init__ (make_envs seeds shape dt dict) h0 = (Ok v, h) /\
    (let* obs1 := Vectorize.reset in
     let* outs := for_each rounds test_round in
     (Vectorize.close ;; ret (obs1, outs))) (v, h) = (Ok (obs1, outs), (v', h')) /\
    length outs = length rounds /\
    length h' = length h /\
    map SimpleEnv._cur_step (Vectorize._envs v')
      = map (fun _ => Z.of_nat (length rounds)) seeds /\
    (forall k out, outs !! k = Some out ->
       out.1.1.1.2 = map (fun seed => reward_of (Z.of_nat k + 1) (seed + 1)) seeds /\
       out.1.1.2 = map (fun seed => seed + 1 <=? Z.of_nat k + 1) seeds /\
       nd_shape out.2 = [length seeds; 16; 8; 4]%nat /\
       nd_dtype out.2 = dt).
Proof.
  intros Hne Hseeds Hrounds.
  destruct (init_batch shape dt dict seeds h0 Hne Hseeds)
    as (envs & new & Hinit & Hne0 & Hwf & Hfacts).
  set (v := Vectorize.mk None envs (simple_space shape dt dict) (Box 0 100 shape dt)) in *.
  destruct (reset_batch shape dt dict v (h0 ++ new) Hne0 Hwf eq_refl)
    as (os & obs1 & _ & _ & Hreset & Hready).
  set (v1 := Vectorize.set_envs (map reset_env (Vectorize._envs v)) v) in *.
  assert (Hlen : length envs = length seeds) by (symmetry; by eapply Forall2_length).
  destruct (rounds_batch shape dt dict rounds v1 (h0 ++ new) Hready)
    as (outs & v' & h' & Hrun & Hlo & Hlh & _ & Hmax & Hcur & Hout).
  { eapply Forall_impl; [exact Hrounds|]. intros a [Hla Hva]. split; [|done].
    cbn [v1 v Vectorize._envs Vectorize.set_envs]. rewrite length_map. congruence. }
  cbn [v1 v Vectorize._envs Vectorize.set_envs] in Hmax, Hcur, Hout.
  rewrite map_map in Hmax, Hcur.
  exists v, (h0 ++ new), obs1, outs, v', h'.
  split; [exact Hinit|]. split; [|split; [done|split; [done|split]]].
  - unfold bind at 1. rewrite Hreset. unfold bind at 1. rewrite Hrun.
    unfold bind at 1. by rewrite close_simple_batch.
  - rewrite Hcur. eapply Forall2_map_eq; [exact Hfacts|].
    intros seed e _. simpl. lia.
  - intros k out Hk. destruct (Hout k out Hk) as (Hr & Hd & _ & Hs & Hdt).
    split; [|split; [|split; [|exact Hdt]]].
    + etrans; [exact Hr|]. rewrite map_map.
      eapply Forall2_map_eq; [exact Hfacts|].
      intros seed e (Hm & _). simpl. rewrite Hm. f_equal; lia.
    + etrans; [exact Hd|]. rewrite map_map.
      eapply Forall2_map_eq; [exact Hfacts|].
      intros seed e (Hm & _). simpl. rewrite Hm. f_equal; lia.
    + etrans; [exact Hs|]. by rewrite length_map, Hlen.
Qed.
End BatchFacts.

(** * [Vectorize] over [ImageEnv], and [rollout] *)

Lemma map_const_replicate {A B} (c : B) (l : list A) :
  map (fun _ => c) l = replicate (length l) c.
Proof. induction l as [|x l IH]; simpl; [done|]. by rewrite IH. Qed.

Lemma image_envs_length l n : length (image_envs l n) = n.
Proof. unfold image_envs. by rewrite length_map, length_seq. Qed.

Lemma image_envs_S l n :
  image_envs l (S n)
    = ImageEnv.mk (Box 0 255 [] uint8) (Discrete 3) l :: image_envs (S l) n.
Proof.
  unfold image_envs. cbn [seq map]. rewrite Nat.add_0_r. f_equal.
  rewrite <- seq_shift, map_map. apply map_ext. intros i. f_equal. lia.
Qed.

(** The constructors of the batch, run one after the other. *)
Lemma image_init (samples : list Z) : forall h0,
  for_each (map ImageEnv.__init__ samples) (fun fn => fn) h0
    = (Ok (image_envs (length h0) (length samples)), h0 ++ image_objects samples).
Proof.
  induction samples as [|s samples IH]; intros h0.
  - simpl. unfold ret. by rewrite app_nil_r.
  - cbn [map for_each]. unfold bind at 1.
    unfold ImageEnv.__init__ at 1, bind at 1, alloc at 1, ret at 1.
    unfold bind at 1. rewrite IH. unfold ret. rewrite length_app. simpl.
    rewrite image_envs_S, <- app_assoc. simpl.
    by replace (length h0 + 1)%nat with (S (length h0)) by lia.
Qed.

(** The observations of the batch, read from the store. *)
Lemma image_rows (samples : list Z) : forall pre,
  map_result (fun o => fst (load_array o (pre ++ image_objects samples)))
    (map (fun e => Some (ImageEnv._obs e))
         (image_envs (length pre) (length samples)))
    = Ok (map (fun s => np_array_of [] uint8 [s]) samples).
Proof.
  induction samples as [|s samples IH]; intros pre; [done|].
  cbn [length]. rewrite image_envs_S. cbn [map map_result ImageEnv._obs].
  unfold load_array at 1, bind, load. cbn [image_objects map].
  rewrite list_lookup_middle by done. cbn [fst ret].
  specialize (IH (pre ++ [PArr (np_array_of [] uint8 [s])])).
  rewrite length_app, <- app_assoc in IH. simpl in IH.
  replace (length pre + 1)%nat with (S (length pre)) in IH by lia.
  unfold image_objects in IH. by rewrite IH.
Qed.

Lemma image_stack (samples : list Z) :
  samples <> [] ->
  np_stack (map (fun s => np_array_of [] uint8 [s]) samples)
    = Ok (mk_ndarray [length samples] uint8 (map (cast uint8) samples)).
Proof.
  intros Hne.
  rewrite (np_stack_conforms [] uint8).
  - unfold stack_arrays. rewrite length_map, map_map. do 2 f_equal.
    clear Hne. induction samples as [|s samples IH]; [done|].
    simpl in *. by rewrite IH.
  - by destruct samples.
  - apply Forall_fmap, Forall_forall. intros s _. simpl.
    by apply np_array_of_conforms.
Qed.

Lemma image_merge act pre (samples : list Z) :
  samples <> [] ->
  Vectorize._merge_obs
    (map (fun e => Some (ImageEnv._obs e)) (image_envs (length pre) (length samples)))
    (image_batch act (length pre) (length samples), pre ++ image_objects samples)
  = (Ok (image_obs samples),
     (image_batch act (length pre) (length samples), pre ++ image_objects samples)).
Proof.
  intros Hne. rewrite merge_obs_spec. f_equal.
  unfold merge_obs_of, image_batch. cbn [Vectorize.observation_space].
  rewrite image_rows. cbn [result_bind]. by rewrite image_stack.
Qed.

Lemma image_run_reset i (envs : list ImageEnv.t) h :
  run_envs (fun _ => env_reset) i envs h
    = (Ok (map (fun e => Some (ImageEnv._obs e)) envs), (envs, h)).
Proof.
  revert i. induction envs as [|e es IH]; intros i; [done|].
  cbn [run_envs]. change (env_reset (e, h)) with (ImageEnv.reset (e, h)).
  unfold ImageEnv.reset, bind, ImageEnv.self, ret. cbn [fst snd].
  by rewrite IH.
Qed.

Lemma image_run_step (acts : list ndarray) (envs : list ImageEnv.t) h : forall i,
  (i + length envs <= length acts)%nat ->
  run_envs (step_body (Some acts)) i envs h
    = (Ok (map (fun e => (Some (ImageEnv._obs e), 0%Q, false, [])) envs), (envs, h)).
Proof.
  induction envs as [|e es IH]; intros i Hlen; [done|].
  simpl in Hlen. cbn [run_envs].
  assert (Hi : (i < length acts)%nat) by lia.
  apply lookup_lt_is_Some in Hi as [a Ha].
  unfold step_body at 1, bind at 1, act_lookup. rewrite Ha. cbn [lift_result ret].
  change (env_step a (e, h)) with (ImageEnv.step a (e, h)).
  unfold ImageEnv.step, bind, ImageEnv.self, ret. cbn [fst snd].
  rewrite IH by lia. reflexivity.
Qed.

Lemma image_reset act pre (samples : list Z) :
  samples <> [] ->
  Vectorize.reset
    (image_batch act (length pre) (length samples), pre ++ image_objects samples)
  = (Ok (image_obs samples),
     (image_batch act (length pre) (length samples), pre ++ image_objects samples)).
Proof.
  intros Hne. unfold Vectorize.reset. unfold bind at 1.
  rewrite for_envs_run, image_run_reset. cbn [fst snd].
  rewrite set_envs_id. cbn [image_batch Vectorize._envs].
  by apply image_merge.
Qed.

Lemma image_step act0 (acts : list ndarray) pre (samples : list Z) :
  samples <> [] ->
  (length samples <= length acts)%nat ->
  (Vectorize.step_async acts ;; Vectorize.step_wait)
    (image_batch act0 (length pre) (length samples), pre ++ image_objects samples)
  = (Ok (image_obs samples, replicate (length samples) 0%Q,
         replicate (length samples) false, replicate (length samples) []),
     (image_batch (Some acts) (length pre) (length samples),
      pre ++ image_objects samples)).
Proof.
  intros Hne Hlen. rewrite step_async_then_wait, step_wait_run.
  cbn [image_batch Vectorize.set_act Vectorize._act Vectorize._envs].
  rewrite image_run_step by (rewrite image_envs_length; lia).
  rewrite !map_map. cbn [fst snd].
  change (Vectorize.set_envs (image_envs (length pre) (length samples))
            (Vectorize.set_act (Some acts)
               (image_batch act0 (length pre) (length samples))))
    with (image_batch (Some acts) (length pre) (length samples)).
  rewrite (image_merge (Some acts) pre samples Hne).
  rewrite !map_const_replicate, image_envs_length. reflexivity.
Qed.

Lemma image_rollout_loop (acts : list ndarray) pre (samples : list Z) :
  samples <> [] ->
  (length samples <= length acts)%nat ->
  forall n act0,
    rollout_loop acts n
      (image_batch act0 (length pre) (length samples), pre ++ image_objects samples)
    = (Ok tt,
       (image_batch (match n with O => act0 | S _ => Some acts end)
          (length pre) (length samples),
        pre ++ image_objects samples)).
Proof.
  intros Hne Hlen. induction n as [|n IH]; intros act0; [done|].
  cbn [rollout_loop].
  change ((Vectorize.step_async acts ;; Vectorize.step_wait ;; rollout_loop acts n)
            (image_batch act0 (length pre) (length samples), pre ++ image_objects samples))
    with (bind (Vectorize.step_async acts ;; Vectorize.step_wait)
            (fun _ => rollout_loop acts n)
            (image_batch act0 (length pre) (length samples), pre ++ image_objects samples)).
  unfold bind at 1. rewrite (image_step act0 acts pre samples Hne Hlen).
  rewrite IH. by destruct n.
Qed.

(** X17 (ImageEnv, Vectorize over it): a batch of image environments,
    one per drawn sample, is built with one new array per environment.
    [reset] and every [step_async]/[step_wait] with at least one action
    per environment return the same stacked observation, the samples as
    bytes; the rewards are all 0 and the dones all [False], whatever the
    actions; nothing but [_act] ever changes.  The class has no
    [render], so [Vectorize.render("rgb_array")] raises
    [AttributeError]. *)
Theorem image_env_batch (samples : list Z) (h0 : heap) :
  samples <> [] ->
  Vectorize.__init__ (map ImageEnv.__init__ samples) h0
    = (Ok (image_batch None (length h0) (length samples)),
       h0 ++ image_objects samples) /\
  (forall act,
     Vectorize.reset
       (image_batch act (length h0) (length samples), h0 ++ image_objects samples)
     = (Ok (image_obs samples),
        (image_batch act (length h0) (length samples), h0 ++ image_objects samples))) /\
  (forall act0 acts,
     (length samples <= length acts)%nat ->
     (Vectorize.step_async acts ;; Vectorize.step_wait)
       (image_batch act0 (length h0) (length samples), h0 ++ image_objects samples)
     = (Ok (image_obs samples, replicate (length samples) 0%Q,
            replicate (length samples) false, replicate (length samples) []),
        (image_batch (Some acts) (length h0) (length samples),
         h0 ++ image_objects samples))) /\
  (forall act,
     Vectorize.render "rgb_array"
       (image_batch act (length h0) (length samples), h0 ++ image_objects samples)
     = (Raise AttributeError,
        (image_batch act (length h0) (length samples), h0 ++ image_objects samples))).
Proof.
  intros Hne. split; [|split; [|split]].
  - unfold Vectorize.__init__. unfold bind at 1. rewrite image_init.
    destruct samples as [|s samples]; [done|].
    unfold image_batch. cbn [length]. rewrite image_envs_S. reflexivity.
  - intros act. by apply image_reset.
  - intros act0 acts Hlen. by apply image_step.
  - intros act. unfold Vectorize.render, bind, assert. simpl.
    rewrite for_envs_run.
    destruct samples as [|s samples]; [done|].
    unfold image_batch. cbn [length Vectorize._envs]. rewrite image_envs_S.
    reflexivity.
Qed.

(** X18 (rollout of env_speed, on Vectorize([ImageEnv] * n)): for any
    [max_steps], also zero or negative, and at least one action per
    environment, [rollout] succeeds; it leaves the environments and the
    object store as they were and only records the actions, so it can be
    called again and again, as the benchmark does. *)
Theorem rollout_image_env (samples : list Z) (h0 : heap) (acts : list ndarray)
    (max_steps : Z) (act0 : option (list ndarray)) :
  samples <> [] ->
  (length samples <= length acts)%nat ->
  rollout acts max_steps
    (image_batch act0 (length h0) (length samples), h0 ++ image_objects samples)
  = (Ok tt,
     (image_batch (if 0 <? max_steps then Some acts else act0)
        (length h0) (length samples),
      h0 ++ image_objects samples)) /\
  (rollout acts max_steps ;; rollout acts max_steps)
    (image_batch act0 (length h0) (length samples), h0 ++ image_objects samples)
  = rollout acts max_steps
      (image_batch act0 (length h0) (length samples), h0 ++ image_objects samples).
Proof.
  intros Hne Hlen.
  assert (Hroll : forall a0,
    rollout acts max_steps
      (image_batch a0 (length h0) (length samples), h0 ++ image_objects samples)
    = (Ok tt,
       (image_batch (if 0 <? max_steps then Some acts else a0)
          (length h0) (length samples),
        h0 ++ image_objects samples))).
  { intros a0. unfold rollout. unfold bind at 1.
    rewrite (image_reset a0 h0 samples Hne).
    rewrite (image_rollout_loop acts h0 samples Hne Hlen).
    destruct (0 <? max_steps) eqn:Hm.
    - apply Z.ltb_lt in Hm. destruct (Z.to_nat max_steps) eqn:Hn; [lia|done].
    - apply Z.ltb_ge in Hm. by replace (Z.to_nat max_steps) with 0%nat by lia. }
  split; [apply Hroll|].
  unfold bind at 1. rewrite !Hroll. by destruct (0 <? max_steps).
Qed.

(** * The reward at the end of an episode *)

Local Open Scope Q_scope.

(** A double division of a positive integer by itself gives exactly 1. *)
Lemma binary64_self (p : positive) : binary64 (Zpos p # p) = 1.
Proof.
  unfold binary64, round_float. cbn [Qnum Qden]. unfold round_pos.
  assert (He : floor_log2 p p = 0%Z).
  { unfold floor_log2. rewrite Z.sub_diag.
    assert (Hle : Qle_bool (pow2 0) (Zpos p # p) = true).
    { apply Qle_bool_iff. unfold Qle. simpl. lia. }
    by rewrite Hle. }
  rewrite He.
  change (53 - 1 - 0)%Z with 52%Z. change (0 - 53 + 1)%Z with (-52)%Z.
  change (pow2 52) with (4503599627370496 # 1).
  assert (Hf : Qfloor ((Zpos p # p) * (4503599627370496 # 1)) = 4503599627370496%Z).
  { unfold Qfloor, Qmult. cbn [Qnum Qden]. rewrite Pos.mul_1_r.
    rewrite Z.mul_comm. apply Z.div_mul. done. }
  assert (Hr : round_half_even ((Zpos p # p) * (4503599627370496 # 1))
               = 4503599627370496%Z).
  { unfold round_half_even. rewrite Hf.
    assert (Hlt : Qcompare ((Zpos p # p) * (4503599627370496 # 1)
                            - inject_Z 4503599627370496) (1 # 2) = Lt).
    { apply (proj1 (Qlt_alt _ _)). unfold Qlt, Qminus, Qplus, Qopp, Qmult, inject_Z.
      cbn [Qnum Qden]. rewrite !Pos.mul_1_r. lia. }
    by rewrite Hlt. }
  rewrite Hr. vm_compute. reflexivity.
Qed.

Local Close Scope Q_scope.

Lemma reward_of_self n : 1 <= n -> reward_of n n = 1%Q.
Proof.
  intros Hn. unfold reward_of. destruct n as [|p|p]; try lia.
  apply binary64_self.
Qed.

Section EpisodeEnd.
Context `{RG : RandomGen}.

(** X19 (_SimpleEnv.step): an episode of exactly [max_steps] steps after
    [reset] reports done for the first time at its last step, and the
    reward of that step, the double division [max_steps / max_steps], is
    exactly 1.0. *)
Theorem episode_ends_with_reward_one (shape : list nat) (e : SimpleEnv.t)
    (h : heap) (acts : list ndarray) :
  wf_env shape e h ->
  Forall (valid_action shape) acts ->
  Z.of_nat (length acts) = SimpleEnv._max_steps e ->
  exists outs e' h',
    (SimpleEnv.reset ;; for_each acts SimpleEnv.step) (e, h) = (Ok outs, (e', h')) /\
    length outs = length acts /\
    (forall k o, outs !! k = Some o ->
       ((k + 1 < length acts)%nat -> o.1.2 = false) /\
       ((k + 1 = length acts)%nat -> o.1.2 = true /\ o.1.1.2 = 1%Q)).
Proof.
  intros Hwf Hacts Hmax.
  destruct (reset_steps shape acts e h Hwf Hacts)
    as (outs & h' & Hrun & Hlen & Hout & _).
  eexists outs, _, h'. split; [exact Hrun|]. split; [done|].
  intros k o Hk. rewrite (Hout k o Hk). cbn [fst snd]. split.
  - intros Hlt. apply Z.leb_gt. lia.
  - intros Heq. split; [apply Z.leb_le; lia|].
    replace (Z.of_nat k + 1) with (SimpleEnv._max_steps e) by lia.
    apply reward_of_self. by destruct Hwf as (_ & Hm & _).
Qed.
End EpisodeEnd.

(** * The statements on concrete inputs *)

Section Witnesses.
Local Existing Instance lcg.

Lemma step_wait_steps_each_env_witness :
(Vectorize.step_async example_actions ;; Vectorize.step_wait) (example_state true)
  = example_step_result /\
exists merged rews dones infos v' h',
  example_step_result = (Ok (merged, rews, dones, infos), (v', h')) /\
  merged = ObsDict [("obs_a", mk_ndarray [2; 2]%nat uint8 [1; 222; 134; 40]);
                    ("obs_b", mk_ndarray [2; 2]%nat uint8 [5; 103; 249; 121])]%string /\
  rews = [binary64 (1 # 1); binary64 (1 # 3)] /\
  dones = [true; false] /\
  (exists outs,
     stepped 0 (Vectorize._envs (example_state true).1) example_actions
             (example_state true).2 outs (Vectorize._envs v') h' /\
     map (fun o => o.1.1.2) outs = rews /\
     map (fun o => o.1.2) outs = dones) /\
  (exists outs,
     stepped 0 (Vectorize._envs (example_state true).1) example_actions
             (example_state true).2 outs (Vectorize._envs v') h' /\
     length outs = 2%nat /\
     batched (Vectorize.observation_space (example_state true).1)
             (map (fun o => o.1.1.1) outs) h' merged).
Proof.
split; [vm_compute; reflexivity|].
let t := eval unfold example_step_result in example_step_result in
match t with
| (Ok (?m, ?rw, ?d, ?i), (?v', ?h')) =>
    assert (H : (Vectorize.step_async example_actions ;; Vectorize.step_wait)
                  ((example_state true).1, (example_state true).2)
                = (Ok (m, rw, d, i), (v', h'))) by (vm_compute; reflexivity);
    destruct (step_wait_steps_each_env example_actions
                (example_state true).1 (example_state true).2
                m rw d i v' h') as [Hiff Hobs];
    destruct (proj1 Hiff H) as (outs & Hst & _ & Hr & Hd & _);
    destruct (Hobs H) as (outs2 & Hst2 & Hlen2 & Hb);
    exists m, rw, d, i, v', h'
end.
split; [reflexivity|]. split; [reflexivity|]. split; [reflexivity|].
split; [reflexivity|]. split.
- exists outs. split; [exact Hst|]. split; [by rewrite Hr | by rewrite Hd].
- exists outs2. split; [exact Hst2|]. split; [exact Hlen2 | exact Hb].
Defined.

Lemma step_async_twice_supersedes_witness :
  (Vectorize.step_async [] ;; Vectorize.step_async example_actions ;;
   Vectorize.step_wait) (example_state true) = example_step_result /\
  (exists merged rews dones infos v' h' outs,
     example_step_result = (Ok (merged, rews, dones, infos), (v', h')) /\
     stepped 0 (Vectorize._envs (example_state true).1) example_actions
             (example_state true).2 outs (Vectorize._envs v') h' /\
     rews = [binary64 (1 # 1); binary64 (1 # 3)] /\
     map (fun o => o.1.1.2) outs = rews) /\
  fst ((Vectorize.step_async example_actions ;; Vectorize.step_async [] ;;
        Vectorize.step_wait) (example_state true)) = Raise IndexError.
Proof.
  split; [vm_compute; reflexivity|].
  destruct (step_async_twice_supersedes [] example_actions (example_state true).1
              (example_state true).2) as (_ & _ & _ & Hiff & _ & _).
  destruct (step_async_twice_supersedes example_actions [] (example_state true).1
              (example_state true).2) as (_ & _ & _ & _ & _ & Hraise).
  split.
  - let t := eval unfold example_step_result in example_step_result in
    match t with
    | (Ok (?m, ?rw, ?d, ?i), (?v', ?h')) =>
        assert (H : (Vectorize.step_async [] ;; Vectorize.step_async example_actions ;;
                     Vectorize.step_wait)
                      ((example_state true).1, (example_state true).2)
                    = (Ok (m, rw, d, i), (v', h'))) by (vm_compute; reflexivity);
        destruct (proj1 (Hiff m rw d i v' h') H) as (outs & Hst & _ & Hr & _);
        exists m, rw, d, i, v', h', outs
    end.
    split; [reflexivity|]. split; [exact Hst|]. split; [reflexivity|]. by rewrite Hr.
  - rewrite (surjective_pairing (example_state true)).
    rewrite Hraise; [reflexivity|]. vm_compute. discriminate.
Defined.

Lemma init_rejects_dict_action_space_witness :
(exists e0 envs h1,
   for_each (example_fns true) (fun fn => fn) [] = (Ok (e0 :: envs), h1) /\
   hasattr_spaces (@env_action_space _ DictActionEnv e0) = true /\
   @Vectorize.__init__ _ DictActionEnv (example_fns true) []
     = (Raise AssertionError, h1)) /\
(exists v h1,
   Vectorize.__init__ (example_fns true) [] = (Ok v, h1) /\
   hasattr_spaces (Vectorize.action_space v) = false).
Proof.
split.
- eexists _, _, _. split; [reflexivity|]. split; [reflexivity|].
  eapply (proj1 (@init_rejects_dict_action_space _ DictActionEnv)
            (example_fns true) []); reflexivity.
- eexists _, _. split; [reflexivity|].
  eapply (proj2 (@init_rejects_dict_action_space _ _) (example_fns true) []).
  reflexivity.
Defined.

Lemma reset_after_step_returns_mutated_witness :
wf_env [2%nat] (example_env true).1 (example_env true).2 /\
nd_shape (mk_ndarray [2%nat] uint8 [250; 7]) = [2%nat] /\
well_shaped (mk_ndarray [2%nat] uint8 [250; 7]) /\
exists r h2,
  fst (SimpleEnv.reset (example_env true)) = Ok r /\
  deref r (example_env true).2
    = Some (ObsDict [("obs_a", mk_ndarray [2%nat] uint8 [140; 33]);
                     ("obs_b", mk_ndarray [2%nat] uint8 [255; 114])]%string) /\
  deref r h2
    = Some (ObsDict [("obs_a", mk_ndarray [2%nat] uint8 [134; 40]);
                     ("obs_b", mk_ndarray [2%nat] uint8 [249; 121])]%string).
Proof.
assert (Hwf : wf_env [2%nat] (example_env true).1 (example_env true).2).
{ vm_compute. split; [reflexivity|]. split; [discriminate|]. split; [by left|].
  exists 1%nat, 2%nat, (mk_ndarray [2%nat] uint8 [140; 33]),
         (mk_ndarray [2%nat] uint8 [255; 114]).
  repeat split; try reflexivity; try discriminate;
    repeat constructor; discriminate. }
split; [exact Hwf|]. split; [reflexivity|]. split; [reflexivity|].
destruct (reset_after_step_returns_mutated [2%nat] (example_env true).1
            (example_env true).2 (mk_ndarray [2%nat] uint8 [250; 7])
            Hwf eq_refl eq_refl)
  as (r & e1 & e2 & h2 & e3 & rew & done & -> & Hr & _ & Hs & _ & _ & Hd & _).
exists (Some (SimpleEnv._start_obs (example_env true).1)), h2.
split; [reflexivity|].
split; [vm_compute; reflexivity|].
rewrite Hd. vm_compute. reflexivity.
Defined.

Lemma render_only_rgb_array_witness :
Vectorize.render "human" (example_state true)
  = (Raise AssertionError, example_state true) /\
Vectorize.render "rgb_array" (example_state true) = example_render_result /\
exists a, fst example_render_result = Ok a /\ nd_shape a = [2; 16; 8; 4]%nat.
Proof.
split; [|split].
- pose proof (render_only_rgb_array "human" (example_state true).1
                (example_state true).2) as (H & _ & _).
  exact H.
- pose proof (render_only_rgb_array "rgb_array" (example_state true).1
                (example_state true).2) as (H & _ & _).
  rewrite <- surjective_pairing in H. rewrite H. vm_compute. reflexivity.
- eexists. split; reflexivity.
Defined.

Lemma step_wait_after_init_raises_witness :
  Vectorize.__init__ (example_fns true) [] = example_fresh /\
  exists v h1, example_fresh = (Ok v, h1) /\
               length (Vectorize._envs v) = 2%nat /\
               Vectorize.step_wait (v, h1) = (Raise TypeError, (v, h1)).
Proof.
  split; [vm_compute; reflexivity|].
  let t := eval unfold example_fresh in example_fresh in
  match t with
  | (Ok ?v, ?h1) =>
      assert (H : Vectorize.__init__ (example_fns true) [] = (Ok v, h1))
        by (vm_compute; reflexivity);
      destruct (step_wait_after_init_raises (example_fns true) [] v h1 H)
        as (_ & _ & Hlen & Hraise);
      exists v, h1
  end.
  split; [reflexivity|]. split; [exact Hlen | exact Hraise].
Defined.

Lemma step_wait_too_few_actions_witness :
  (length (take 1 example_actions)
   < length (Vectorize._envs (example_state true).1))%nat /\
  fst ((Vectorize.step_async (take 1 example_actions) ;; Vectorize.step_wait)
         (example_state true)) = Raise IndexError /\
  map SimpleEnv._cur_step
      (Vectorize._envs
         (snd ((Vectorize.step_async (take 1 example_actions) ;; Vectorize.step_wait)
                 (example_state true))).1) = [1; 0].
Proof.
  split; [vm_compute; lia|].
  let t := eval unfold example_short_step in example_short_step in
  match t with
  | (Ok ?outs, (?envs', ?h')) =>
      assert (Hst : stepped 0 (take (length (take 1 example_actions))
                                    (Vectorize._envs (example_state true).1))
                      (take 1 example_actions) (example_state true).2 outs envs' h')
        by (apply run_envs_stepped; vm_compute; reflexivity);
      pose proof (step_wait_too_few_actions (take 1 example_actions)
                    (example_state true).1 (example_state true).2 outs envs' h'
                    ltac:(vm_compute; lia) Hst) as H
  end.
  rewrite <- surjective_pairing in H. rewrite H. split; reflexivity.
Defined.

Lemma close_changes_nothing_witness :
  (forall (e : SimpleEnv.t) (h : heap), env_close (e, h) = (Ok tt, (e, h))) /\
  (Vectorize.close ;; Vectorize.close) (example_state true)
    = (Ok tt, example_state true).
Proof.
  split; [reflexivity|].
  pose proof (@close_changes_nothing SimpleEnv.t SimpleEnv.SimpleEnv_Env
                (example_state true).1 (example_state true).2
                (fun e h => eq_refl)) as [_ H].
  rewrite <- surjective_pairing in H. exact H.
Defined.

Lemma merge_obs_dict_keys_witness :
  Vectorize._merge_obs [Some 0%nat; Some 3%nat] (example_state true) = example_merge /\
  exists items st,
    example_merge = (Ok (ObsDict items), st) /\
    dict_keys items = ["obs_a"; "obs_b"]%string.
Proof.
  split; [vm_compute; reflexivity|].
  let t := eval unfold example_merge in example_merge in
  match t with
  | (Ok ?o, ?st) =>
      assert (H : Vectorize._merge_obs [Some 0%nat; Some 3%nat]
                    ((example_state true).1, (example_state true).2) = (Ok o, st))
        by (vm_compute; reflexivity);
      destruct (merge_obs_dict_keys [Some 0%nat; Some 3%nat]
                  (example_state true).1 (example_state true).2
                  [("obs_a", Box 0 100 [2%nat] uint8);
                   ("obs_b", Box 0 100 [2%nat] uint8)]%string o st
                  ltac:(reflexivity)
                  ltac:(repeat (apply NoDup_cons; split; [by (intros Hin; repeat (apply elem_of_cons in Hin as [Hin|Hin]; [discriminate|]); apply elem_of_nil in Hin)|]); apply NoDup_nil; exact I) H)
        as (_ & items & Ho & Hk & _);
      exists items, st
  end.
  split; [rewrite <- Ho; reflexivity | exact Hk].
Defined.

Lemma example_env_wf : wf_env [2%nat] (example_env true).1 (example_env true).2.
Proof.
  vm_compute. split; [reflexivity|]. split; [discriminate|]. split; [by left|].
  exists 1%nat, 2%nat, (mk_ndarray [2%nat] uint8 [140; 33]),
         (mk_ndarray [2%nat] uint8 [255; 114]).
  repeat split; try reflexivity; try discriminate;
    repeat constructor; discriminate.
Defined.

Lemma example_actions_valid : Forall (valid_action [2%nat]) example_actions.
Proof. repeat constructor. Defined.

Lemma step_before_reset_raises_witness :
  0 <= 2 < 2 ^ 32 /\
  (0 < length (nd_data (mk_ndarray [2%nat] uint8 [250%Z; 7%Z])))%nat /\
  SimpleEnv.step (mk_ndarray [2%nat] uint8 [250; 7])
    ((example_env true).1, (example_env true).2)
    = (Raise TypeError, ((example_env true).1, (example_env true).2)).
Proof.
  assert (Hseed : 0 <= 2 < 2 ^ 32) by lia.
  assert (Hlen : (0 < length (nd_data (mk_ndarray [2%nat] uint8 [250%Z; 7%Z])))%nat)
    by (simpl; lia).
  split; [exact Hseed|]. split; [exact Hlen|].
  destruct (step_before_reset_raises 2 [2%nat] uint8 true []
              (mk_ndarray [2%nat] uint8 [250; 7]) Hseed Hlen)
    as (e & h & Hinit & _ & Hstep).
  unfold example_env. rewrite Hinit. exact Hstep.
Defined.

Lemma steps_after_reset_count_witness :
  wf_env [2%nat] (example_env true).1 (example_env true).2 /\
  Forall (valid_action [2%nat]) (example_actions ++ example_actions) /\
  exists outs e' h',
    (SimpleEnv.reset ;; for_each (example_actions ++ example_actions) SimpleEnv.step)
      ((example_env true).1, (example_env true).2) = (Ok outs, (e', h')) /\
    map (fun o => o.1.2) outs = [false; false; true; true] /\
    map (fun o => o.1.1.2) outs
      = [binary64 (1 # 3); binary64 (2 # 3); binary64 (3 # 3); binary64 (4 # 3)] /\
    SimpleEnv._cur_step e' = 4.
Proof.
  assert (Hv : Forall (valid_action [2%nat]) (example_actions ++ example_actions))
    by repeat constructor.
  split; [exact example_env_wf|]. split; [exact Hv|].
  destruct (steps_after_reset_count [2%nat] (example_env true).1 (example_env true).2
              (example_actions ++ example_actions) example_env_wf Hv)
    as (outs & e' & h' & Hrun & Hlen & Hcur & _ & Hout & _).
  exists outs, e', h'. split; [exact Hrun|].
  destruct outs as [|o0 [|o1 [|o2 [|o3 [|o4 outs]]]]]; try discriminate Hlen.
  rewrite (Hout 0%nat o0 eq_refl), (Hout 1%nat o1 eq_refl),
          (Hout 2%nat o2 eq_refl), (Hout 3%nat o3 eq_refl).
  split; [reflexivity|]. split; [reflexivity|]. exact Hcur.
Defined.

Lemma observation_accumulates_actions_witness :
  wf_env [2%nat] (example_env true).1 (example_env true).2 /\
  Forall (valid_action [2%nat]) example_actions /\
  exists outs e' h',
    deref (Some (SimpleEnv._start_obs (example_env true).1)) (example_env true).2
      = Some (ObsDict [("obs_a", mk_ndarray [2%nat] uint8 [140; 33]);
                       ("obs_b", mk_ndarray [2%nat] uint8 [255; 114])]%string) /\
    (SimpleEnv.reset ;; for_each example_actions SimpleEnv.step)
      ((example_env true).1, (example_env true).2) = (Ok outs, (e', h')) /\
    deref (SimpleEnv._cur_obs e') h'
      = Some (ObsDict [("obs_a", mk_ndarray [2%nat] uint8 [135; 42]);
                       ("obs_b", mk_ndarray [2%nat] uint8 [250; 123])]%string).
Proof.
  split; [exact example_env_wf|]. split; [exact example_actions_valid|].
  destruct (observation_accumulates_actions [2%nat] (example_env true).1
              (example_env true).2 example_actions example_env_wf
              example_actions_valid)
    as (o & outs & e' & h' & Ho & Hrun & Hd & _).
  assert (Ho' : deref (Some (SimpleEnv._start_obs (example_env true).1))
                  (example_env true).2
                = Some (ObsDict [("obs_a", mk_ndarray [2%nat] uint8 [140; 33]);
                                 ("obs_b", mk_ndarray [2%nat] uint8 [255; 114])]%string))
    by (vm_compute; reflexivity).
  rewrite Ho' in Ho. injection Ho as <-.
  exists outs, e', h'. split; [exact Ho'|]. split; [exact Hrun|].
  rewrite Hd. reflexivity.
Defined.

Lemma observation_order_irrelevant_witness :
  wf_env [2%nat] (example_env true).1 (example_env true).2 /\
  Forall (valid_action [2%nat])
    [mk_ndarray [2%nat] uint8 [1; 2]; mk_ndarray [2%nat] uint8 [250; 7]] /\
  [mk_ndarray [2%nat] uint8 [1; 2]; mk_ndarray [2%nat] uint8 [250; 7]]
    ≡ₚ [mk_ndarray [2%nat] uint8 [250; 7]; mk_ndarray [2%nat] uint8 [1; 2]] /\
  exists outs outs2 e' h' h2,
    (SimpleEnv.reset ;;
     for_each [mk_ndarray [2%nat] uint8 [1; 2]; mk_ndarray [2%nat] uint8 [250; 7]]
              SimpleEnv.step) ((example_env true).1, (example_env true).2)
      = (Ok outs, (e', h')) /\
    (SimpleEnv.reset ;;
     for_each [mk_ndarray [2%nat] uint8 [250; 7]; mk_ndarray [2%nat] uint8 [1; 2]]
              SimpleEnv.step) ((example_env true).1, (example_env true).2)
      = (Ok outs2, (e', h2)) /\
    deref (SimpleEnv._cur_obs e') h' = deref (SimpleEnv._cur_obs e') h2.
Proof.
  split; [exact example_env_wf|]. split; [exact example_actions_valid|].
  split; [apply perm_swap|].
  exact (observation_order_irrelevant [2%nat] (example_env true).1
           (example_env true).2 _ _ example_env_wf example_actions_valid
           (perm_swap _ _ _)).
Defined.

Lemma simple_render_frame_witness :
  "human"%string <> "rgb_array"%string /\
  SimpleEnv.render "human" ((example_env true).1, (example_env true).2)
    = (Raise AssertionError, ((example_env true).1, (example_env true).2)) /\
  exists frame,
    fst (SimpleEnv.render "rgb_array" ((example_env true).1, (example_env true).2))
      = Ok frame /\
    conforms [16; 8; 4]%nat uint8 frame.
Proof.
  assert (Hm : "human"%string <> "rgb_array"%string) by discriminate.
  split; [exact Hm|].
  destruct (simple_render_frame "human" (example_env true).1 (example_env true).2)
    as (Hraise & frame & Hr & Hc & _).
  split; [exact (Hraise Hm)|].
  exists frame. split; [by rewrite Hr | exact Hc].
Defined.

Lemma init_layout_witness :
  0 <= 2 < 2 ^ 32 /\
  exists e new,
    SimpleEnv.__init__ 2 [2%nat] uint8 true [] = (Ok e, new) /\
    SimpleEnv._max_steps e = 3 /\
    deref (Some (SimpleEnv._start_obs e)) new
      = Some (ObsDict [("obs_a", mk_ndarray [2%nat] uint8 [140; 33]);
                       ("obs_b", mk_ndarray [2%nat] uint8 [255; 114])]%string) /\
    NoDup (footprint e new).
Proof.
  assert (Hseed : 0 <= 2 < 2 ^ 32) by lia.
  split; [exact Hseed|].
  destruct (init_layout 2 [2%nat] uint8 true [] Hseed)
    as (e & new & o & Hinit & Hmax & _ & _ & _ & _ & Ho & _ & _ & Hnd & _).
  exists e, ([] ++ new). split; [exact Hinit|]. split; [exact Hmax|].
  split; [|exact Hnd].
  assert (Hc : SimpleEnv.__init__ 2 [2%nat] uint8 true []
               = (Ok (example_env true).1, (example_env true).2))
    by (vm_compute; reflexivity).
  rewrite Hinit in Hc. injection Hc as -> ->. vm_compute. reflexivity.
Defined.

Ltac example_wf_env :=
  vm_compute; split; [reflexivity|]; split; [discriminate|];
  split; [(by left) || (by right)|];
  eexists _, _, _, _; split; [reflexivity|]; split; [discriminate|];
  split; [reflexivity|]; split; [reflexivity|];
  split; (repeat split; try reflexivity; try discriminate;
          repeat constructor; discriminate).

Lemma example_state_envs : Vectorize._envs (example_state true).1 = example_envs.
Proof. vm_compute. reflexivity. Defined.

Lemma example_state_wf :
  wf_batch [2%nat] uint8 true (Vectorize._envs (example_state true).1)
           (example_state true).2.
Proof.
  rewrite example_state_envs. split.
  - unfold example_envs.
    apply Forall_cons; split; [|apply Forall_cons; split; [|apply Forall_nil_2]].
    + split; [|split; reflexivity]. example_wf_env.
    + split; [|split; reflexivity]. example_wf_env.
  - assert (F0 : forall e, example_envs !! 0%nat = Some e ->
                   footprint e (example_state true).2 = [0; 1; 2]%nat)
      by (intros e [= <-]; vm_compute; reflexivity).
    assert (F1 : forall e, example_envs !! 1%nat = Some e ->
                   footprint e (example_state true).2 = [3; 4; 5]%nat)
      by (intros e [= <-]; vm_compute; reflexivity).
    intros i j ei ej Hne Hi Hj l Hli Hlj.
    destruct i as [|[|i]], j as [|[|j]]; try done.
    + rewrite (F0 ei Hi) in Hli. rewrite (F1 ej Hj) in Hlj.
      rewrite !elem_of_cons, elem_of_nil in Hli, Hlj. lia.
    + rewrite (F1 ei Hi) in Hli. rewrite (F0 ej Hj) in Hlj.
      rewrite !elem_of_cons, elem_of_nil in Hli, Hlj. lia.
Defined.

Lemma example_state_ready :
  batch_ready [2%nat] uint8 true (example_state true).1 (example_state true).2.
Proof.
  split; [rewrite example_state_envs; discriminate|].
  split; [exact example_state_wf|]. split; [vm_compute; reflexivity|].
  rewrite example_state_envs. unfold example_envs.
  repeat (apply Forall_cons; split; [reflexivity|]). apply Forall_nil_2.
Defined.

Lemma vectorize_init_batch_witness :
  [0; 2] <> [] /\
  Forall (fun seed => 0 <= seed < 2 ^ 32) [0; 2] /\
  exists v new,
    Vectorize.__init__ (make_envs [0; 2] [2%nat] uint8 true) [] = (Ok v, new) /\
    length (Vectorize._envs v) = 2%nat /\
    map SimpleEnv._max_steps (Vectorize._envs v) = [1; 3] /\
    Vectorize.observation_space v = simple_space [2%nat] uint8 true.
Proof.
  assert (Hne : [0; 2] <> []) by discriminate.
  assert (Hs : Forall (fun seed => 0 <= seed < 2 ^ 32) [0; 2])
    by (repeat (apply Forall_cons; split; [lia|]); apply Forall_nil_2).
  split; [exact Hne|]. split; [exact Hs|].
  destruct (vectorize_init_batch [2%nat] uint8 true [0; 2] [] Hne Hs)
    as (v & new & Hinit & Hlen & _ & Hos & _ & _ & Hmax & _).
  exists v, new. split; [exact Hinit|]. split; [exact Hlen|].
  split; [exact Hmax|exact Hos].
Defined.

Lemma vectorize_reset_batch_witness :
  Vectorize._envs (example_state true).1 <> [] /\
  wf_batch [2%nat] uint8 true (Vectorize._envs (example_state true).1)
           (example_state true).2 /\
  Vectorize.observation_space (example_state true).1 = simple_space [2%nat] uint8 true /\
  exists o v',
    Vectorize.reset ((example_state true).1, (example_state true).2)
      = (Ok o, (v', (example_state true).2)) /\
    Vectorize.reset (v', (example_state true).2) = (Ok o, (v', (example_state true).2)).
Proof.
  assert (Hne : Vectorize._envs (example_state true).1 <> [])
    by (rewrite example_state_envs; discriminate).
  assert (Hos : Vectorize.observation_space (example_state true).1
                = simple_space [2%nat] uint8 true) by (vm_compute; reflexivity).
  split; [exact Hne|]. split; [exact example_state_wf|]. split; [exact Hos|].
  destruct (vectorize_reset_batch [2%nat] uint8 true (example_state true).1
              (example_state true).2 Hne example_state_wf Hos)
    as (os & o & v' & _ & _ & Hr & _ & _ & _ & Hr2).
  exists o, v'. split; [exact Hr|exact Hr2].
Defined.

Lemma vectorize_step_batch_witness :
  batch_ready [2%nat] uint8 true (example_state true).1 (example_state true).2 /\
  length example_actions = length (Vectorize._envs (example_state true).1) /\
  Forall (valid_action [2%nat]) example_actions /\
  exists o v' h',
    (Vectorize.step_async example_actions ;; Vectorize.step_wait)
      ((example_state true).1, (example_state true).2)
      = (Ok (o, [binary64 (1 # 1); binary64 (1 # 3)], [true; false], [[]; []]),
         (v', h')) /\
    batch_ready [2%nat] uint8 true v' h'.
Proof.
  assert (Hlen : length example_actions
                 = length (Vectorize._envs (example_state true).1))
    by (rewrite example_state_envs; reflexivity).
  split; [exact example_state_ready|]. split; [exact Hlen|].
  split; [exact example_actions_valid|].
  destruct (vectorize_step_batch [2%nat] uint8 true (example_state true).1
              (example_state true).2 example_actions example_state_ready Hlen
              example_actions_valid)
    as (os & o & v' & h' & Hstep & _ & _ & _ & _ & Hready).
  exists o, v', h'. split; [|exact Hready].
  rewrite Hstep, example_state_envs. reflexivity.
Defined.

Lemma vectorize_render_batch_witness :
  Vectorize._envs (example_state true).1 <> [] /\
  wf_batch [2%nat] uint8 true (Vectorize._envs (example_state true).1)
           (example_state true).2 /\
  exists a v',
    Vectorize.render "rgb_array" ((example_state true).1, (example_state true).2)
      = (Ok a, (v', (example_state true).2)) /\
    nd_shape a = [2; 16; 8; 4]%nat /\ nd_dtype a = uint8.
Proof.
  assert (Hne : Vectorize._envs (example_state true).1 <> [])
    by (rewrite example_state_envs; discriminate).
  split; [exact Hne|]. split; [exact example_state_wf|].
  destruct (vectorize_render_batch [2%nat] uint8 true (example_state true).1
              (example_state true).2 Hne example_state_wf)
    as (a & v' & Hr & Hs & Hd & _).
  exists a, v'. split; [exact Hr|]. split; [|exact Hd].
  rewrite Hs, example_state_envs. reflexivity.
Defined.

Lemma test_simple_env_env1_runs_witness :
  [0; 2] <> [] /\
  Forall (fun seed => 0 <= seed < 2 ^ 32) [0; 2] /\
  Forall (fun acts => length acts = length [0; 2] /\
                      Forall (valid_action [2%nat]) acts)
         [example_actions; example_actions] /\
  exists v h obs1 outs v' h',
    Vectorize.__init__ (make_envs [0; 2] [2%nat] uint8 true) [] = (Ok v, h) /\
    (let* obs1 := Vectorize.reset in
     let* outs := for_each [example_actions; example_actions] test_round in
     (Vectorize.close ;; ret (obs1, outs))) (v, h) = (Ok (obs1, outs), (v', h')) /\
    map (fun out => out.1.1.2) outs = [[true; false]; [true; false]] /\
    map SimpleEnv._cur_step (Vectorize._envs v') = [2; 2].
Proof.
  assert (Hne : [0; 2] <> []) by discriminate.
  assert (Hs : Forall (fun seed => 0 <= seed < 2 ^ 32) [0; 2])
    by (repeat (apply Forall_cons; split; [lia|]); apply Forall_nil_2).
  assert (Hr : Forall (fun acts => length acts = length [0; 2] /\
                                   Forall (valid_action [2%nat]) acts)
                      [example_actions; example_actions])
    by (repeat (apply Forall_cons; split; [split; [reflexivity|exact example_actions_valid]|]);
        apply Forall_nil_2).
  split; [exact Hne|]. split; [exact Hs|]. split; [exact Hr|].
  destruct (test_simple_env_env1_runs [2%nat] uint8 true [0; 2]
              [example_actions; example_actions] [] Hne Hs Hr)
    as (v & h & obs1 & outs & v' & h' & Hinit & Hrun & Hlen & _ & Hcur & Hout).
  exists v, h, obs1, outs, v', h'. split; [exact Hinit|]. split; [exact Hrun|].
  split; [|exact Hcur].
  destruct outs as [|o0 [|o1 [|o2 outs]]]; try discriminate Hlen.
  destruct (Hout 0%nat o0 eq_refl) as (_ & Hd0 & _).
  destruct (Hout 1%nat o1 eq_refl) as (_ & Hd1 & _).
  simpl. rewrite Hd0, Hd1. reflexivity.
Defined.

Lemma image_env_batch_witness :
  [7; 300] <> [] /\
  exists v h,
    Vectorize.__init__ (map ImageEnv.__init__ [7; 300]) [] = (Ok v, h) /\
    Vectorize.reset (v, h) = (Ok (ObsArr (mk_ndarray [2%nat] uint8 [7; 44])), (v, h)) /\
    (Vectorize.step_async [mk_ndarray [] int64 [1]; mk_ndarray [] int64 [2]] ;;
     Vectorize.step_wait) (v, h)
      = (Ok (ObsArr (mk_ndarray [2%nat] uint8 [7; 44]), [0%Q; 0%Q], [false; false],
             [[]; []]),
         (Vectorize.set_act (Some [mk_ndarray [] int64 [1]; mk_ndarray [] int64 [2]]) v,
          h)) /\
    Vectorize.render "rgb_array" (v, h) = (Raise AttributeError, (v, h)).
Proof.
  assert (Hne : [7; 300] <> []) by discriminate.
  split; [exact Hne|].
  destruct (image_env_batch [7; 300] [] Hne) as (Hinit & Hreset & Hstep & Hrender).
  eexists _, _. split; [exact Hinit|]. split; [exact (Hreset None)|].
  split; [|exact (Hrender None)].
  apply (Hstep None). simpl. lia.
Defined.

Lemma rollout_image_env_witness :
  [7; 300] <> [] /\
  (length [7; 300]
   <= length [mk_ndarray [] int64 [1%Z]; mk_ndarray [] int64 [2%Z]])%nat /\
  rollout [mk_ndarray [] int64 [1]; mk_ndarray [] int64 [2]] 1000
    (image_batch None (length (@nil pyobj)) (length [7; 300]),
     [] ++ image_objects [7; 300])
  = (Ok tt,
     (image_batch (Some [mk_ndarray [] int64 [1]; mk_ndarray [] int64 [2]])
        (length (@nil pyobj)) (length [7; 300]),
      [] ++ image_objects [7; 300])).
Proof.
  assert (Hne : [7; 300] <> []) by discriminate.
  assert (Hlen : (length [7; 300]
                  <= length [mk_ndarray [] int64 [1%Z]; mk_ndarray [] int64 [2%Z]])%nat)
    by (simpl; lia).
  split; [exact Hne|]. split; [exact Hlen|].
  exact (proj1 (rollout_image_env [7; 300] []
                  [mk_ndarray [] int64 [1]; mk_ndarray [] int64 [2]] 1000 None
                  Hne Hlen)).
Defined.

Lemma episode_ends_with_reward_one_witness :
  wf_env [2%nat] (example_env true).1 (example_env true).2 /\
  Forall (valid_action [2%nat]) (example_actions ++ take 1 example_actions) /\
  Z.of_nat (length (example_actions ++ take 1 example_actions))
    = SimpleEnv._max_steps (example_env true).1 /\
  exists outs e' h',
    (SimpleEnv.reset ;;
     for_each (example_actions ++ take 1 example_actions) SimpleEnv.step)
      ((example_env true).1, (example_env true).2) = (Ok outs, (e', h')) /\
    map (fun o => o.1.2) outs = [false; false; true] /\
    map (fun o => o.1.1.2) outs !! 2%nat = Some 1%Q.
Proof.
  assert (Hv : Forall (valid_action [2%nat]) (example_actions ++ take 1 example_actions))
    by repeat constructor.
  assert (Hm : Z.of_nat (length (example_actions ++ take 1 example_actions))
               = SimpleEnv._max_steps (example_env true).1) by reflexivity.
  split; [exact example_env_wf|]. split; [exact Hv|]. split; [exact Hm|].
  destruct (episode_ends_with_reward_one [2%nat] (example_env true).1
              (example_env true).2 (example_actions ++ take 1 example_actions)
              example_env_wf Hv Hm)
    as (outs & e' & h' & Hrun & Hlen & Hout).
  exists outs, e', h'. split; [exact Hrun|].
  destruct outs as [|o0 [|o1 [|o2 [|o3 outs]]]]; try discriminate Hlen.
  destruct (Hout 0%nat o0 eq_refl) as [H0 _].
  destruct (Hout 1%nat o1 eq_refl) as [H1 _].
  destruct (Hout 2%nat o2 eq_refl) as [_ H2].
  destruct (H2 eq_refl) as [H2d H2r].
  simpl. rewrite H0, H1, H2d, H2r by (simpl; lia). split; reflexivity.
Defined.

Lemma vectorize_init_errors_witness :
  @Vectorize.__init__ SimpleEnv.t _ [] [] = (Raise IndexError, []) /\
  exists envs h1,
    for_each [SimpleEnv.__init__ 0 [2%nat] uint8 false] (fun fn => fn) []
      = (Ok envs, h1) /\
    SimpleEnv.__init__ (-1) [2%nat] uint8 false h1 = (Raise ValueError, h1) /\
    Vectorize.__init__
      ([SimpleEnv.__init__ 0 [2%nat] uint8 false]
       ++ SimpleEnv.__init__ (-1) [2%nat] uint8 false
          :: [SimpleEnv.__init__ 2 [2%nat] uint8 false]) []
      = (Raise ValueError, h1) /\
    length h1 = 1%nat.
Proof.
  destruct (@vectorize_init_errors SimpleEnv.t _) as [Hnil Hraise].
  split; [exact (Hnil [])|].
  eexists _, _. split; [reflexivity|]. split; [reflexivity|]. split; [|reflexivity].
  eapply Hraise; reflexivity.
Defined.
End Witnesses.
